(** * Multi-partner learning: aggregation, epoch loop and scenario checks

    A shallow embedding of
    - [fl_training.py]: [compute_test_score_for_single_node] and
      [compute_test_score] (federated epoch loop, averaging of the
      weights, early stopping, final aggregation);
    - [mplc/scenario.py]: the validation sequence of [Scenario.__init__],
      the keywords it transfers to the learning approach,
      [Scenario.instantiate_scenario_partners] and
      [Scenario.compute_batch_sizes];
    - [subtest/utils.py]: [get_scenario_params_list], with the split of
      the data sets, the combinations and the length checks;
    - [mplc/experiment.py]: [Experiment.__init__],
      [define_experiment_path], [add_scenario] and the loop of
      [init_experiment_from_config_file].

    The scalars of the weight arrays are of a type that is left open,
    with numpy's mean on it taken as given: no property of floating
    point arithmetic is assumed. Losses, accuracies and the amounts of
    a scenario, which the code stores, compares and copies, are finite
    floats; they are rationals [Qc], and where the code adds them up
    the sum is numpy's, taken as given too. *)

From stdpp Require Import base option list numbers strings gmap.
From Stdlib Require Import QArith Qcanon.
From Stdlib Require Floats.

#[global] Close Scope Qc_scope.
#[global] Close Scope Q_scope.
#[global] Open Scope nat_scope.

(** ** Python helpers *)

Module Py.

(** Exceptions raised by the modelled code. *)
Inductive exn : Type :=
  | AttributeError
  | ValueError
  | IndexError
  | KeyError
  | AssertionError
  | TypeError
  | ZeroDivisionError
  | NameError
  | FileNotFoundError
  | Exception.

#[global] Instance exn_eq_dec : EqDecision exn.
Proof. solve_decision. Defined.

(** Python's [zip] applied to the unpacked [ls]: the tuples of the i-th
    elements, as long as every list has one; with no list at all, nothing is produced. *)
Definition heads {A} (ls : list (list A)) : option (list A) := mapM head ls.

Fixpoint zip_star_aux {A} (fuel : nat) (ls : list (list A)) : list (list A) :=
  match fuel with
  | O => []
  | S fuel' =>
      match heads ls with
      | None => []
      | Some hs => hs :: zip_star_aux fuel' (tail <$> ls)
      end
  end.

Definition zip_star {A} (ls : list (list A)) : list (list A) :=
  match ls with
  | [] => []
  | l :: _ => zip_star_aux (length l) ls
  end.

(** [sum(l)] over rationals. *)
Definition sum_Qc (l : list Qc) : Qc := foldr Qcplus 0%Qc l.

(** [l[-k]] for a non-negative [k]: [l[-0]] is [l[0]]; [k] beyond the
    length is an [IndexError]. *)
Definition neg_index {A} (l : list A) (k : nat) : exn + A :=
  match k with
  | O => match l !! 0%nat with Some x => inr x | None => inl IndexError end
  | S _ =>
      if decide (k ≤ length l)%nat
      then match l !! (length l - k)%nat with
           | Some x => inr x
           | None => inl IndexError
           end
      else inl IndexError
  end.

(** Computations that may raise. *)
Definition E (A : Type) : Type := exn + A.

#[global] Instance E_ret : MRet E := λ A a, inr a.
#[global] Instance E_bind : MBind E := λ A B k m,
  match m with
  | inl e => inl e
  | inr a => k a
  end.

Definition throw {A} (e : exn) : E A := inl e.

(** [assert b]. *)
Definition py_assert (b : bool) : E () :=
  if b then mret () else throw AssertionError.

(** [for x in l: body], where the body may raise. *)
Fixpoint for_each {A} (body : A → E ()) (l : list A) : E () :=
  match l with
  | [] => mret ()
  | x :: rest => body x;; for_each body rest
  end.

(** [int(a / b)] on integers: true division, then truncation towards
    zero. *)
Definition int_div (a b : Z) : E Z :=
  if decide (b = 0%Z) then throw ZeroDivisionError else mret (Z.quot a b).

(** [np.clip(a, a_min, a_max)], that is
    [minimum(a_max, maximum(a, a_min))]. *)
Definition np_clip (a a_min a_max : Z) : Z := Z.min a_max (Z.max a a_min).

(** The values found in a configuration. *)
Inductive value : Type :=
  | VNone
  | VBool (b : bool)
  | VInt (z : Z)
  | VFloat (x : Qc)
  | VStr (s : string)
  | VList (l : list value)
  | VDict (d : list (string * value)).

(** A dictionary with string keys, in insertion order. *)
Fixpoint dict_get {A} (d : list (string * A)) (key : string) : option A :=
  match d with
  | [] => None
  | (k, x) :: rest => if decide (k = key) then Some x else dict_get rest key
  end.

(** [d[key]]. *)
Definition dict_item {A} (d : list (string * A)) (key : string) : E A :=
  match dict_get d key with
  | Some v => mret v
  | None => throw KeyError
  end.

(** [d[key] = v]: an existing key keeps its place. *)
Fixpoint dict_set {A} (d : list (string * A)) (key : string) (v : A) : list (string * A) :=
  match d with
  | [] => [(key, v)]
  | (k, x) :: rest =>
      if decide (k = key) then (k, v) :: rest else (k, x) :: dict_set rest key v
  end.

End Py.

(** ** Averaging of the weights ([fl_training.py], lines 119-126 and 179-184) *)

Module Aggregation.
Import Py.

(** The arithmetic of numpy on the scalars of the weight arrays is
    floating point: it rounds, and the order of its additions is its
    own. It is taken as given. [np_mean dims values] is the element
    that [np.array(slices).mean(axis=0)] computes from the [values]
    that the slices, arrays of dimensions [dims], hold at one
    position, in the order of the slices. *)
Class Numpy (F : Type) := np_mean : list nat → list F → F.
#[global] Hint Mode Numpy ! : typeclass_instances.

(** One slice [tensor[j]] along the first axis of a tensor: an array,
    with its dimensions and its elements in row-major order. *)
Record Slice (F : Type) := mkSlice {
  dims : list nat;
  elems : list F;
}.
#[global] Arguments mkSlice {F} dims elems.
#[global] Arguments dims {F} s.
#[global] Arguments elems {F} s.

#[global] Instance Slice_eq_dec {F} `{EqDecision F} : EqDecision (Slice F).
Proof. solve_decision. Defined.

#[global] Instance Slice_inhabited {F} : Inhabited (Slice F) := populate (mkSlice [] []).

(** A tensor is the list of its slices; [model.get_weights()] is a list
    of tensors. *)
Abbreviation Tensor F := (list (Slice F)).
Abbreviation Weights F := (list (list (Slice F))).

(** The shape of a weight list: the dimensions and the number of
    elements of every slice of every tensor. *)
Abbreviation Shape := (list (list (list nat * nat))).

Section aggregation.
Context {F : Type} `{!Numpy F}.

(** [np.array(weights_)] needs slices of one shape. *)
Definition same_array (s s' : Slice F) : bool :=
  bool_decide (dims s' = dims s) && bool_decide (length (elems s') = length (elems s)).

(** [np.array(weights_).mean(axis=0)]: the slices must have one
    shape; the result has that shape, and each of its elements is
    numpy's mean of the elements of the slices at its position. *)
Definition np_mean_axis0 (slices : list (Slice F)) : option (Slice F) :=
  match slices with
  | [] => None
  | s :: _ =>
      if forallb (same_array s) slices
      then Some {| dims := dims s;
                   elems := np_mean (dims s) <$> zip_star (elems <$> slices) |}
      else None
  end.

(** The two nested comprehensions:
    for every [weights_list_tuple] of the unpacked-and-zipped [weights],
    append the list of [np.array(weights_).mean(axis=0)] for every
    [weights_] of the unpacked-and-zipped [weights_list_tuple]. *)
Definition average_weights (weights : list (Weights F)) : option (Weights F) :=
  mapM (λ weights_list_tuple, mapM np_mean_axis0 (zip_star weights_list_tuple))
       (zip_star weights).

Definition shape (w : Weights F) : Shape :=
  (λ t : Tensor F, (λ s : Slice F, (dims s, length (elems s))) <$> t) <$> w.

(** Element [i] of slice [j] of tensor [k]. *)
Definition entry (w : Weights F) (k j i : nat) : option F :=
  match w !! k with
  | Some t => match t !! j with Some s => elems s !! i | None => None end
  | None => None
  end.

(** The dimensions of slice [j] of tensor [k] in a shape. *)
Definition dims_at (sh : Shape) (k j : nat) : list nat := ((sh !!! k) !!! j).1.

#[local] Instance F_inhabited : Inhabited F := populate (np_mean [] []).

(** The elements that the snapshots [ws] hold at one position, in the
    order of the snapshots. *)
Definition values_at (ws : list (Weights F)) (k j i : nat) : list F :=
  (λ w : Weights F, elems ((w !!! k) !!! j) !!! i) <$> ws.

(** The weight list of shape [sh] whose elements are given by [f]. *)
Definition tabulate (sh : Shape) (f : nat → nat → nat → F) : Weights F :=
  (λ k, (λ j, {| dims := dims_at sh k j;
                 elems := f k j <$> seq 0 ((sh !!! k) !!! j).2 |})
          <$> seq 0 (length (sh !!! k)))
    <$> seq 0 (length sh).

(** numpy's mean of the snapshots [ws], of shape [sh], at one
    position. *)
Definition mean_entry (sh : Shape) (ws : list (Weights F)) (k j i : nat) : F :=
  np_mean (dims_at sh k j) (values_at ws k j i).
End aggregation.

(** *** The weightings of the specification

    They are stated in exact arithmetic, over the rationals. *)

Definition Qc_of_nat (n : nat) : Qc := Q2Qc (inject_Z (Z.of_nat n)).

#[global] Instance Qc_inhabited : Inhabited Qc := populate 0%Qc.

(** [Σ w_i · x_i]. *)
Definition weighted_mean (weights values : list Qc) : Qc :=
  sum_Qc (zip_with Qcmult weights values).

(** [uniform]: every weight is [1/n]. *)
Definition uniform_weights (n : nat) : list Qc :=
  replicate n (1 / Qc_of_nat n)%Qc.

(** [data-volume]: the weight of partner [i] is
    [data_volume_i / Σ data_volume_j]. *)
Definition data_volume_weights (volumes : list nat) : list Qc :=
  (λ v, Qc_of_nat v / Qc_of_nat (sum_list volumes))%Qc <$> volumes.

End Aggregation.
(** ** The training engine ([fl_training.py]) *)

Module FlTraining.
Import Py Aggregation.

Section engine.
(** Input samples, labels, the hidden state of Keras, numpy and the
    file system (the random generators used to initialise and to
    shuffle, the files written), and the scalars of the weight
    arrays with numpy's arithmetic on them. *)
Context {Sample Label World F : Type} `{!Numpy F}.
Local Abbreviation Weights := (Weights F).

(** A node (partner) with the arrays the engine reads. *)
Record Node := mkNode {
  node_id : string;
  x_train : list Sample;
  y_train : list Label;
  x_val : list Sample;
  y_val : list Label;
  x_test : list Sample;
  y_test : list Label;
}.

(** [history.history] of a call to [fit]. *)
Record History := mkHistory {
  val_acc : list Qc;
  acc : list Qc;
}.

(** The primitives of the trainable model; a model is identified with
    its weights.
    - [utils.generate_new_cnn_model()];
    - [model.fit(x, y, batch_size, epochs, verbose=0, validation_data)];
    - [model.evaluate(x, y, batch_size, verbose=0)], giving loss and
      accuracy. *)
Variable generate_new_cnn_model : World → Weights * World.
Variable keras_fit :
  Weights → list Sample → list Label → nat → nat →
  list Sample → list Label → World → (Weights * History) * World.
Variable keras_evaluate : Weights → list Sample → list Label → nat → Qc * Qc.

(** [constants.BATCH_SIZE] and [constants.PATIENCE]. *)
Variable BATCH_SIZE : nat.
Variable PATIENCE : nat.

(** The value passed as [save_folder]: a string, as the default [''],
    or a [pathlib.Path]. *)
Inductive folder : Type :=
  | Str (s : string)
  | Path (p : string).

(** A file of a folder. *)
Definition path : Type := string * string.

(** [save_folder / name]: a string has no such operator. *)
Definition truediv (save_folder : folder) (name : string) : E path :=
  match save_folder with
  | Str _ => inl TypeError
  | Path p => inr (p, name)
  end.

(** The arrays that are saved and plotted: a list of losses or of
    accuracies, or rows of the score matrix. *)
Inductive array : Type :=
  | Vector (v : list Qc)
  | Matrix (m : list (list Qc)).

(** The calls that write a file or draw:
    - [np.save(file, arr)];
    - [plt.figure()];
    - [plt.plot(arr)], with the title, labels, legend and limits that
      follow it;
    - [plt.savefig(file)]. *)
Inductive request : Type :=
  | NpSave (file : path) (arr : array)
  | Figure
  | Plot (arr : array)
  | Savefig (file : path).

(** What such a call does is numpy's and matplotlib's: it may raise
    (a folder that does not exist, for one), and it changes the
    hidden state. *)
Variable file_io : request → World → option exn * World.

(** What a run does, in order: the epoch announced by the loop, the
    calls to the primitives, the averaging steps and the calls that
    write a file or draw. *)
Inductive event : Type :=
  | EvEpoch (epoch : nat)
  | EvNewModel (w : Weights)
  | EvSetWeights (w : Weights)
  | EvAverage (weights : list Weights) (new_weights : Weights)
  | EvFit (node : Node) (w0 : Weights) (epochs : nat) (w1 : Weights) (h : History)
  | EvEvaluate (w : Weights) (x : list Sample) (y : list Label) (loss accuracy : Qc)
  | EvIO (r : request).

Record state := mkState {
  world : World;
  trace : list event;
}.

(** Computations that read and write the state and may raise; the
    state reached is kept when an exception is raised. *)
Definition M (A : Type) : Type := state → (exn + A) * state.

#[global] Instance M_ret : MRet M := λ A a st, (inr a, st).
#[global] Instance M_bind : MBind M := λ A B k m st,
  match m st with
  | (inl e, st') => (inl e, st')
  | (inr a, st') => k a st'
  end.

Definition raise {A} (e : exn) : M A := λ st, (inl e, st).

Definition emit (ev : event) : M () := λ st,
  (inr (), {| world := world st; trace := trace st ++ [ev] |}).

Definition new_model : M Weights := λ st,
  let '(w, wd) := generate_new_cnn_model (world st) in
  (inr w, {| world := wd; trace := trace st ++ [EvNewModel w] |}).

Definition set_weights (w : Weights) : M Weights :=
  emit (EvSetWeights w);; mret w.

(** [model.fit(node.x_train, node.y_train, batch_size=BATCH_SIZE,
    epochs=epochs, verbose=0, validation_data=(node.x_val, node.y_val))]. *)
Definition fit (model : Weights) (node : Node) (epochs : nat) : M (Weights * History) := λ st,
  let '((w1, h), wd) :=
    keras_fit model (x_train node) (y_train node) BATCH_SIZE epochs
              (x_val node) (y_val node) (world st) in
  (inr (w1, h), {| world := wd; trace := trace st ++ [EvFit node model epochs w1 h] |}).

Definition evaluate (model : Weights) (x : list Sample) (y : list Label) : M (Qc * Qc) := λ st,
  let '(loss, accuracy) := keras_evaluate model x y BATCH_SIZE in
  (inr (loss, accuracy),
   {| world := world st; trace := trace st ++ [EvEvaluate model x y loss accuracy] |}).

Definition lift {A} (r : E A) : M A := λ st, (r, st).

(** A call that writes or draws; it is recorded, also when it raises. *)
Definition perform (r : request) : M () := λ st,
  let '(failure, wd) := file_io r (world st) in
  (match failure with Some e => inl e | None => inr () end,
   {| world := wd; trace := trace st ++ [EvIO r] |}).

(** *** Single partner training (lines 46-72) *)
Definition compute_test_score_for_single_node (node : Node) (epoch_count : nat) : M Qc :=
  model ← new_model;
  trained ← fit model node epoch_count;
  model_evaluation ← evaluate trained.1 (x_test node) (y_test node);
  mret model_evaluation.2.

(** The specification's plain single-model run: train one fresh model
    on the partner's data for the whole epoch budget, evaluate it on
    the partner's test data, report the accuracy. Written from the
    specification, to be compared with the code. *)
Definition spec_single_model_score (node : Node) (epoch_budget : nat) (wd : World) : Qc :=
  let fresh := generate_new_cnn_model wd in
  let trained :=
    keras_fit fresh.1 (x_train node) (y_train node) BATCH_SIZE epoch_budget
              (x_val node) (y_val node) fresh.2 in
  (keras_evaluate trained.1.1 (x_test node) (y_test node) BATCH_SIZE).2.

(** *** Distributed learning training (lines 87-235) *)

(** The variables of the epoch loop. [val_acc_list] and [acc_list] are
    rebuilt at every epoch and never read; they are left out.
    [loop_epoch] is the loop variable [epoch], which is read after the
    loop (line 216) and is not bound before the first iteration. *)
Record loop_vars := mkVars {
  model_list : list (option Weights);
  score_matrix : list (list Qc);
  global_val_acc : list Qc;
  global_val_loss : list Qc;
  loop_epoch : option nat;
}.

(** [for epoch in ...] binds [epoch]. *)
Definition bind_epoch (epoch : nat) (vars : loop_vars) : loop_vars :=
  {| model_list := model_list vars;
     score_matrix := score_matrix vars;
     global_val_acc := global_val_acc vars;
     global_val_loss := global_val_loss vars;
     loop_epoch := Some epoch |}.

(** [weights = [model.get_weights() for model in model_list]] followed
    by the averaging (lines 119-126 and 179-184); an entry still
    [None] has no [get_weights]. *)
Definition aggregate (models : list (option Weights)) : M Weights :=
  match mapM id models with
  | None => raise AttributeError
  | Some weights =>
      match average_weights weights with
      | None => raise ValueError
      | Some new_weights => emit (EvAverage weights new_weights);; mret new_weights
      end
  end.

(** One turn of the training loop (lines 153-175). [seed] is [None] in
    the first epoch and the averaged weights afterwards
    ([if not is_first_epoch: node_model.set_weights(new_weights)]). *)
Definition train_node (epoch : nat) (seed : option Weights)
    (vars : loop_vars) (node_index : nat) (node : Node) : M loop_vars :=
  node_model ← new_model;
  node_model ← match seed with
               | None => mret node_model
               | Some new_weights => set_weights new_weights
               end;
  trained ← fit node_model node 1;
  match val_acc trained.2 !! 0%nat with
  | None => raise IndexError
  | Some v =>
      mret {| model_list := <[node_index := Some trained.1]> (model_list vars);
              score_matrix := alter (λ row, <[node_index := v]> row) epoch (score_matrix vars);
              global_val_acc := global_val_acc vars;
              global_val_loss := global_val_loss vars;
              loop_epoch := loop_epoch vars |}
  end.

(** [for node_index, node in enumerate(node_list)]. *)
Fixpoint training_phase (epoch : nat) (seed : option Weights)
    (nodes : list (nat * Node)) (vars : loop_vars) : M loop_vars :=
  match nodes with
  | [] => mret vars
  | (node_index, node) :: rest =>
      vars ← train_node epoch seed vars node_index node;
      training_phase epoch seed rest vars
  end.

Definition enumerate {A} (l : list A) : list (nat * A) := imap (λ i x, (i, x)) l.

(** [epoch >= PATIENCE and current_val_loss > global_val_loss[-PATIENCE]]
    (line 146), read after the current loss was appended. *)
Definition early_stop (epoch : nat) (current_val_loss : Qc) (losses : list Qc) : M bool :=
  if decide (PATIENCE ≤ epoch)%nat then
    match neg_index losses PATIENCE with
    | inl e => raise e
    | inr past => mret (bool_decide (past < current_val_loss)%Qc)
    end
  else mret false.

Inductive flow (A : Type) : Type :=
  | Continue (a : A)
  | Break (a : A).
#[global] Arguments Continue {A} a.
#[global] Arguments Break {A} a.

Definition flow_val {A} (f : flow A) : A :=
  match f with Continue a | Break a => a end.

(** The block under [if is_save_fig:] (lines 196-223): three arrays
    saved and three figures drawn and saved, in this order. *)
Definition save_history (save_folder : folder) (vars : loop_vars) : M () :=
  file ← lift (truediv save_folder "score_matrix");
  perform (NpSave file (Matrix (score_matrix vars)));;
  file ← lift (truediv save_folder "global_val_acc");
  perform (NpSave file (Vector (global_val_acc vars)));;
  file ← lift (truediv save_folder "global_val_loss");
  perform (NpSave file (Vector (global_val_loss vars)));;
  perform Figure;;
  perform (Plot (Vector (global_val_loss vars)));;
  file ← lift (truediv save_folder "federated_training_loss.png");
  perform (Savefig file);;
  perform Figure;;
  perform (Plot (Vector (global_val_acc vars)));;
  file ← lift (truediv save_folder "federated_training_acc.png");
  perform (Savefig file);;
  perform Figure;;
  match loop_epoch vars with
  | None => raise NameError
  | Some epoch =>
      perform (Plot (Matrix (take (epoch + 1) (score_matrix vars))));;
      file ← lift (truediv save_folder "all_nodes.png");
      perform (Savefig file)
  end.

(** The arguments of [compute_test_score]. Its [x_test] and [y_test]
    are written [x_test_global] and [y_test_global] here, the names
    [x_test] and [y_test] being those of the fields of a node. *)
Section run.
Variable node_list : list Node.
Variable x_test_global : list Sample.
Variable y_test_global : list Label.
Variable is_early_stopping : bool.
Variable is_save_fig : bool.
Variable save_folder : folder.

(** The body of [for epoch in range(epochs)] (lines 106-175). *)
Definition epoch_body (epoch : nat) (vars : loop_vars) : M (flow loop_vars) :=
  let vars := bind_epoch epoch vars in
  emit (EvEpoch epoch);;
  let is_first_epoch := bool_decide (epoch = 0%nat) in
  if is_first_epoch then
    vars ← training_phase epoch None (enumerate node_list) vars;
    mret (Continue vars)
  else
    new_weights ← aggregate (model_list vars);
    aggregated_model ← new_model;
    aggregated_model ← set_weights new_weights;
    model_evaluation ← evaluate aggregated_model x_test_global y_test_global;
    let current_val_loss := model_evaluation.1 in
    let vars :=
      {| model_list := model_list vars;
         score_matrix := score_matrix vars;
         global_val_acc := global_val_acc vars ++ [model_evaluation.2];
         global_val_loss := global_val_loss vars ++ [current_val_loss];
         loop_epoch := loop_epoch vars |} in
    stop ← (if is_early_stopping
            then early_stop epoch current_val_loss (global_val_loss vars)
            else mret false);
    if (stop : bool) then mret (Break vars)
    else
      vars ← training_phase epoch (Some new_weights) (enumerate node_list) vars;
      mret (Continue vars).

Fixpoint epoch_loop (epochs : list nat) (vars : loop_vars) : M (flow loop_vars) :=
  match epochs with
  | [] => mret (Continue vars)
  | epoch :: rest =>
      r ← epoch_body epoch vars;
      match r with
      | Break vars => mret (Break vars)
      | Continue vars => epoch_loop rest vars
      end
  end.

Definition compute_test_score (epoch_count : nat) : M Qc :=
  let nodes_count := length node_list in
  if decide (nodes_count = 1%nat) then
    match node_list !! 0%nat with
    | Some node => compute_test_score_for_single_node node epoch_count
    | None => raise IndexError
    end
  else
    let epochs := epoch_count in
    r ← epoch_loop (seq 0 epochs)
          {| model_list := replicate nodes_count None;
             score_matrix := replicate epochs (replicate nodes_count 0%Qc);
             global_val_acc := [];
             global_val_loss := [];
             loop_epoch := None |};
    new_weights ← aggregate (model_list (flow_val r));
    final_model ← new_model;
    final_model ← set_weights new_weights;
    (if is_save_fig then save_history save_folder (flow_val r) else mret ());;
    model_evaluation ← evaluate final_model x_test_global y_test_global;
    mret model_evaluation.2.
End run.
End engine.

#[global] Arguments Node : clear implicits.
#[global] Arguments event : clear implicits.
#[global] Arguments state : clear implicits.
#[global] Arguments loop_vars : clear implicits.
#[global] Arguments M : clear implicits.

End FlTraining.

(** ** Reading a trace *)

Module Trace.
Import Py Aggregation FlTraining.

Section trace.
Context {Sample Label F : Type} `{!Numpy F}.
Local Abbreviation Weights := (Weights F).
Local Abbreviation event := (event Sample Label F).
Local Abbreviation Node := (Node Sample Label).

(** The epochs announced by the loop, in order. *)
Definition epochs_announced (evs : list event) : list nat :=
  omap (λ ev, match ev with EvEpoch e => Some e | _ => None end) evs.

(** The number of training epochs asked of [fit], over all calls. *)
Definition fit_epochs (evs : list event) : nat :=
  sum_list (omap (λ ev, match ev with EvFit _ _ k _ _ => Some k | _ => None end) evs).

(** The averaging steps of a trace. *)
Definition averagings (evs : list event) : list (list Weights * Weights) :=
  omap (λ ev, match ev with EvAverage ws nw => Some (ws, nw) | _ => None end) evs.

(** The data sets on which a model was evaluated. *)
Definition evaluated_on (evs : list event) : list (list Sample * list Label) :=
  omap (λ ev, match ev with EvEvaluate _ x y _ _ => Some (x, y) | _ => None end) evs.

(** The calls that write a file or draw. *)
Definition is_io (ev : event) : bool :=
  match ev with EvIO _ => true | _ => false end.

(** *** The shape of a run of the epoch loop *)

(** One turn of the training loop: the fresh model, and what [fit]
    returned. *)
Record turn := mkTurn {
  t_fresh : Weights;
  t_result : Weights;
  t_history : History;
}.

(** One averaging step with the evaluation of the averaged model. *)
Record averaging := mkAveraging {
  a_inputs : list Weights;
  a_new_weights : Weights;
  a_fresh : Weights;
  a_loss : Qc;
  a_accuracy : Qc;
}.

(** One epoch that ran its training phase; the first epoch has no
    averaging step. *)
Record epoch_run := mkEpochRun {
  e_averaging : option averaging;
  e_turns : list turn;
}.

Definition turn_events (seed : option Weights) (node : Node) (t : turn) : list event :=
  match seed with
  | None =>
      [EvNewModel (t_fresh t); EvFit node (t_fresh t) 1 (t_result t) (t_history t)]
  | Some new_weights =>
      [EvNewModel (t_fresh t); EvSetWeights new_weights;
       EvFit node new_weights 1 (t_result t) (t_history t)]
  end.

Section run.
Variable node_list : list Node.
Variable x_test_global : list Sample.
Variable y_test_global : list Label.

Definition phase_events (seed : option Weights) (ts : list turn) : list event :=
  concat (zip_with (turn_events seed) node_list ts).

Definition averaging_events (a : averaging) : list event :=
  [EvAverage (a_inputs a) (a_new_weights a);
   EvNewModel (a_fresh a);
   EvSetWeights (a_new_weights a);
   EvEvaluate (a_new_weights a) x_test_global y_test_global (a_loss a) (a_accuracy a)].

(** The end of a run (lines 178-235): the final averaging step, the
    calls [saves] of the block under [if is_save_fig:], and the
    evaluation of the averaged model when the run gets there. *)
Definition closing_events (a : averaging) (saves : list event) (evaluated : bool) : list event :=
  [EvAverage (a_inputs a) (a_new_weights a);
   EvNewModel (a_fresh a);
   EvSetWeights (a_new_weights a)] ++
  saves ++
  (if evaluated
   then [EvEvaluate (a_new_weights a) x_test_global y_test_global (a_loss a) (a_accuracy a)]
   else []).

(** How a run ends after the final averaging step [a]. The calls
    [saves] write files and draw, and there is none without
    [is_save_fig]; the averaged model is then evaluated and its
    accuracy returned, unless the block raised. With [is_save_fig]
    and a string as [save_folder] it raises a [TypeError] at its
    first [save_folder / ...] (line 197), before any of these
    calls. *)
Definition closes (is_save_fig : bool) (save_folder : folder) (a : averaging)
    (saves : list event) (evaluated : bool) (result : exn + Qc) : Prop :=
  Forall (λ ev, is_io ev = true) saves ∧
  (is_save_fig = false → saves = [] ∧ evaluated = true) ∧
  (∀ s, is_save_fig = true → save_folder = Str s →
        saves = [] ∧ result = inl TypeError) ∧
  (if evaluated then result = inr (a_accuracy a) else ∃ e, result = inl e).

Definition epoch_events (epoch : nat) (r : epoch_run) : list event :=
  EvEpoch epoch ::
  match e_averaging r with
  | None => phase_events None (e_turns r)
  | Some a => averaging_events a ++ phase_events (Some (a_new_weights a)) (e_turns r)
  end.

(** The trace of a loop that trained during [trained] epochs and, when
    [halted] is [Some a], left at the next epoch after the averaging
    step [a]. *)
Definition loop_events (trained : list epoch_run) (halted : option averaging) : list event :=
  concat (imap epoch_events trained) ++
  match halted with
  | Some a => EvEpoch (length trained) :: averaging_events a
  | None => []
  end.

Definition results (r : epoch_run) : list Weights := t_result <$> e_turns r.

(** The losses recorded up to epoch [e] included: those of the
    epochs [1..e]. *)
Definition losses (trained : list epoch_run) : list Qc :=
  omap (λ r, a_loss <$> e_averaging r) trained.



Definition halted_loss (halted : option averaging) : list Qc :=
  match halted with Some a => [a_loss a] | None => [] end.

(** The test of line 146 on the losses [ls] recorded so far, the
    current one last. *)
Definition loss_regressed (PATIENCE : nat) (ls : list Qc) : bool :=
  match neg_index ls PATIENCE, last ls with
  | inr past, Some current => bool_decide (past < current)%Qc
  | _, _ => false
  end.

Definition halts (PATIENCE : nat) (is_early_stopping : bool) (epoch : nat)
    (ls : list Qc) : bool :=
  is_early_stopping && bool_decide (PATIENCE ≤ epoch) && loss_regressed PATIENCE ls.

Section valid.
Context {World : Type}.
Variable generate_new_cnn_model : World → Weights * World.
Variable keras_fit :
  Weights → list Sample → list Label → nat → nat →
  list Sample → list Label → World → (Weights * History) * World.
Variable keras_evaluate : Weights → list Sample → list Label → nat → Qc * Qc.
Variables BATCH_SIZE PATIENCE : nat.
Variable is_early_stopping : bool.

(** The turn [t] is a turn of [node] in a training phase seeded
    with [seed]: its fresh model is one that
    [generate_new_cnn_model] returns, and its result is what [fit]
    returns right after, for one epoch on the data of the node,
    from the seed, or from the fresh weights when there is
    none. *)
Definition turn_ok (seed : option Weights) (node : Node) (t : turn) : Prop :=
  ∃ wd : World,
    t_fresh t = (generate_new_cnn_model wd).1 ∧
    (keras_fit (default (t_fresh t) seed) (x_train node) (y_train node) BATCH_SIZE 1
               (x_val node) (y_val node) (generate_new_cnn_model wd).2).1
      = (t_result t, t_history t).

(** The weights an epoch that trained was seeded with. *)
Definition seed_of (r : epoch_run) : option Weights :=
  a_new_weights <$> e_averaging r.

(** The averaging step [a] follows the training of [prev]: it
    averages the weights trained there and evaluates the average
    on the data passed as [x_test], [y_test]. *)
Definition averaging_ok (prev : epoch_run) (a : averaging) : Prop :=
  a_inputs a = results prev ∧
  average_weights (a_inputs a) = Some (a_new_weights a) ∧
  keras_evaluate (a_new_weights a) x_test_global y_test_global BATCH_SIZE
    = (a_loss a, a_accuracy a).

(** A run of the loop as the code produces it. *)
Record valid_loop (trained : list epoch_run) (halted : option averaging) : Prop := {
  v_turns : ∀ e r, trained !! e = Some r → length (e_turns r) = length node_list;
  v_fitted : ∀ e r, trained !! e = Some r →
    Forall2 (turn_ok (seed_of r)) node_list (e_turns r);
  v_first : ∀ r, trained !! 0 = Some r → e_averaging r = None;
  v_later : ∀ e r, trained !! S e = Some r →
    ∃ prev a, trained !! e = Some prev ∧ e_averaging r = Some a ∧
              averaging_ok prev a ∧
              halts PATIENCE is_early_stopping (S e)
                    (losses (take (S (S e)) trained)) = false;
  v_halt : ∀ a, halted = Some a →
    ∃ prev, last trained = Some prev ∧ averaging_ok prev a ∧
            halts PATIENCE is_early_stopping (length trained)
                  (losses trained ++ [a_loss a]) = true;
}.
End valid.
End run.
End trace.


Section reasoning.
Context {Sample Label World F : Type} `{!Numpy F}.
Local Abbreviation Weights := (Weights F).
Local Abbreviation event := (event Sample Label F).
Local Abbreviation loop_vars := (loop_vars F).

(** [m] only appends to the trace, and what it appends satisfies [P]. *)
Definition emits {A} (m : M Sample Label World F A)
    (P : list event → Prop) : Prop :=
  ∀ st, ∃ evs, trace (m st).2 = trace st ++ evs ∧ P evs.

(** No epoch is announced, and at most [c] training epochs are asked. *)
Definition quiet (c : nat) (evs : list event) : Prop :=
  epochs_announced evs = [] ∧ fit_epochs evs ≤ c.

(** Every evaluation is on the data passed as [x_test], [y_test]. *)
Definition on_test_data (x_test_global : list Sample) (y_test_global : list Label)
    (evs : list event) : Prop :=
  Forall (λ d, d = (x_test_global, y_test_global)) (evaluated_on evs).

(** The weights a training phase starts from have the shape [arch]. *)
Definition seed_ok (arch : Shape) (seed : option Weights) : Prop :=
  match seed with Some w => shape w = arch | None => True end.

(** The models of the loop are the ones trained in the last epoch that
    trained, and they have the shape [arch]. *)
Definition models_rel (arch : Shape) (node_list : list (Node Sample Label))
    (trained : list (@epoch_run F)) (vars : loop_vars) : Prop :=
  length (model_list vars) = length node_list ∧
  ∀ prev, last trained = Some prev →
    model_list vars = Some <$> results prev ∧
    Forall (λ w, shape w = arch) (results prev).

(** How the loop is left. *)
Definition leaves (halted : option (@averaging F)) (vars : loop_vars) : flow loop_vars :=
  match halted with Some _ => Break vars | None => Continue vars end.
End reasoning.

#[global] Arguments turn : clear implicits.
#[global] Arguments averaging : clear implicits.
#[global] Arguments epoch_run : clear implicits.

End Trace.

(** ** The work of a run *)

Module Work.
Import FlTraining Trace.

Section work.
Context {Sample Label F : Type}.
Local Abbreviation event := (event Sample Label F).
Local Abbreviation Node := (Node Sample Label).

(** The calls to [fit], in order: the node and the number of epochs
    asked. *)
Definition fits (evs : list event) : list (Node * nat) :=
  omap (λ ev, match ev with EvFit node _ k _ _ => Some (node, k) | _ => None end) evs.

(** The number of calls to [utils.generate_new_cnn_model()]. *)
Definition models_generated (evs : list event) : nat :=
  length (omap (λ ev, match ev with EvNewModel w => Some w | _ => None end) evs).

(** One pass over the nodes: every node fitted once, for one epoch. *)
Definition one_pass (node_list : list Node) : list (Node * nat) :=
  (λ node, (node, 1)) <$> node_list.

(** The counts of a trace. *)
Record tally := mkTally {
  c_fits : list (Node * nat);
  c_averagings : nat;
  c_evaluations : nat;
  c_models : nat;
}.

Definition tally_of (evs : list event) : tally :=
  {| c_fits := fits evs;
     c_averagings := length (averagings evs);
     c_evaluations := length (evaluated_on evs);
     c_models := models_generated evs |}.

Definition tally_add (a b : tally) : tally :=
  {| c_fits := c_fits a ++ c_fits b;
     c_averagings := c_averagings a + c_averagings b;
     c_evaluations := c_evaluations a + c_evaluations b;
     c_models := c_models a + c_models b |}.

(** Whether an epoch that trained had an averaging step. *)
Definition averaged (r : epoch_run F) : nat :=
  match e_averaging r with Some _ => 1 | None => 0 end.
End work.

#[global] Arguments tally : clear implicits.

End Work.

(** ** A small model to run the engine on

    Samples and labels are numbers, the hidden state counts the models
    generated, the scalars are rationals with the exact mean, and a
    model has one tensor of one slice with one element. *)

Module Toy.
Import Py Aggregation FlTraining Trace.

Abbreviation Node := (FlTraining.Node nat nat).
Abbreviation event := (FlTraining.event nat nat Qc).
Abbreviation state := (FlTraining.state nat nat nat Qc).
Abbreviation loop_vars := (FlTraining.loop_vars Qc).
Abbreviation Weights := (Aggregation.Weights Qc).

(** The mean in exact arithmetic. *)
#[global] Instance exact_mean : Numpy Qc :=
  λ _ values, (sum_Qc values / Qc_of_nat (length values))%Qc.

#[global] Instance History_eq_dec : EqDecision History.
Proof. solve_decision. Defined.
#[global] Instance folder_eq_dec : EqDecision folder.
Proof. solve_decision. Defined.
#[global] Instance array_eq_dec : EqDecision array.
Proof. solve_decision. Defined.
#[global] Instance request_eq_dec : EqDecision request.
Proof. solve_decision. Defined.
#[global] Instance Node_eq_dec : EqDecision Node.
Proof. solve_decision. Defined.
#[global] Instance event_eq_dec : EqDecision event.
Proof. solve_decision. Defined.
#[global] Instance state_eq_dec : EqDecision state.
Proof. solve_decision. Defined.
#[global] Instance loop_vars_eq_dec : EqDecision loop_vars.
Proof. solve_decision. Defined.
#[global] Instance flow_eq_dec {A} `{EqDecision A} : EqDecision (flow A).
Proof. solve_decision. Defined.

Definition constant (v : Qc) : Weights := [[mkSlice [] [v]]].

(** The shape of these models. *)
Definition arch : Shape := [[([], 1)]].

Definition first_entry (w : Weights) : Qc := default 0%Qc (entry w 0 0 0).

Definition q (n : nat) : Qc := Qc_of_nat n.

Definition generate (wd : nat) : Weights * nat := (constant 0%Qc, S wd).

Definition history : History := {| val_acc := [(q 1 / q 2)%Qc]; acc := [(q 1 / q 2)%Qc] |}.

(** Training moves the entry along 0, 10, 1, 2, 3, ...: the loss first
    falls, then rises slowly. *)
Definition step (v : Qc) : Qc :=
  if decide (v = q 0) then q 10
  else if decide (v = q 10) then q 1
  else (v + q 1)%Qc.

Definition fit_schedule (w : Weights) (x : list nat) (y : list nat) (batch_size epochs : nat)
    (xv : list nat) (yv : list nat) (wd : nat) : (Weights * History) * nat :=
  ((constant (Nat.iter epochs step (first_entry w)), history), wd).

(** Training gives every node the constant snapshot [len(x_train) / 100]. *)
Definition fit_volume (w : Weights) (x : list nat) (y : list nat) (batch_size epochs : nat)
    (xv : list nat) (yv : list nat) (wd : nat) : (Weights * History) * nat :=
  ((constant (q (length x) / q 100)%Qc, history), wd).

(** The loss is the entry plus the number of evaluation samples, the
    accuracy is the entry. *)
Definition evaluate (w : Weights) (x : list nat) (y : list nat) (batch_size : nat) : Qc * Qc :=
  ((first_entry w + q (length x))%Qc, first_entry w).

Definition node (name : string) (volume : nat) : Node :=
  {| node_id := name;
     x_train := replicate volume 0; y_train := replicate volume 0;
     x_val := [1]; y_val := [1];
     x_test := [2; 2]; y_test := [2; 2] |}.

Definition two_nodes : list Node := [node "a" 3; node "b" 5].
Definition three_nodes : list Node := [node "a" 100; node "b" 200; node "c" 300].

Definition st0 : state := {| world := 0; trace := [] |}.



(** Every file can be written, and every figure drawn. *)
Definition io_ok (r : request) (wd : nat) : option exn * nat := (None, wd).

(** No file can be written. *)
Definition io_fails (r : request) (wd : nat) : option exn * nat :=
  match r with
  | NpSave _ _ | Savefig _ => (Some FileNotFoundError, wd)
  | Figure | Plot _ => (None, wd)
  end.

Definition BATCH_SIZE : nat := 32.

End Toy.

(** ** Averaging binary64 numbers

    Arrays of double precision numbers, to run the averaging step on
    the numbers of an example. *)

Module Binary64.
Import Py Aggregation FlTraining.

Definition float : Set := PrimFloat.float.

Definition of_nat (n : nat) : float := PrimFloat.of_uint63 (Uint63.of_Z (Z.of_nat n)).

(** A mean in binary64: the sum, taken from left to right, divided by
    the count; every operation rounds to nearest. The order in which
    numpy adds depends on the layout of the array. *)
#[global] Instance rounded_mean : Numpy float := λ _ values,
  match values with
  | [] => PrimFloat.div (of_nat 0) (of_nat 0)
  | x :: rest => PrimFloat.div (foldl PrimFloat.add x rest) (of_nat (length values))
  end.

(** A model of one tensor with one element. *)
Definition constant (v : float) : Weights float := [[mkSlice [] [v]]].

Definition generate (wd : nat) : Weights float * nat := (constant (of_nat 0), S wd).

(** Training gives every node the constant snapshot [len(x_train) / 100]. *)
Definition fit_volume (w : Weights float) (x : list nat) (y : list nat) (batch_size epochs : nat)
    (xv : list nat) (yv : list nat) (wd : nat) : (Weights float * History) * nat :=
  ((constant (PrimFloat.div (of_nat (length x)) (of_nat 100)),
    {| val_acc := [0%Qc]; acc := [0%Qc] |}), wd).

Definition evaluate (w : Weights float) (x : list nat) (y : list nat) (batch_size : nat) : Qc * Qc :=
  (0%Qc, 0%Qc).

Definition st0 : FlTraining.state nat nat nat float := {| world := 0; trace := [] |}.

(** The data-volume weighted mean of the specification, in binary64. *)
Definition data_volume_mean (volumes : list nat) (values : list float) : float :=
  PrimFloat.div
    (foldl PrimFloat.add (of_nat 0)
       (zip_with (λ volume value, PrimFloat.mul (of_nat volume) value) volumes values))
    (of_nat (sum_list volumes)).

End Binary64.

(** ** Scenarios ([mplc/scenario.py]) *)

Module Scenario.
Import Py.

Section scenario.
(** Data sets, splitters, corruptions, learning approaches and
    aggregators are objects of modules that [scenario.py] imports. *)
Context {Sample Dataset Splitter Corruption Approach Aggregator : Type}.

(** The tables and constants [scenario.py] reads from the other
    modules of the package. *)
Variable MULTI_PARTNER_LEARNING_APPROACHES : gmap string Approach.
Variable AGGREGATORS : gmap string Aggregator.
Variable CONTRIBUTIVITY_METHODS : list string.
Variable MAX_BATCH_SIZE : Z.

(** The calls into the other modules:
    - the chain [if dataset_name == constants.MNIST: ... else: raise],
      giving the data set of a supported name;
    - [dataset.shorten_dataset_proportion];
    - [IMPLEMENTED_SPLITTERS[samples_split_option](..)];
    - [IMPLEMENTED_CORRUPTION[x]()] and [NoCorruption()];
    - the reduction of the data set for a quick demo;
    - the default scenario name (it holds the date and a random part)
      and [re.search(r'\s', name)];
    - [np.sum] on a list of floats: a floating point sum, which rounds
      and whose order of additions is numpy's;
    - [splitter.split(partners_list, dataset)] and the corruption of
      the partners' data. *)
Variable dataset_of_name : string → option Dataset.
Variable shorten_dataset_proportion : Dataset → Qc → Dataset.
Variable new_splitter : string → list Qc → string → string → option value → E Splitter.
Variable new_corruption : string → E Corruption.
Variable NoCorruption : Corruption.
Variable quick_demo_dataset : Dataset → Dataset.
Variable default_scenario_name : value → value → string.
Variable has_whitespace : string → bool.
Variable np_sum : list Qc → Qc.

(** Modelled from the spec: the Partner class ([mplc/partner.py]) is
    not among the sources; a partner is a data holder with a stable
    integer id, a local training slice and a batch size. *)
Record Partner := mkPartner {
  id : nat;
  corruption : Corruption;
  x_train : list Sample;
  batch_size : Z;
}.

Variable new_partner : nat → Corruption → Partner.
Variable splitter_split : Splitter → list Partner → Dataset → E (list Partner).
Variable apply_data_alteration_configuration : list Partner → E (list Partner).

(** The arguments of [Scenario.__init__]. *)
Record args := mkArgs {
  partners_count : Z;
  amounts_per_partner : list Qc;
  dataset : option Dataset;
  dataset_name : string;
  dataset_proportion : Qc;
  samples_split_option : string + Splitter;
  corruption_parameters : option (list (string + Corruption));
  init_model_from : string;
  multi_partner_learning_approach : string;
  aggregation_weighting : string;
  gradient_updates_per_pass_count : Z;
  minibatch_count : Z;
  epoch_count : Z;
  is_early_stopping : bool;
  contributivity_methods : option (list string);
  is_quick_demo : bool;
  save_path : option string;
  scenario_id : value;
  val_set : string;
  test_set : string;
  kwargs : list (string * value);
}.

(** The attributes of a constructed scenario that the checks and
    [compute_batch_sizes] set or read. *)
Record t := mkScenario {
  s_dataset : Dataset;
  s_partners_list : list Partner;
  s_partners_count : Z;
  s_amounts_per_partner : list Qc;
  s_splitter : Splitter;
  s_approach : Approach;
  s_aggregator : Aggregator;
  s_epoch_count : Z;
  s_minibatch_count : Z;
  s_gradient_updates_per_pass_count : Z;
  s_is_early_stopping : bool;
  s_use_saved_weights : bool;
  s_contributivity_methods : list string;
  s_scenario_name : string;
}.

Definition params_known : list string :=
  ["dataset"; "dataset_name"; "dataset_proportion"; "val_set"; "test_set";
   "contributivity_methods"; "multi_partner_learning_approach"; "aggregation_weighting";
   "partners_count"; "amounts_per_partner"; "corruption_parameters";
   "samples_split_option"; "samples_split_configuration";
   "gradient_updates_per_pass_count"; "epoch_count"; "minibatch_count";
   "is_early_stopping";
   "init_model_from";
   "is_quick_demo";
   "save_path"; "scenario_name"; "repeat_count"]%string.

(** [[x for x in kwargs.keys()
      if (x not in params_known and not x.startswith('mpl_'))]]. *)
Definition unrecognised_parameters (kw : list (string * value)) : list string :=
  filter (λ x, x ∉ params_known ∧ String.prefix "mpl_" x = false) (kw.*1).

(** The batch size [compute_batch_sizes] gives a partner with [volume]
    training samples. *)
Definition clipped_batch_size (volume : nat) (divisor : Z) : Z :=
  np_clip (Z.of_nat volume ÷ divisor) 1 MAX_BATCH_SIZE.

(** [compute_batch_sizes] (lines 473-489) on the partners of a
    scenario. *)
Definition set_batch_size (divisor : Z) (p : Partner) : E Partner :=
  batch_size ← int_div (Z.of_nat (length (x_train p))) divisor;
  mret {| id := id p; corruption := corruption p; x_train := x_train p;
          batch_size := np_clip batch_size 1 MAX_BATCH_SIZE |}.

Definition compute_batch_sizes (partners_count : Z) (minibatch_count : Z)
    (gradient_updates_per_pass_count : Z) (partners_list : list Partner)
    : E (list Partner) :=
  if decide (partners_count = 1%Z) then
    match partners_list !! 0 with
    | None => throw IndexError
    | Some p =>
        p ← set_batch_size gradient_updates_per_pass_count p;
        mret (<[0 := p]> partners_list)
    end
  else
    mapM (set_batch_size (minibatch_count * gradient_updates_per_pass_count)%Z)
         partners_list.

(** [instantiate_scenario_partners]:
    [[Partner(i, corruption=self.corruption_parameters[i])
      for i in range(self.partners_count)]]. *)
Definition instantiate_scenario_partners (partners_count : Z)
    (corruptions : list Corruption) : E (list Partner) :=
  mapM (λ i, match corruptions !! i with
             | Some c => mret (new_partner i c)
             | None => throw IndexError
             end)
       (seq 0 (Z.to_nat partners_count)).

(** [Scenario.__init__] (lines 27-372): the checks in the order of the
    code, then the provisioning of the partners. *)
Definition init (a : args) : E t :=
  (* Raise Exception if unknown parameters in the config of the scenario *)
  (if decide (0 < length (unrecognised_parameters (kwargs a)))
   then throw Exception else mret ());;
  (* Get and verify which dataset is configured *)
  dataset ← match dataset a with
            | Some d => mret d
            | None =>
                match dataset_of_name (dataset_name a) with
                | Some d => mret d
                | None => throw Exception
                end
            end;
  py_assert (bool_decide (0 < dataset_proportion a)%Qc);;
  py_assert (bool_decide (dataset_proportion a ≤ 1)%Qc);;
  let dataset :=
    if decide (dataset_proportion a < 1)%Qc
    then shorten_dataset_proportion dataset (dataset_proportion a)
    else dataset in
  (* Definition of collaborative scenarios *)
  (if decide (np_sum (amounts_per_partner a) ≠ 1%Qc)
   then throw ValueError else mret ());;
  (if decide (Z.of_nat (length (amounts_per_partner a)) ≠ partners_count a)
   then throw AttributeError else mret ());;
  (if decide (test_set a ∈ ["local"; "global"]%string)
   then mret () else throw ValueError);;
  (if decide (val_set a ∈ ["local"; "global"]%string)
   then mret () else throw ValueError);;
  splitter ← match samples_split_option a with
             | inr splitter => mret splitter
             | inl name =>
                 new_splitter name (amounts_per_partner a) (val_set a) (test_set a)
                              (dict_get (kwargs a) "samples_split_configuration")
             end;
  corruptions ← match corruption_parameters a with
                | Some (x :: xs) =>
                    mapM (λ x, match x with
                               | inr c => mret c
                               | inl name => new_corruption name
                               end) (x :: xs)
                | _ => mret (replicate (Z.to_nat (partners_count a)) NoCorruption)
                end;
  (* Configuration of the distributed learning approach *)
  approach ← match MULTI_PARTNER_LEARNING_APPROACHES !! multi_partner_learning_approach a with
             | Some approach => mret approach
             | None => throw KeyError
             end;
  aggregator ← match AGGREGATORS !! aggregation_weighting a with
               | Some aggregator => mret aggregator
               | None => throw ValueError
               end;
  py_assert (bool_decide (0 < epoch_count a)%Z);;
  py_assert (bool_decide (0 < minibatch_count a)%Z);;
  py_assert (bool_decide (0 < gradient_updates_per_pass_count a)%Z);;
  let use_saved_weights :=
    negb (bool_decide (init_model_from a = "random_initialization"%string)) in
  (* Configuration of contributivity measurement *)
  for_each (λ method, if decide (method ∈ CONTRIBUTIVITY_METHODS)
                      then mret () else throw Exception)
           (default [] (contributivity_methods a));;
  (* Miscellaneous *)
  let repeat_count := default (VInt 1) (dict_get (kwargs a) "repeat_count") in
  (if is_quick_demo a && bool_decide (dataset_proportion a < 1)%Qc
   then throw Exception else mret ());;
  let dataset := if is_quick_demo a then quick_demo_dataset dataset else dataset in
  let epoch_count := if is_quick_demo a then 3%Z else epoch_count a in
  let minibatch_count := if is_quick_demo a then 2%Z else minibatch_count a in
  (* Output parameters *)
  scenario_name ← match dict_get (kwargs a) "scenario_name" with
                  | None => mret (default_scenario_name (scenario_id a) repeat_count)
                  | Some (VStr name) => mret name
                  | Some _ => throw TypeError
                  end;
  (if has_whitespace scenario_name then throw ValueError else mret ());;
  (* Provision the scenario *)
  partners_list ← instantiate_scenario_partners (partners_count a) corruptions;
  partners_list ← splitter_split splitter partners_list dataset;
  partners_list ← compute_batch_sizes (partners_count a) minibatch_count
                    (gradient_updates_per_pass_count a) partners_list;
  partners_list ← apply_data_alteration_configuration partners_list;
  mret {| s_dataset := dataset;
          s_partners_list := partners_list;
          s_partners_count := partners_count a;
          s_amounts_per_partner := amounts_per_partner a;
          s_splitter := splitter;
          s_approach := approach;
          s_aggregator := aggregator;
          s_epoch_count := epoch_count;
          s_minibatch_count := minibatch_count;
          s_gradient_updates_per_pass_count := gradient_updates_per_pass_count a;
          s_is_early_stopping := is_early_stopping a;
          s_use_saved_weights := use_saved_weights;
          s_contributivity_methods := default [] (contributivity_methods a);
          s_scenario_name := scenario_name |}.

(** The checks of [__init__] that come before the ones on
    [amounts_per_partner] all pass. *)
Definition reaches_amounts_check (a : args) : Prop :=
  unrecognised_parameters (kwargs a) = [] ∧
  (is_Some (dataset a) ∨ is_Some (dataset_of_name (dataset_name a))) ∧
  (0 < dataset_proportion a)%Qc ∧ (dataset_proportion a ≤ 1)%Qc.

(** A hyperparameter the configuration error of the specification is
    about. *)
Definition invalid_hyperparameter (a : args) : Prop :=
  (epoch_count a ≤ 0)%Z ∨
  AGGREGATORS !! aggregation_weighting a = None ∨
  MULTI_PARTNER_LEARNING_APPROACHES !! multi_partner_learning_approach a = None ∨
  ∃ methods method,
    contributivity_methods a = Some methods ∧ method ∈ methods ∧
    method ∉ CONTRIBUTIVITY_METHODS.
End scenario.

#[global] Arguments Partner : clear implicits.
#[global] Arguments args : clear implicits.
#[global] Arguments t : clear implicits.

End Scenario.

(** ** Expansion of a configuration ([subtest/utils.py]) *)

Module Utils.
Import Py.

(** A scenario, or a configuration entry: a dictionary from parameter
    names to values. *)
Abbreviation dict := (list (string * value)).

(** What [for x in v] goes through. *)
Definition py_iter (v : value) : E (list value) :=
  match v with
  | VList l => mret l
  | VStr s => mret ((λ c, VStr (String c EmptyString)) <$> String.list_ascii_of_string s)
  | VDict d => mret (VStr <$> d.*1)
  | _ => throw TypeError
  end.

(** [len(v)]. *)
Definition py_len (v : value) : E nat :=
  match v with
  | VList l => mret (length l)
  | VStr s => mret (String.length s)
  | VDict d => mret (length d)
  | _ => throw TypeError
  end.

(** [v[i]] for a non-negative integer [i]. *)
Definition py_index (v : value) (i : nat) : E value :=
  match v with
  | VList l => match l !! i with Some x => mret x | None => throw IndexError end
  | VStr s =>
      match String.get i s with
      | Some c => mret (VStr (String c EmptyString))
      | None => throw IndexError
      end
  | VDict _ => throw KeyError
  | _ => throw TypeError
  end.

(** [v != n] for the length [n]: only a number can be equal to it. *)
Definition py_ne_nat (v : value) (n : nat) : bool :=
  match v with
  | VInt z => bool_decide (z ≠ Z.of_nat n)
  | VFloat x => bool_decide (x ≠ Q2Qc (inject_Z (Z.of_nat n)))
  | VBool b => bool_decide ((if b then 1%Z else 0%Z) ≠ Z.of_nat n)
  | _ => true
  end.

(** [v == s] for the string [s]. *)
Definition py_eq_str (v : value) (s : string) : bool :=
  match v with
  | VStr s' => bool_decide (s' = s)
  | _ => false
  end.

(** [itertools.product] of the unpacked list: the last list runs
    fastest. *)
Fixpoint product (ls : list (list value)) : list (list value) :=
  match ls with
  | [] => [[]]
  | l :: rest => x ← l; r ← product rest; [x :: r]
  end.

(** First loop (lines 62-74): an entry whose [dataset_name] is a
    dictionary is split into one entry per data set. *)
Definition split_datasets (list_scenario : dict) : E (list dict) :=
  names ← dict_item list_scenario "dataset_name";
  match names with
  | VDict d =>
      mret ((λ dataset_name,
               let dataset_scenario :=
                 dict_set list_scenario "dataset_name" (VList [VStr dataset_name]) in
               match dict_get d dataset_name with
               | Some VNone | None =>
                   dict_set dataset_scenario "init_model_from"
                            (VList [VStr "random_initialization"])
               | Some init =>
                   dict_set dataset_scenario "init_model_from" init
               end) <$> d.*1)
  | _ => mret [list_scenario]
  end.

(** The three checks on one scenario (lines 81-88). *)
Definition check_scenario (params_name : list string) (scenario : dict) : E () :=
  partners_count ← dict_item scenario "partners_count";
  amounts ← dict_item scenario "amounts_per_partner";
  n ← py_len amounts;
  (if py_ne_nat partners_count n then throw Exception else mret ());;
  option ← dict_item scenario "samples_split_option";
  first ← py_index option 0;
  (if py_eq_str first "advanced" then
     second ← py_index option 1;
     n ← py_len second;
     if py_ne_nat partners_count n then throw Exception else mret ()
   else mret ());;
  if decide ("corrupted_datasets"%string ∈ params_name) then
    corrupted ← dict_item scenario "corrupted_datasets";
    n ← py_len corrupted;
    if py_ne_nat partners_count n then throw Exception else mret ()
  else mret ().

(** Second loop (lines 76-89) on one entry. *)
Definition expand (list_scenario : dict) : E (list dict) :=
  let params_name := list_scenario.*1 in
  params_list ← mapM py_iter list_scenario.*2;
  mapM (λ el, let scenario := zip params_name el in
              check_scenario params_name scenario;; mret scenario)
       (product params_list).

Definition get_scenario_params_list (config : list dict) : E (list dict) :=
  config_dataset ← mapM split_datasets config;
  scenario_params_list ← mapM expand (concat config_dataset);
  mret (concat scenario_params_list).

(** The number of partners of a scenario is the number of its
    amounts. *)
Definition lengths_match (scenario : dict) : Prop :=
  ∃ partners_count amounts n,
    dict_get scenario "partners_count" = Some partners_count ∧
    dict_get scenario "amounts_per_partner" = Some amounts ∧
    py_len amounts = inr n ∧
    py_ne_nat partners_count n = false.

End Utils.

(** ** A small package to construct scenarios in

    One data set, [mnist], of a hundred samples; one learning approach
    and two aggregators; splitters and corruptions that do nothing. *)

Module ToyScenario.
Import Py Scenario.

Abbreviation Partner := (Scenario.Partner nat ()).
Abbreviation args := (Scenario.args (list nat) () ()).

Definition MULTI_PARTNER_LEARNING_APPROACHES : gmap string () :=
  {[ "fedavg"%string := () ]}.
Definition AGGREGATORS : gmap string () :=
  {[ "uniform"%string := (); "data-volume"%string := () ]}.
Definition CONTRIBUTIVITY_METHODS : list string :=
  ["Shapley values"; "Independent scores"]%string.
Definition MAX_BATCH_SIZE : Z := 1024.

Definition dataset_of_name (name : string) : option (list nat) :=
  if decide (name = "mnist"%string) then Some (seq 0 100) else None.
Definition shorten_dataset_proportion (d : list nat) (p : Qc) : list nat := d.
Definition new_splitter (name : string) (amounts : list Qc) (val_set test_set : string)
    (configuration : option value) : E () := inr ().
Definition new_corruption (name : string) : E () := inr ().
Definition default_scenario_name (scenario_id repeat_count : value) : string := "scenario_1".
(** The sum in exact arithmetic. *)
Definition np_sum (amounts : list Qc) : Qc := sum_Qc amounts.

Definition has_whitespace (name : string) : bool :=
  match String.index 0 " " name with Some _ => true | None => false end.
Definition new_partner (i : nat) (c : ()) : Partner :=
  {| id := i; corruption := c; x_train := []; batch_size := 1 |}.

(** Every partner receives three samples. *)
Definition splitter_split (splitter : ()) (partners : list Partner) (d : list nat)
    : E (list Partner) :=
  inr ((λ p, {| id := id p; corruption := corruption p; x_train := take 3 d;
                batch_size := batch_size p |}) <$> partners).
Definition apply_data_alteration_configuration (partners : list Partner)
    : E (list Partner) := inr partners.

Definition init : args → E (Scenario.t nat (list nat) () () () ()) :=
  Scenario.init MULTI_PARTNER_LEARNING_APPROACHES AGGREGATORS CONTRIBUTIVITY_METHODS
    MAX_BATCH_SIZE dataset_of_name shorten_dataset_proportion new_splitter
    new_corruption () (λ d, d) default_scenario_name has_whitespace np_sum new_partner
    splitter_split apply_data_alteration_configuration.

Definition half : Qc := Q2Qc (1 # 2).
Definition three_tenths : Qc := Q2Qc (3 # 10).

(** The arguments of a call with all the defaults of the signature but
    the partners, the epoch count and the keyword arguments. *)
Definition call (partners_count : Z) (amounts : list Qc) (epoch_count : Z)
    (kwargs : list (string * value)) : args :=
  {| partners_count := partners_count;
     amounts_per_partner := amounts;
     dataset := None;
     dataset_name := "mnist";
     dataset_proportion := 1%Qc;
     samples_split_option := inl "random"%string;
     corruption_parameters := None;
     init_model_from := "random_initialization";
     multi_partner_learning_approach := "fedavg";
     aggregation_weighting := "data-volume";
     gradient_updates_per_pass_count := 8;
     minibatch_count := 10;
     epoch_count := epoch_count;
     is_early_stopping := true;
     contributivity_methods := None;
     is_quick_demo := false;
     save_path := None;
     scenario_id := VInt 1;
     val_set := "global";
     test_set := "global";
     kwargs := kwargs |}.

Definition partner (i volume : nat) : Partner :=
  {| id := i; corruption := (); x_train := replicate volume 0; batch_size := 0 |}.

End ToyScenario.

(** ** Methods of a scenario ([mplc/scenario.py]) *)

Module ScenarioMethods.
Import Py Scenario.

Section methods.
Context {Sample Corruption : Type}.
Local Abbreviation Partner := (Partner Sample Corruption).
Variable new_partner : nat → Corruption → Partner.

(** [instantiate_scenario_partners] (lines 442-446) on a scenario
    whose [partners_list], [partners_count] and
    [corruption_parameters] are given. *)
Definition instantiate_scenario_partners (partners_list : list Partner)
    (partners_count : Z) (corruption_parameters : list Corruption) : E (list Partner) :=
  if decide (0 < length partners_list) then throw Exception
  else Scenario.instantiate_scenario_partners new_partner partners_count
         corruption_parameters.
End methods.

(** *** The keywords of the learning approach (lines 354-357) *)

(** [s.replace(old, '')] for a non-empty [old]: the occurrences of [old]
    are removed from left to right, an occurrence starting where the
    previous one ended at the earliest. [skip] characters of an
    occurrence are still to be dropped. *)
Fixpoint str_remove (old : string) (skip : nat) (s : string) : string :=
  match s with
  | EmptyString => EmptyString
  | String c s' =>
      match skip with
      | S skip' => str_remove old skip' s'
      | O =>
          if String.prefix old s then str_remove old (pred (String.length old)) s'
          else String c (str_remove old 0 s')
      end
  end.

(** [old in s]. *)
Fixpoint occurs (old s : string) : bool :=
  String.prefix old s ||
  match s with
  | EmptyString => false
  | String _ s' => occurs old s'
  end.

(** [[
    self.mpl_kwargs = {}
    for key, value in kwargs.items():
        if key.startswith('mpl_'):
            self.mpl_kwargs[key.replace('mpl_', '')] = value
    ]] *)
Definition mpl_kwargs (kwargs : list (string * value)) : list (string * value) :=
  foldl (λ mpl_kwargs kv,
           if String.prefix "mpl_" kv.1
           then dict_set mpl_kwargs (str_remove "mpl_" 0 kv.1) kv.2
           else mpl_kwargs)
        [] kwargs.

(** A keyword is plain when, if it starts with [mpl_], no further
    [mpl_] occurs in it. *)
Definition plain (key : string) : Prop :=
  String.prefix "mpl_" key = true →
  ∃ name, key = ("mpl_" +:+ name)%string ∧ occurs "mpl_" name = false.

End ScenarioMethods.

(** ** What the checks of a configuration establish *)

Module UtilsChecks.
Import Py Utils.

(** A value that cannot be iterated over. *)
Definition is_scalar (v : value) : Prop :=
  match v with
  | VNone | VBool _ | VInt _ | VFloat _ => True
  | VStr _ | VList _ | VDict _ => False
  end.

(** The number of combinations of one element of each list. *)
Definition combinations (params_list : list (list value)) : nat :=
  foldr Nat.mul 1 (length <$> params_list).

(** A scenario whose split option starts with ['advanced'] describes
    the split of as many partners as it has. *)
Definition advanced_split_matches (scenario : dict) : Prop :=
  ∃ option first,
    dict_get scenario "samples_split_option" = Some option ∧
    py_index option 0 = inr first ∧
    (py_eq_str first "advanced" = true →
     ∃ partners_count second n,
       dict_get scenario "partners_count" = Some partners_count ∧
       py_index option 1 = inr second ∧
       py_len second = inr n ∧
       py_ne_nat partners_count n = false).

(** A scenario with corrupted data sets has as many as partners. *)
Definition corrupted_datasets_match (scenario : dict) : Prop :=
  "corrupted_datasets"%string ∈ scenario.*1 →
  ∃ partners_count corrupted n,
    dict_get scenario "partners_count" = Some partners_count ∧
    dict_get scenario "corrupted_datasets" = Some corrupted ∧
    py_len corrupted = inr n ∧
    py_ne_nat partners_count n = false.

End UtilsChecks.

(** ** Experiments ([mplc/experiment.py]) *)

Module Experiment.
Import Py.

(** The paths that exist, each as the string of its absolute path. *)
Abbreviation FS := (gset string).

Section experiment.
(** Scenario objects, and the other objects a caller may pass. *)
Context {ScenarioObject Other : Type}.

(** [str(Path.cwd() / constants.EXPERIMENTS_FOLDER_NAME / name)], an
    absolute path, and the ancestors that [mkdir(parents=True)]
    creates along with a path. *)
Variable path_in_experiments_folder : string → string.
Variable parents : string → FS.

(** The [while experiment_path.exists()] loop (lines 46-50). The path
    tried next is [Path.cwd() / EXPERIMENTS_FOLDER_NAME /
    Path(str(experiment_path) + "_bis")]: joining with an absolute
    path gives that path, so the loop appends [_bis] to the string.
    The loop is run for at most [fuel] turns. *)
Fixpoint first_free (fuel : nat) (fs : FS) (experiment_path : string) : option string :=
  match fuel with
  | O => None
  | S fuel' =>
      if decide (experiment_path ∈ fs)
      then first_free fuel' fs (experiment_path +:+ "_bis")
      else Some experiment_path
  end.

(** [define_experiment_path] (lines 36-54), given the name of the
    experiment and the time as [strftime] prints it: the path, and
    the file system after [mkdir]. One turn more than there are
    paths is enough for the loop (see the facts). *)
Definition define_experiment_path (name now_str : string) (fs : FS)
    : option (string * FS) :=
  let full_experiment_name := name +:+ "_" +:+ now_str in
  experiment_path ← first_free (S (size fs)) fs
                       (path_in_experiments_folder full_experiment_name);
  Some (experiment_path, {[experiment_path]} ∪ parents experiment_path ∪ fs).

(** An experiment. [experiment_path] is [None] when the attribute was
    never set. A scenario of the list comes with the
    [experiment_path] attribute that [add_scenario] gave it. *)
Record t := mkExperiment {
  name : option string;
  scenarios_list : list (ScenarioObject * string);
  nb_repeats : Z;
  experiment_path : option string;
}.

(** [Experiment.__init__] (lines 19-34); [if experiment_name:] holds
    of a string that is not empty. *)
Definition init (experiment_name : option string) (nb_repeats : Z)
    (now_str : string) (fs : FS) : option (t * FS) :=
  let self := {| name := experiment_name; scenarios_list := [];
                 nb_repeats := nb_repeats; experiment_path := None |} in
  match experiment_name with
  | Some name =>
      if decide (name = ""%string) then Some (self, fs)
      else
        '(path, fs') ← define_experiment_path name now_str fs;
        Some ({| name := experiment_name; scenarios_list := [];
                 nb_repeats := nb_repeats; experiment_path := Some path |}, fs')
  | None => Some (self, fs)
  end.

(** [add_scenario] (lines 56-64). *)
Definition add_scenario (self : t) (scenario_to_add : ScenarioObject + Other) : E t :=
  match scenario_to_add with
  | inl scenario =>
      match experiment_path self with
      | None => throw AttributeError
      | Some path =>
          mret {| name := name self;
                  scenarios_list := scenarios_list self ++ [(scenario, path)];
                  nb_repeats := nb_repeats self;
                  experiment_path := experiment_path self |}
      end
  | inr _ => throw Exception
  end.

(** [add_scenario] called on each object of a list in turn. *)
Fixpoint add_scenarios (self : t) (to_add : list (ScenarioObject + Other)) : E t :=
  match to_add with
  | [] => mret self
  | scenario_to_add :: rest =>
      self ← add_scenario self scenario_to_add;
      add_scenarios self rest
  end.

(** A path followed by [k] times [_bis]. *)
Definition with_bis (k : nat) (path : string) : string :=
  Nat.iter k (λ p, p +:+ "_bis") path.
End experiment.

#[global] Arguments t : clear implicits.

(** *** The scenarios of a configuration file *)

Section scenarios.
Context {Sample Dataset Splitter Corruption Approach Aggregator Other : Type}.
Local Abbreviation args := (Scenario.args Dataset Splitter Corruption).
Local Abbreviation ScenarioObject :=
  (Scenario.t Sample Dataset Splitter Corruption Approach Aggregator).

(** [Scenario.__init__] on its arguments. *)
Variable Scenario_init : args → E ScenarioObject.

(** The arguments that the keywords naming a parameter of the
    signature give, whatever way the values are read. *)
Variable read_parameters : list (string * value) → args.

(** The named parameters of [Scenario.__init__] (lines 29-48). *)
Definition signature : list string :=
  ["partners_count"; "amounts_per_partner"; "dataset"; "dataset_name";
   "dataset_proportion"; "samples_split_option"; "corruption_parameters";
   "init_model_from"; "multi_partner_learning_approach"; "aggregation_weighting";
   "gradient_updates_per_pass_count"; "minibatch_count"; "epoch_count";
   "is_early_stopping"; "contributivity_methods"; "is_quick_demo"; "save_path";
   "scenario_id"; "val_set"; "test_set"]%string.

Definition set_kwargs (a : args) (kwargs : list (string * value)) : args :=
  {| Scenario.partners_count := Scenario.partners_count a;
     Scenario.amounts_per_partner := Scenario.amounts_per_partner a;
     Scenario.dataset := Scenario.dataset a;
     Scenario.dataset_name := Scenario.dataset_name a;
     Scenario.dataset_proportion := Scenario.dataset_proportion a;
     Scenario.samples_split_option := Scenario.samples_split_option a;
     Scenario.corruption_parameters := Scenario.corruption_parameters a;
     Scenario.init_model_from := Scenario.init_model_from a;
     Scenario.multi_partner_learning_approach := Scenario.multi_partner_learning_approach a;
     Scenario.aggregation_weighting := Scenario.aggregation_weighting a;
     Scenario.gradient_updates_per_pass_count := Scenario.gradient_updates_per_pass_count a;
     Scenario.minibatch_count := Scenario.minibatch_count a;
     Scenario.epoch_count := Scenario.epoch_count a;
     Scenario.is_early_stopping := Scenario.is_early_stopping a;
     Scenario.contributivity_methods := Scenario.contributivity_methods a;
     Scenario.is_quick_demo := Scenario.is_quick_demo a;
     Scenario.save_path := Scenario.save_path a;
     Scenario.scenario_id := Scenario.scenario_id a;
     Scenario.val_set := Scenario.val_set a;
     Scenario.test_set := Scenario.test_set a;
     Scenario.kwargs := kwargs |}.

(** A call of [Scenario] on the unpacked [keywords]: a keyword given twice and a
    missing [partners_count] or [amounts_per_partner] are a
    [TypeError]; the keywords that name no parameter of the signature
    are the [kwargs] of the constructor. *)
Definition new_scenario (keywords : list (string * value)) : E ScenarioObject :=
  if decide (NoDup keywords.*1) then
    if decide ("partners_count"%string ∈ keywords.*1 ∧
               "amounts_per_partner"%string ∈ keywords.*1) then
      Scenario_init
        (set_kwargs (read_parameters (filter (λ kv, kv.1 ∈ signature) keywords))
                    (filter (λ kv, kv.1 ∉ signature) keywords))
    else throw TypeError
  else throw TypeError.

(** The loop of [init_experiment_from_config_file] (lines 80-94) over
    the parameters of the scenarios, from the index
    [scenario_params_idx] on. *)
Fixpoint create_scenarios (self : t ScenarioObject) (path : string)
    (scenario_params_idx : nat) (scenario_params_list : list (list (string * value)))
    : E (t ScenarioObject) :=
  match scenario_params_list with
  | [] => mret self
  | scenario_params :: rest =>
      current_scenario ←
        new_scenario (scenario_params ++
                      [("experiment_path"%string, VStr path);
                       ("scenario_id"%string, VInt (Z.of_nat scenario_params_idx + 1));
                       ("is_dry_run"%string, VBool true)]);
      self ← add_scenario (Other:=Other) self (inl current_scenario);
      create_scenarios self path (S scenario_params_idx) rest
  end.
End scenarios.

End Experiment.

(** ** Further small inputs *)

Module ToyMore.
Import Py Scenario Utils.

(** A quick demo on two partners, named by a keyword. *)
Definition quick_demo_call : ToyScenario.args :=
  {| partners_count := 2;
     amounts_per_partner := [ToyScenario.half; ToyScenario.half];
     dataset := None;
     dataset_name := "mnist";
     dataset_proportion := 1%Qc;
     samples_split_option := inl "random"%string;
     corruption_parameters := None;
     init_model_from := "random_initialization";
     multi_partner_learning_approach := "fedavg";
     aggregation_weighting := "uniform";
     gradient_updates_per_pass_count := 8;
     minibatch_count := 10;
     epoch_count := 40;
     is_early_stopping := true;
     contributivity_methods := Some ["Shapley values"%string];
     is_quick_demo := true;
     save_path := None;
     scenario_id := VInt 1;
     val_set := "global";
     test_set := "local";
     kwargs := [("scenario_name"%string, VStr "demo"); ("mpl_lr"%string, VInt 1)] |}.

(** The parameters of one scenario, as the expansion of a
    configuration returns them. *)
Definition scenario_params : dict :=
  [("dataset_name"%string, VStr "mnist");
   ("partners_count"%string, VInt 2);
   ("amounts_per_partner"%string, VList [VFloat ToyScenario.half; VFloat ToyScenario.half]);
   ("samples_split_option"%string, VStr "random");
   ("epoch_count"%string, VInt 5)].

(** An entry of a configuration: two partners, two ways to split. *)
Definition entry : dict :=
  [("dataset_name"%string, VList [VStr "mnist"]);
   ("partners_count"%string, VList [VInt 2]);
   ("amounts_per_partner"%string,
    VList [VList [VFloat ToyScenario.half; VFloat ToyScenario.half]]);
   ("samples_split_option"%string,
    VList [VStr "random"; VList [VStr "advanced"; VList [VList []; VList []]]]);
   ("epoch_count"%string, VList [VInt 2; VInt 4; VInt 8])].

(** The same for two data sets, the second with saved models. *)
Definition entry_of_datasets : dict :=
  [("dataset_name"%string,
    VDict [("mnist"%string, VNone);
           ("cifar10"%string, VList [VStr "first.h5"; VStr "second.h5"])]);
   ("partners_count"%string, VList [VInt 2]);
   ("amounts_per_partner"%string,
    VList [VList [VFloat ToyScenario.half; VFloat ToyScenario.half]]);
   ("samples_split_option"%string, VList [VStr "random"])].

End ToyMore.
(** * Facts *)

Section zip_star_facts.
Import Py.
Context {A : Type} `{!Inhabited A}.
Implicit Types (ls : list (list A)) (l : list A).

Lemma heads_nonempty ls :
  Forall (λ l, 0 < length l) ls → heads ls = Some ((.!!! 0%nat) <$> ls).
Proof.
  intros H. apply mapM_Some_2. induction H as [|l ls Hl _ IH]; simpl.
  - constructor.
  - constructor; [|exact IH]. destruct l; simpl in *; [lia|done].
Qed.

Lemma zip_star_aux_columns m ls :
  Forall (λ l, length l = m) ls →
  zip_star_aux m ls = (λ i, (.!!! i) <$> ls) <$> seq 0 m.
Proof.
  revert ls. induction m as [|m IH]; intros ls Hls; [done|].
  simpl. rewrite heads_nonempty by (eapply Forall_impl; [exact Hls|simpl; lia]).
  f_equal. rewrite IH.
  - rewrite <- fmap_S_seq, <- list_fmap_compose.
    apply list_fmap_ext. intros _ i _. simpl.
    rewrite <- list_fmap_compose. apply list_fmap_ext. intros _ l _. simpl.
    apply lookup_total_tail.
  - apply Forall_fmap. eapply Forall_impl; [exact Hls|].
    intros [|x l]; simpl; lia.
Qed.

(** On lists of one length [zip_star] is the transposition. *)
Lemma zip_star_columns m ls :
  ls ≠ [] → Forall (λ l, length l = m) ls →
  zip_star ls = (λ i, (.!!! i) <$> ls) <$> seq 0 m.
Proof.
  intros Hne Hls. destruct ls as [|l ls]; [done|].
  unfold zip_star. pose proof (Forall_inv Hls) as Hl. simpl in Hl. rewrite Hl.
  by apply zip_star_aux_columns.
Qed.
End zip_star_facts.

Section average_facts.
Import Py Aggregation.
Context {F : Type} `{!Numpy F}.
Local Abbreviation Weights := (Weights F).
Local Existing Instance F_inhabited.

Lemma mapM_fmap_pointwise {X Y Z} (f : Y → option Z) (g : X → Y) (h : X → Z)
    (l : list X) :
  (∀ x, x ∈ l → f (g x) = Some (h x)) → mapM f (g <$> l) = Some (h <$> l).
Proof.
  intros H. apply mapM_Some_2. induction l as [|x l IH]; simpl; constructor.
  - apply H. left.
  - apply IH. intros y Hy. apply H. by right.
Qed.

Lemma np_mean_axis0_columns d m (slices : list (Slice F)) :
  slices ≠ [] → Forall (λ s : Slice F, (dims s, length (elems s)) = (d, m)) slices →
  np_mean_axis0 slices =
    Some {| dims := d;
            elems := (λ i, np_mean d ((λ s : Slice F, elems s !!! i) <$> slices))
                       <$> seq 0 m |}.
Proof.
  intros Hne Hs. destruct slices as [|s slices]; [done|].
  unfold np_mean_axis0. rewrite Forall_forall in Hs.
  pose proof (Hs s ltac:(left)) as [= Hd Hm].
  assert (forallb (same_array s) (s :: slices) = true) as ->.
  { apply forallb_forall. intros s' Hs'. apply list_elem_of_In, Hs in Hs' as [= Hd' Hm'].
    unfold same_array. apply andb_true_iff.
    split; apply bool_decide_eq_true; congruence. }
  rewrite (zip_star_columns m); cycle 1.
  { done. }
  { apply Forall_fmap, Forall_forall. intros s' Hs'. simpl.
    by apply Hs in Hs' as [= _ ->]. }
  rewrite Hd. do 2 f_equal. rewrite <- list_fmap_compose.
  apply list_fmap_ext. intros _ i _. simpl. by rewrite <- list_fmap_compose.
Qed.

Lemma shape_lookup_length (w : Weights) k :
  length (w !!! k) = length (shape w !!! k).
Proof.
  unfold shape. rewrite !list_lookup_total_alt, list_lookup_fmap.
  destruct (w !! k); simpl; by rewrite ?length_fmap.
Qed.

Lemma shape_lookup_lookup (w : Weights) k j :
  (dims ((w !!! k) !!! j), length (elems ((w !!! k) !!! j))) = (shape w !!! k) !!! j.
Proof.
  unfold shape. rewrite !list_lookup_total_alt, !list_lookup_fmap.
  destruct (w !! k) as [t|]; simpl; [|done].
  rewrite list_lookup_fmap. by destruct (t !! j).
Qed.

Lemma average_weights_tabulate (ws : list Weights) sh :
  ws ≠ [] → Forall (λ w, shape w = sh) ws →
  average_weights ws = Some (tabulate sh (mean_entry sh ws)).
Proof.
  intros Hne Hsh. rewrite Forall_forall in Hsh.
  unfold average_weights.
  rewrite (zip_star_columns (length sh)); cycle 1.
  { done. }
  { apply Forall_forall. intros w Hw. rewrite <- (Hsh w Hw). unfold shape.
    by rewrite length_fmap. }
  unfold tabulate. apply mapM_fmap_pointwise. intros k _.
  rewrite (zip_star_columns (length (sh !!! k))); cycle 1.
  { destruct ws; [done|]. done. }
  { apply Forall_fmap, Forall_forall. intros w Hw. simpl.
    rewrite <- (Hsh w Hw). apply shape_lookup_length. }
  apply mapM_fmap_pointwise. intros j _.
  rewrite (np_mean_axis0_columns (dims_at sh k j) ((sh !!! k) !!! j).2); cycle 1.
  { destruct ws; [done|]. done. }
  { apply Forall_fmap, Forall_fmap, Forall_forall. intros w Hw. simpl.
    rewrite shape_lookup_lookup, (Hsh w Hw). unfold dims_at.
    by destruct ((sh !!! k) !!! j). }
  do 2 f_equal. apply list_fmap_ext. intros _ i _.
  unfold mean_entry, values_at. f_equal.
  rewrite <- !list_fmap_compose. done.
Qed.

Lemma lookup_total_tabulate {A} `{!Inhabited A} (l : list A) :
  (λ i, l !!! i) <$> seq 0 (length l) = l.
Proof.
  apply list_eq. intros i. rewrite list_lookup_fmap.
  destruct (decide (i < length l)) as [Hi|Hi].
  - rewrite lookup_seq_lt by done. simpl.
    symmetry. by apply list_lookup_lookup_total_lt.
  - rewrite lookup_seq_ge, lookup_ge_None_2 by lia. done.
Qed.

Lemma shape_tabulate sh (f : nat → nat → nat → F) : shape (tabulate sh f) = sh.
Proof.
  unfold shape, tabulate. rewrite <- list_fmap_compose.
  transitivity ((λ k, sh !!! k) <$> seq 0 (length sh));
    [|apply lookup_total_tabulate].
  apply list_fmap_ext. intros _ k _. simpl.
  rewrite <- list_fmap_compose.
  transitivity ((λ j, (sh !!! k) !!! j) <$> seq 0 (length (sh !!! k)));
    [|apply lookup_total_tabulate].
  apply list_fmap_ext. intros _ j _. simpl.
  rewrite length_fmap, length_seq. unfold dims_at.
  by destruct ((sh !!! k) !!! j).
Qed.

Lemma entry_tabulate sh (f : nat → nat → nat → F) k j i x :
  entry (tabulate sh f) k j i = Some x → x = f k j i.
Proof.
  unfold entry, tabulate. rewrite list_lookup_fmap.
  destruct (seq 0 (length sh) !! k) as [k'|] eqn:Hk; simpl; [|done].
  apply lookup_seq in Hk as [Hk _]; simpl in Hk; subst k'. rewrite list_lookup_fmap.
  destruct (seq 0 (length (sh !!! k)) !! j) as [j'|] eqn:Hj; simpl; [|done].
  apply lookup_seq in Hj as [Hj _]; simpl in Hj; subst j'. rewrite list_lookup_fmap.
  destruct (seq 0 ((sh !!! k) !!! j).2 !! i) as [i'|] eqn:Hi; simpl; [|done].
  apply lookup_seq in Hi as [Hi _]; simpl in Hi; subst i'. by intros [= <-].
Qed.

(** A position of a snapshot is a position of its shape. *)
Lemma entry_in_shape (w : Weights) k j i x :
  entry w k j i = Some x →
  ∃ t d, shape w !! k = Some t ∧ t !! j = Some d ∧ i < d.2.
Proof.
  unfold entry, shape. rewrite list_lookup_fmap.
  destruct (w !! k) as [t|]; simpl; [|done].
  destruct (t !! j) as [s|] eqn:Hj; [|done]. intros Hi.
  eexists _, _. split; [done|]. rewrite list_lookup_fmap, Hj. simpl.
  split; [done|]. simpl. by eapply lookup_lt_Some.
Qed.

(** At a position of its shape a snapshot has an element. *)
Lemma entry_of_shape (w : Weights) k j i t d :
  shape w !! k = Some t → t !! j = Some d → i < d.2 →
  entry w k j i = Some (elems ((w !!! k) !!! j) !!! i).
Proof.
  unfold entry, shape. rewrite list_lookup_fmap. intros Hk Hj Hi.
  destruct (w !! k) as [t'|] eqn:Hk'; [|done].
  rewrite (list_lookup_total_correct _ _ _ Hk').
  injection Hk as <-. rewrite list_lookup_fmap in Hj.
  destruct (t' !! j) as [s|] eqn:Hj'; [|done].
  rewrite (list_lookup_total_correct _ _ _ Hj').
  injection Hj as <-.
  by apply list_lookup_lookup_total_lt.
Qed.
End average_facts.

Section weighting_facts.
Import Py Aggregation.

Lemma sum_Qc_cons x (l : list Qc) : sum_Qc (x :: l) = (x + sum_Qc l)%Qc.
Proof. done. Qed.

Lemma sum_Qc_scale c (l : list Qc) : sum_Qc (Qcmult c <$> l) = (c * sum_Qc l)%Qc.
Proof.
  induction l as [|x l IH].
  - unfold sum_Qc. simpl. ring.
  - rewrite fmap_cons, !sum_Qc_cons, IH. ring.
Qed.

Lemma weighted_mean_replicate c (l : list Qc) :
  weighted_mean (replicate (length l) c) l = (c * sum_Qc l)%Qc.
Proof.
  unfold weighted_mean. rewrite <- sum_Qc_scale. f_equal.
  induction l as [|x l IH]; simpl; [done|]. by rewrite IH.
Qed.

Lemma uniform_mean (l : list Qc) :
  weighted_mean (uniform_weights (length l)) l
  = (sum_Qc l / Qc_of_nat (length l))%Qc.
Proof.
  unfold uniform_weights. rewrite weighted_mean_replicate.
  unfold Qcdiv. ring.
Qed.

Lemma Qc_of_nat_mult a b : Qc_of_nat (a * b) = (Qc_of_nat a * Qc_of_nat b)%Qc.
Proof.
  unfold Qc_of_nat. rewrite Nat2Z.inj_mul, inject_Z_mult.
  apply Qc_is_canon. simpl. by rewrite !Qred_correct.
Qed.

Lemma Qc_of_nat_nonzero a : 0 < a → Qc_of_nat a ≠ 0%Qc.
Proof.
  intros Ha H. unfold Qc_of_nat in H.
  apply (Q2Qc_eq_iff _ 0%Q) in H.
  unfold Qeq in H. simpl in H. lia.
Qed.

(** With equal data volumes the data-volume weights are the uniform
    ones. *)
Lemma data_volume_weights_equal n v :
  0 < n → 0 < v →
  data_volume_weights (replicate n v) = uniform_weights n.
Proof.
  intros Hn Hv. unfold data_volume_weights, uniform_weights.
  rewrite fmap_replicate. f_equal.
  rewrite sum_list_replicate, Qc_of_nat_mult.
  pose proof (Qc_of_nat_nonzero n Hn). pose proof (Qc_of_nat_nonzero v Hv).
  field. done.
Qed.

End weighting_facts.

Section average_claim.
Import Py Aggregation.
Context {F : Type} `{!Numpy F}.
Local Abbreviation Weights := (Weights F).

(** C1, as the code has it. The averaging step never reads a data
    volume. For partner snapshots of one shape it returns a snapshot
    of that shape, and each of its elements is numpy's mean
    ([np.array(...).mean(axis=0)], in floating point) of the elements
    that the partners hold at that position, one for every partner,
    in the order of the partners. *)
Theorem average_weights_is_uniform_mean (ws : list Weights) sh :
  ws ≠ [] → Forall (λ w, shape w = sh) ws →
  ∃ r, average_weights ws = Some r ∧
       shape r = sh ∧
       ∀ k j i x, entry r k j i = Some x →
         ∃ values,
           Forall2 (λ w v, entry w k j i = Some v) ws values ∧
           x = np_mean (dims_at sh k j) values.
Proof.
  intros Hne Hsh. exists (tabulate sh (mean_entry sh ws)).
  split; [by apply average_weights_tabulate|].
  split; [apply shape_tabulate|].
  intros k j i x Hx. exists (values_at ws k j i).
  pose proof (entry_in_shape _ _ _ _ _ Hx) as (t & d & Hk & Hj & Hi).
  rewrite shape_tabulate in Hk.
  split; [|by apply entry_tabulate in Hx].
  unfold values_at. apply Forall2_fmap_r, Forall_Forall2_diag.
  eapply Forall_impl; [exact Hsh|]. intros w Hw. simpl.
  eapply entry_of_shape; [by rewrite Hw| |]; done.
Qed.
End average_claim.

Section average_examples.
Import Py Aggregation FlTraining Trace.

Lemma average_weights_is_uniform_mean_witness :
  let snapshots :=
    [Binary64.constant (Binary64.of_nat 1); Binary64.constant (Binary64.of_nat 2);
     Binary64.constant (Binary64.of_nat 3)] in
  ∃ r, average_weights snapshots = Some r ∧
       shape r = [[([], 1)]] ∧
       ∀ k j i x, entry r k j i = Some x →
         ∃ values,
           Forall2 (λ w v, entry w k j i = Some v) snapshots values ∧
           x = np_mean (dims_at [[([], 1)]] k j) values.
Proof.
  apply (average_weights_is_uniform_mean
           [Binary64.constant (Binary64.of_nat 1); Binary64.constant (Binary64.of_nat 2);
            Binary64.constant (Binary64.of_nat 3)] [[([], 1)]]).
  - discriminate.
  - repeat constructor.
Defined.

(** In exact arithmetic the mean gives every partner the weight 1/n,
    which is the data-volume weight when all partners hold the same
    positive volume. *)
Lemma exact_mean_is_the_uniform_mean d (values : list Qc) v :
  np_mean (Numpy := Toy.exact_mean) d values
  = weighted_mean (uniform_weights (length values)) values ∧
  (values ≠ [] → 0 < v →
   data_volume_weights (replicate (length values) v) = uniform_weights (length values)).
Proof.
  split; [symmetry; apply uniform_mean|].
  intros Hne Hv. apply data_volume_weights_equal; [|done].
  destruct values; [done|simpl; lia].
Qed.

(** C1, as stated, fails. Three partners hold 100, 200 and 300 training
    samples and the constant snapshots 1.0, 2.0 and 3.0. The
    data-volume weighted mean is 1400/600, above 2.33; the averaging
    step of the code returns 2.0, also inside a run of
    [compute_test_score]. The sums 1 + 2 + 3 and 100 + 400 + 900 are
    exact in binary64, in whatever order they are taken. *)
Lemma data_volume_mean_counterexample :
  let snapshots :=
    [Binary64.constant (Binary64.of_nat 1); Binary64.constant (Binary64.of_nat 2);
     Binary64.constant (Binary64.of_nat 3)] in
  (λ n : Toy.Node, length (x_train n)) <$> Toy.three_nodes = [100; 200; 300] ∧
  values_at snapshots 0 0 0 = [Binary64.of_nat 1; Binary64.of_nat 2; Binary64.of_nat 3] ∧
  average_weights snapshots = Some (Binary64.constant (Binary64.of_nat 2)) ∧
  averagings
    (trace (compute_test_score Binary64.generate Binary64.fit_volume Binary64.evaluate
              Toy.BATCH_SIZE 2 Toy.io_ok Toy.three_nodes [] [] true false (Str "")
              2 Binary64.st0).2)
    = [(snapshots, Binary64.constant (Binary64.of_nat 2));
       (snapshots, Binary64.constant (Binary64.of_nat 2))] ∧
  PrimFloat.ltb (Binary64.of_nat 2)
    (Binary64.data_volume_mean [100; 200; 300] (values_at snapshots 0 0 0)) = true ∧
  PrimFloat.ltb (PrimFloat.div (Binary64.of_nat 233) (Binary64.of_nat 100))
    (Binary64.data_volume_mean [100; 200; 300] (values_at snapshots 0 0 0)) = true.
Proof.
  repeat split; vm_compute; reflexivity.
Qed.
End average_examples.

(** ** The epoch budget *)

Section budget_facts.
Import Py Aggregation FlTraining Trace.
Context {Sample Label World F : Type} `{!Numpy F}.
Local Abbreviation Weights := (Weights F).
Variable generate_new_cnn_model : World → Weights * World.
Variable keras_fit :
  Weights → list Sample → list Label → nat → nat →
  list Sample → list Label → World → (Weights * History) * World.
Variable keras_evaluate : Weights → list Sample → list Label → nat → Qc * Qc.
Variables BATCH_SIZE PATIENCE : nat.
Variable file_io : request → World → option exn * World.

Local Abbreviation M := (M Sample Label World F).
Local Abbreviation event := (event Sample Label F).
Local Abbreviation state := (state Sample Label World F).

Local Abbreviation emits :=
  (Trace.emits (Sample:=Sample) (Label:=Label) (World:=World) (F:=F)).

Local Abbreviation quiet := (Trace.quiet (Sample:=Sample) (Label:=Label) (F:=F)).

Lemma emits_ret {A} (a : A) (P : list event → Prop) : P [] → emits (mret a) P.
Proof. intros HP st. exists []. by rewrite app_nil_r. Qed.

Lemma emits_raise {A} e (P : list event → Prop) : P [] → emits (raise (A:=A) e) P.
Proof. intros HP st. exists []. by rewrite app_nil_r. Qed.

Lemma emits_bind {A B} (m : M A) (k : A → M B) (P Q R : list event → Prop) :
  emits m P → (∀ a, emits (k a) Q) → Q [] →
  (∀ e1 e2, P e1 → Q e2 → R (e1 ++ e2)) →
  emits (m ≫= k) R.
Proof.
  intros Hm Hk HQ HR st. unfold mbind, M_bind.
  destruct (Hm st) as (e1 & He1 & HP).
  destruct (m st) as [[e|a] st1]; simpl in *.
  - exists e1. split; [done|]. rewrite <- (app_nil_r e1). by apply HR.
  - destruct (Hk a st1) as (e2 & He2 & HQ2).
    exists (e1 ++ e2). split; [|by apply HR].
    by rewrite He2, He1, app_assoc.
Qed.

Lemma emits_weaken {A} (m : M A) (P Q : list event → Prop) :
  emits m P → (∀ evs, P evs → Q evs) → emits m Q.
Proof. intros Hm HPQ st. destruct (Hm st) as (evs & ? & ?). eauto. Qed.


Lemma quiet_nil c : quiet c [].
Proof. split; [done|]. unfold fit_epochs. simpl. lia. Qed.

Lemma epochs_announced_app (e1 e2 : list event) :
  epochs_announced (e1 ++ e2) = epochs_announced e1 ++ epochs_announced e2.
Proof. unfold epochs_announced. apply omap_app. Qed.

Lemma fit_epochs_app (e1 e2 : list event) :
  fit_epochs (e1 ++ e2) = fit_epochs e1 + fit_epochs e2.
Proof. unfold fit_epochs. by rewrite omap_app, sum_list_with_app. Qed.

Lemma quiet_app c1 c2 e1 e2 : quiet c1 e1 → quiet c2 e2 → quiet (c1 + c2) (e1 ++ e2).
Proof.
  intros [Ha1 Hf1] [Ha2 Hf2]. split.
  - by rewrite epochs_announced_app, Ha1, Ha2.
  - rewrite fit_epochs_app. lia.
Qed.

Lemma quiet_mono c c' evs : c ≤ c' → quiet c evs → quiet c' evs.
Proof. intros ? [? ?]. split; [done|lia]. Qed.

Lemma quiet_bind {A B} (m : M A) (k : A → M B) c1 c2 :
  emits m (quiet c1) → (∀ a, emits (k a) (quiet c2)) →
  emits (m ≫= k) (quiet (c1 + c2)).
Proof.
  intros Hm Hk. eapply emits_bind; [exact Hm|exact Hk|apply quiet_nil|apply quiet_app].
Qed.

Lemma quiet_weaken {A} (m : M A) c c' :
  c ≤ c' → emits m (quiet c) → emits m (quiet c').
Proof. intros Hc Hm. eapply emits_weaken; [exact Hm|]. intros evs. by apply quiet_mono. Qed.

Lemma ret_quiet {A} (a : A) c : emits (mret a) (quiet c).
Proof. apply emits_ret, quiet_nil. Qed.

Lemma raise_quiet {A} e c : emits (raise (A:=A) e) (quiet c).
Proof. apply emits_raise, quiet_nil. Qed.

(** An event other than the announcement of an epoch and a call to
    [fit] is quiet. *)
Ltac one_quiet_event :=
  intros ?; eexists; split; [done|]; split; [done|]; unfold fit_epochs; simpl; lia.

Lemma new_model_quiet : emits (new_model generate_new_cnn_model) (quiet 0).
Proof.
  intros st. unfold new_model. destruct (generate_new_cnn_model _) as [w wd].
  revert st. one_quiet_event.
Qed.

Lemma set_weights_quiet w : emits (set_weights (World:=World) w) (quiet 0).
Proof. one_quiet_event. Qed.

Lemma fit_quiet model node k : emits (fit keras_fit BATCH_SIZE model node k) (quiet k).
Proof.
  intros st. unfold fit. destruct (keras_fit _ _ _ _ _ _ _ _) as [[w1 h] wd].
  revert st. one_quiet_event.
Qed.

Lemma evaluate_quiet model x y :
  emits (evaluate (World:=World) keras_evaluate BATCH_SIZE model x y) (quiet 0).
Proof.
  intros st. unfold evaluate. destruct (keras_evaluate _ _ _ _) as [loss a].
  revert st. one_quiet_event.
Qed.

Lemma aggregate_quiet models :
  emits (aggregate (World:=World) (Sample:=Sample) (Label:=Label) models) (quiet 0).
Proof.
  unfold aggregate. destruct (mapM id models) as [ws|]; [|apply raise_quiet].
  destruct (average_weights ws) as [nw|]; [|apply raise_quiet].
  one_quiet_event.
Qed.

Lemma lift_quiet {A} (r : E A) : emits (lift r) (quiet 0).
Proof. intros st. exists []. split; [by rewrite app_nil_r|apply quiet_nil]. Qed.

Lemma perform_quiet r : emits (perform file_io r) (quiet 0).
Proof.
  intros st. unfold perform. destruct (file_io _ _) as [failure wd].
  revert st. one_quiet_event.
Qed.

Lemma early_stop_quiet epoch loss ls :
  emits (early_stop (World:=World) (Sample:=Sample) (Label:=Label)
                    PATIENCE epoch loss ls) (quiet 0).
Proof.
  unfold early_stop. case_decide; [|apply ret_quiet].
  destruct (neg_index ls PATIENCE); [apply raise_quiet|apply ret_quiet].
Qed.

Create HintDb quiet.
#[local] Hint Resolve ret_quiet raise_quiet new_model_quiet set_weights_quiet
  fit_quiet evaluate_quiet aggregate_quiet early_stop_quiet lift_quiet perform_quiet : quiet.

Local Abbreviation train_node :=
  (train_node generate_new_cnn_model keras_fit BATCH_SIZE).
Local Abbreviation training_phase :=
  (training_phase generate_new_cnn_model keras_fit BATCH_SIZE).
Local Abbreviation epoch_body :=
  (epoch_body generate_new_cnn_model keras_fit keras_evaluate BATCH_SIZE PATIENCE).
Local Abbreviation epoch_loop :=
  (epoch_loop generate_new_cnn_model keras_fit keras_evaluate BATCH_SIZE PATIENCE).
Local Abbreviation compute_test_score :=
  (compute_test_score generate_new_cnn_model keras_fit keras_evaluate BATCH_SIZE PATIENCE
     file_io).

(** The block under [if is_save_fig:] neither announces an epoch nor
    trains. *)
Lemma save_history_quiet save_folder vars :
  emits (save_history file_io save_folder vars) (quiet 0).
Proof.
  unfold save_history.
  repeat (apply (quiet_bind _ _ 0 0); [auto with quiet|intros ?]).
  destruct (loop_epoch vars); [|auto with quiet].
  repeat (apply (quiet_bind _ _ 0 0); [auto with quiet|intros ?]).
  auto with quiet.
Qed.

Lemma train_node_quiet epoch seed vars i node :
  emits (train_node epoch seed vars i node) (quiet 1).
Proof.
  unfold FlTraining.train_node.
  apply (quiet_bind _ _ 0 1); [auto with quiet|intros w].
  apply (quiet_bind _ _ 0 1); [destruct seed; auto with quiet|intros w'].
  apply (quiet_bind _ _ 1 0); [auto with quiet|intros tr].
  destruct (val_acc tr.2 !! 0); auto with quiet.
Qed.

Lemma training_phase_quiet epoch seed nodes vars :
  emits (training_phase epoch seed nodes vars) (quiet (length nodes)).
Proof.
  revert vars. induction nodes as [|[i node] rest IH]; intros vars; simpl.
  - apply ret_quiet.
  - apply (quiet_bind _ _ 1); [apply train_node_quiet|intros vars'; apply IH].
Qed.

Lemma length_enumerate {A} (l : list A) : length (enumerate l) = length l.
Proof. unfold enumerate. apply length_imap. Qed.

Section run.
Variable node_list : list (Node Sample Label).
Variable x_test_global : list Sample.
Variable y_test_global : list Label.
Variable is_early_stopping : bool.
Variable is_save_fig : bool.
Variable save_folder : folder.

Lemma training_then_continue_quiet epoch seed vars :
  emits (vars ← training_phase epoch seed (enumerate node_list) vars;
         mret (Continue vars)) (quiet (length node_list)).
Proof.
  apply (quiet_weaken _ (length (enumerate node_list) + 0));
    [rewrite length_enumerate; lia|].
  apply quiet_bind; [apply training_phase_quiet|auto with quiet].
Qed.

(** The averaging step, with what follows it. *)
Lemma averaging_quiet {A} models (k : Weights → Qc * Qc → M A) c :
  (∀ nw ev, emits (k nw ev) (quiet c)) →
  emits (new_weights ← aggregate models;
         model ← new_model generate_new_cnn_model;
         model ← set_weights new_weights;
         model_evaluation ← evaluate keras_evaluate BATCH_SIZE model
                              x_test_global y_test_global;
         k new_weights model_evaluation) (quiet c).
Proof.
  intros Hk.
  apply (quiet_bind _ _ 0 c); [auto with quiet|intros nw].
  apply (quiet_bind _ _ 0 c); [auto with quiet|intros w].
  apply (quiet_bind _ _ 0 c); [auto with quiet|intros w'].
  apply (quiet_bind _ _ 0 c); [auto with quiet|intros ev]. apply Hk.
Qed.

(** The final averaging step, with what follows it. *)
Lemma closing_quiet vars :
  emits (new_weights ← aggregate (model_list vars);
         final_model ← new_model generate_new_cnn_model;
         final_model ← set_weights new_weights;
         (if is_save_fig then save_history file_io save_folder vars else mret ());;
         model_evaluation ← evaluate keras_evaluate BATCH_SIZE final_model
                              x_test_global y_test_global;
         mret model_evaluation.2) (quiet 0).
Proof.
  apply (quiet_bind _ _ 0 0); [auto with quiet|intros nw].
  apply (quiet_bind _ _ 0 0); [auto with quiet|intros w].
  apply (quiet_bind _ _ 0 0); [auto with quiet|intros w'].
  apply (quiet_bind _ _ 0 0);
    [destruct is_save_fig; [apply save_history_quiet|auto with quiet]|intros _].
  apply (quiet_bind _ _ 0 0); auto with quiet.
Qed.

(** One turn of the epoch loop announces its epoch and trains every
    node at most once. *)
Lemma epoch_body_announces epoch vars :
  emits (epoch_body node_list x_test_global y_test_global is_early_stopping epoch vars)
        (λ evs, epochs_announced evs = [epoch] ∧ fit_epochs evs ≤ length node_list).
Proof.
  unfold FlTraining.epoch_body.
  eapply emits_bind with (P := λ evs, evs = [EvEpoch epoch])
                         (Q := quiet (length node_list)).
  - intros st. by eexists.
  - intros _. case_bool_decide; [apply training_then_continue_quiet|].
    apply (averaging_quiet (model_list (bind_epoch epoch vars))
             (λ new_weights model_evaluation, _)).
    intros nw ev.
    apply (quiet_bind _ _ 0);
      [destruct is_early_stopping; auto with quiet|].
    intros [|]; [auto with quiet|apply training_then_continue_quiet].
  - apply quiet_nil.
  - intros e1 e2 -> [Ha Hf]. split.
    + rewrite epochs_announced_app, Ha. done.
    + rewrite fit_epochs_app. unfold fit_epochs at 1. simpl. lia.
Qed.

(** The loop over [range(first, first + count)] announces an initial
    segment of that range. *)
Lemma epoch_loop_announces first count vars :
  emits (epoch_loop node_list x_test_global y_test_global is_early_stopping
                    (seq first count) vars)
        (λ evs, ∃ done, done ≤ count ∧ epochs_announced evs = seq first done ∧
                        fit_epochs evs ≤ done * length node_list).
Proof.
  revert first vars. induction count as [|count IH]; intros first vars; simpl.
  - apply emits_ret. exists 0. split; [lia|]. split; [done|]. unfold fit_epochs. simpl. lia.
  - intros st. unfold mbind, M_bind.
    destruct (epoch_body_announces first vars st) as (e1 & He1 & Ha1 & Hf1).
    destruct (FlTraining.epoch_body _ _ _ _ _ _ _ _ _ _ _ st) as [[e|[v|v]] st1];
      simpl in *.
    + exists e1. split; [done|]. exists 1. split; [lia|]. split; [done|]. lia.
    + destruct (IH (S first) v st1) as (e2 & He2 & d & Hd & Ha2 & Hf2).
      exists (e1 ++ e2). split; [by rewrite He2, He1, app_assoc|].
      exists (S d). split; [lia|]. split.
      * rewrite epochs_announced_app, Ha1, Ha2. done.
      * rewrite fit_epochs_app. lia.
    + exists e1. split; [done|]. exists 1. split; [lia|]. split; [done|]. lia.
Qed.

Lemma single_node_quiet node epoch_count :
  emits (compute_test_score_for_single_node generate_new_cnn_model keras_fit
           keras_evaluate BATCH_SIZE node epoch_count)
        (quiet epoch_count).
Proof.
  unfold compute_test_score_for_single_node.
  apply (quiet_bind _ _ 0); [auto with quiet|intros w].
  apply (quiet_weaken _ (epoch_count + 0)); [lia|].
  apply quiet_bind; [auto with quiet|intros tr].
  apply (quiet_bind _ _ 0); auto with quiet.
Qed.

(** C8. Whatever the nodes, the primitives and the outcome (score or
    exception), a run of [compute_test_score] announces the epochs
    [0, 1, ..., done - 1] for some [done] not above [epoch_count], in
    that order and once each, and asks [fit] for at most
    [epoch_count] training epochs per node. *)
Theorem epochs_within_budget epoch_count (st : state) :
  ∃ evs done,
    trace (compute_test_score node_list x_test_global y_test_global
             is_early_stopping is_save_fig save_folder epoch_count st).2
      = trace st ++ evs ∧
    done ≤ epoch_count ∧
    epochs_announced evs = seq 0 done ∧
    fit_epochs evs ≤ epoch_count * length node_list.
Proof.
  enough (emits (compute_test_score node_list x_test_global y_test_global
                   is_early_stopping is_save_fig save_folder epoch_count)
            (λ evs, ∃ done, done ≤ epoch_count ∧ epochs_announced evs = seq 0 done ∧
                            fit_epochs evs ≤ epoch_count * length node_list)) as H.
  { destruct (H st) as (evs & Hevs & d & Hd). by exists evs, d. }
  unfold FlTraining.compute_test_score. case_decide as Hn.
  - destruct node_list as [|node [|? ?]]; simplify_eq/=.
    eapply emits_weaken; [apply single_node_quiet|].
    intros evs [Ha Hf]. exists 0. split; [lia|]. split; [done|]. lia.
  - eapply emits_bind with (Q := quiet 0); [apply epoch_loop_announces| |apply quiet_nil|].
    + intros r. apply closing_quiet.
    + intros e1 e2 (d & Hd & Ha1 & Hf1) [Ha2 Hf2]. exists d.
      split; [done|]. split.
      * by rewrite epochs_announced_app, Ha1, Ha2, app_nil_r.
      * rewrite fit_epochs_app. nia.
Qed.


Local Abbreviation on_test_data :=
  (Trace.on_test_data (F:=F) x_test_global y_test_global).

Lemma on_test_data_nil : on_test_data [].
Proof. constructor. Qed.

Lemma on_test_data_app e1 e2 : on_test_data e1 → on_test_data e2 → on_test_data (e1 ++ e2).
Proof.
  unfold Trace.on_test_data, evaluated_on. rewrite omap_app. apply Forall_app_2.
Qed.

Lemma quiet_evaluation {A} (m : M A) :
  emits m (λ evs, evaluated_on evs = []) → emits m on_test_data.
Proof.
  intros H. eapply emits_weaken; [exact H|]. intros evs Hevs.
  unfold Trace.on_test_data. rewrite Hevs. constructor.
Qed.

Lemma new_model_no_evaluation :
  emits (new_model generate_new_cnn_model) (λ evs, evaluated_on evs = []).
Proof.
  intros st. unfold new_model. destruct (generate_new_cnn_model _) as [w wd].
  by eexists.
Qed.

Lemma aggregate_no_evaluation models :
  emits (aggregate (World:=World) (Sample:=Sample) (Label:=Label) models)
        (λ evs, evaluated_on evs = []).
Proof.
  unfold aggregate. destruct (mapM id models) as [ws|]; [|by apply emits_raise].
  destruct (average_weights ws) as [nw|]; [|by apply emits_raise].
  intros st. by eexists.
Qed.

Lemma perform_no_evaluation r :
  emits (perform file_io r) (λ evs, evaluated_on evs = []).
Proof.
  intros st. unfold perform. destruct (file_io _ _) as [failure wd]. by eexists.
Qed.

Lemma no_evaluation_bind {A B} (m : M A) (k : A → M B) :
  emits m (λ evs, evaluated_on evs = []) →
  (∀ a, emits (k a) (λ evs, evaluated_on evs = [])) →
  emits (m ≫= k) (λ evs, evaluated_on evs = []).
Proof.
  intros Hm Hk. eapply emits_bind; [exact Hm|exact Hk|done|].
  intros e1 e2 H1 H2. unfold evaluated_on in *. by rewrite omap_app, H1, H2.
Qed.

Lemma save_history_no_evaluation vars :
  emits (save_history file_io save_folder vars) (λ evs, evaluated_on evs = []).
Proof.
  unfold save_history.
  repeat (apply no_evaluation_bind;
          [first [apply perform_no_evaluation|by intros st; exists []; rewrite app_nil_r]
          |intros ?]).
  destruct (loop_epoch vars); [|by apply emits_raise].
  repeat (apply no_evaluation_bind;
          [first [apply perform_no_evaluation|by intros st; exists []; rewrite app_nil_r]
          |intros ?]).
  apply perform_no_evaluation.
Qed.

Lemma train_node_no_evaluation epoch seed vars i node :
  emits (train_node epoch seed vars i node) (λ evs, evaluated_on evs = []).
Proof.
  intros st. unfold FlTraining.train_node, mbind, M_bind, new_model.
  destruct (generate_new_cnn_model _) as [w wd].
  destruct seed as [nw|]; simpl; unfold fit; simpl;
    destruct (keras_fit _ _ _ _ _ _ _ _) as [[w1 h] wd1]; simpl;
    destruct (val_acc h !! 0); simpl; eexists;
    (split; [by rewrite <- !app_assoc|done]).
Qed.

Lemma training_phase_on_test_data epoch seed nodes vars :
  emits (training_phase epoch seed nodes vars) on_test_data.
Proof.
  revert vars. induction nodes as [|[i node] rest IH]; intros vars; simpl.
  - apply emits_ret, on_test_data_nil.
  - eapply emits_bind;
      [apply quiet_evaluation, train_node_no_evaluation|intros v; apply IH|
       apply on_test_data_nil|apply on_test_data_app].
Qed.

Lemma evaluate_on_test_data model :
  emits (evaluate (World:=World) keras_evaluate BATCH_SIZE model
                  x_test_global y_test_global) on_test_data.
Proof.
  intros st. unfold evaluate. destruct (keras_evaluate _ _ _ _) as [loss a].
  eexists. split; [done|]. by repeat constructor.
Qed.

Lemma averaging_on_test_data {A} models (k : Weights → Qc * Qc → M A) :
  (∀ nw ev, emits (k nw ev) on_test_data) →
  emits (new_weights ← aggregate models;
         model ← new_model generate_new_cnn_model;
         model ← set_weights new_weights;
         model_evaluation ← evaluate keras_evaluate BATCH_SIZE model
                              x_test_global y_test_global;
         k new_weights model_evaluation) on_test_data.
Proof.
  intros Hk.
  eapply emits_bind;
    [apply quiet_evaluation, aggregate_no_evaluation| |
     apply on_test_data_nil|apply on_test_data_app].
  intros nw.
  eapply emits_bind;
    [apply quiet_evaluation, new_model_no_evaluation| |
     apply on_test_data_nil|apply on_test_data_app].
  intros w.
  eapply emits_bind with (P := on_test_data);
    [intros st; eexists; split; [done|constructor]| |
     apply on_test_data_nil|apply on_test_data_app].
  intros w'.
  eapply emits_bind;
    [apply evaluate_on_test_data|apply Hk|
     apply on_test_data_nil|apply on_test_data_app].
Qed.

Lemma closing_on_test_data vars :
  emits (new_weights ← aggregate (model_list vars);
         final_model ← new_model generate_new_cnn_model;
         final_model ← set_weights new_weights;
         (if is_save_fig then save_history file_io save_folder vars else mret ());;
         model_evaluation ← evaluate keras_evaluate BATCH_SIZE final_model
                              x_test_global y_test_global;
         mret model_evaluation.2) on_test_data.
Proof.
  eapply emits_bind;
    [apply quiet_evaluation, aggregate_no_evaluation| |
     apply on_test_data_nil|apply on_test_data_app].
  intros nw.
  eapply emits_bind;
    [apply quiet_evaluation, new_model_no_evaluation| |
     apply on_test_data_nil|apply on_test_data_app].
  intros w.
  eapply emits_bind with (P := on_test_data);
    [intros st; eexists; split; [done|constructor]| |
     apply on_test_data_nil|apply on_test_data_app].
  intros w'.
  eapply emits_bind with (P := on_test_data);
    [| |apply on_test_data_nil|apply on_test_data_app].
  { apply quiet_evaluation. destruct is_save_fig;
      [apply save_history_no_evaluation|by apply emits_ret]. }
  intros _.
  eapply emits_bind;
    [apply evaluate_on_test_data| |apply on_test_data_nil|apply on_test_data_app].
  intros ev. apply emits_ret, on_test_data_nil.
Qed.

Lemma epoch_body_on_test_data epoch vars :
  emits (epoch_body node_list x_test_global y_test_global is_early_stopping epoch vars)
        on_test_data.
Proof.
  unfold FlTraining.epoch_body.
  eapply emits_bind with (P := on_test_data);
    [intros st; eexists; split; [done|constructor]| |
     apply on_test_data_nil|apply on_test_data_app].
  intros _. case_bool_decide.
  - eapply emits_bind;
      [apply training_phase_on_test_data| |apply on_test_data_nil|apply on_test_data_app].
    intros v. apply emits_ret, on_test_data_nil.
  - apply (averaging_on_test_data (model_list (bind_epoch epoch vars))
             (λ new_weights model_evaluation, _)).
    intros nw ev.
    eapply emits_bind with (P := on_test_data);
      [| |apply on_test_data_nil|apply on_test_data_app].
    { apply quiet_evaluation. destruct is_early_stopping; [|by apply emits_ret].
      unfold early_stop. case_decide; [|by apply emits_ret].
      destruct (neg_index _ _); [by apply emits_raise|by apply emits_ret]. }
    intros [|]; [apply emits_ret, on_test_data_nil|].
    eapply emits_bind;
      [apply training_phase_on_test_data| |apply on_test_data_nil|apply on_test_data_app].
    intros v. apply emits_ret, on_test_data_nil.
Qed.

Lemma epoch_loop_on_test_data epochs vars :
  emits (epoch_loop node_list x_test_global y_test_global is_early_stopping epochs vars)
        on_test_data.
Proof.
  revert vars. induction epochs as [|epoch rest IH]; intros vars; simpl.
  - apply emits_ret, on_test_data_nil.
  - eapply emits_bind;
      [apply epoch_body_on_test_data| |apply on_test_data_nil|apply on_test_data_app].
    intros [v|v]; [apply IH|apply emits_ret, on_test_data_nil].
Qed.

(** C5, what the code does. On more than one node every evaluation
    of a run, those of the averaged model at the epochs [e >= 1]
    and the final one, is on the one data set passed as [x_test],
    [y_test]: the losses recorded during the loop are test losses. *)
Theorem evaluations_use_the_test_data epoch_count (st : state) :
  length node_list ≠ 1 →
  ∃ evs,
    trace (compute_test_score node_list x_test_global y_test_global
             is_early_stopping is_save_fig save_folder epoch_count st).2
      = trace st ++ evs ∧
    Forall (λ d, d = (x_test_global, y_test_global)) (evaluated_on evs).
Proof.
  intros Hn.
  enough (emits (compute_test_score node_list x_test_global y_test_global
                   is_early_stopping is_save_fig save_folder epoch_count)
            on_test_data) as H by apply H.
  unfold FlTraining.compute_test_score. rewrite decide_False by done.
  eapply emits_bind;
    [apply epoch_loop_on_test_data| |apply on_test_data_nil|apply on_test_data_app].
  intros r. apply closing_on_test_data.
Qed.

(** C4. With exactly one node the run is the plain training of one
    model: a fresh model, one call to [fit] on the node's data for
    [epoch_count] epochs, one evaluation on the node's own test
    data; the score is the one of the specification's single-model
    run, and no averaging step is made. *)
Theorem single_partner_is_plain_training epoch_count (st : state) :
  length node_list = 1 →
  ∃ node w0 w1 h loss st',
    node_list = [node] ∧
    compute_test_score node_list x_test_global y_test_global is_early_stopping
                       is_save_fig save_folder epoch_count st
      = (inr (spec_single_model_score generate_new_cnn_model keras_fit keras_evaluate
                BATCH_SIZE node epoch_count (world st)), st') ∧
    trace st' = trace st ++
      [EvNewModel w0;
       EvFit node w0 epoch_count w1 h;
       EvEvaluate w1 (x_test node) (y_test node) loss
         (spec_single_model_score generate_new_cnn_model keras_fit keras_evaluate
            BATCH_SIZE node epoch_count (world st))] ∧
    averagings (drop (length (trace st)) (trace st')) = [].
Proof.
  intros Hn. destruct node_list as [|node [|? ?]]; simplify_eq/=.
  exists node.
  unfold FlTraining.compute_test_score. simpl.
  unfold compute_test_score_for_single_node, spec_single_model_score,
    mbind, M_bind, new_model.
  destruct (generate_new_cnn_model (world st)) as [w0 wd0]. simpl.
  unfold fit. simpl.
  destruct (keras_fit w0 _ _ _ _ _ _ wd0) as [[w1 h] wd1]. simpl.
  unfold evaluate. simpl.
  destruct (keras_evaluate w1 _ _ _) as [loss accuracy]. simpl.
  exists w0, w1, h, loss. eexists. split; [done|]. split; [reflexivity|].
  simpl. rewrite <- !app_assoc. split; [done|].
  by rewrite drop_app_length.
Qed.
End run.
End budget_facts.

Section budget_examples.
Import Py Aggregation FlTraining Trace.

Lemma single_partner_is_plain_training_witness :
  ∃ node w0 w1 h loss st',
    [Toy.node "a" 3] = [node] ∧
    compute_test_score Toy.generate Toy.fit_schedule Toy.evaluate Toy.BATCH_SIZE 2 Toy.io_ok
                       [Toy.node "a" 3] [7; 7; 7] [7; 7; 7] true false (Str "") 5 Toy.st0
      = (inr (spec_single_model_score Toy.generate Toy.fit_schedule Toy.evaluate
                Toy.BATCH_SIZE node 5 (world Toy.st0)), st') ∧
    trace st' = trace Toy.st0 ++
      [EvNewModel w0;
       EvFit node w0 5 w1 h;
       EvEvaluate w1 (x_test node) (y_test node) loss
         (spec_single_model_score Toy.generate Toy.fit_schedule Toy.evaluate
            Toy.BATCH_SIZE node 5 (world Toy.st0))] ∧
    averagings (drop (length (trace Toy.st0)) (trace st')) = [].
Proof.
  apply (single_partner_is_plain_training
           Toy.generate Toy.fit_schedule Toy.evaluate Toy.BATCH_SIZE 2 Toy.io_ok
           [Toy.node "a" 3] [7; 7; 7] [7; 7; 7] true false (Str "") 5 Toy.st0).
  reflexivity.
Defined.

Lemma evaluations_use_the_test_data_witness :
  ∃ evs,
    trace (compute_test_score Toy.generate Toy.fit_schedule Toy.evaluate Toy.BATCH_SIZE 2 Toy.io_ok
             Toy.two_nodes [7; 7; 7] [7; 7; 7] true false (Str "") 2 Toy.st0).2
      = trace Toy.st0 ++ evs ∧
    Forall (λ d, d = ([7; 7; 7], [7; 7; 7])) (evaluated_on evs).
Proof.
  apply (evaluations_use_the_test_data
           Toy.generate Toy.fit_schedule Toy.evaluate Toy.BATCH_SIZE 2 Toy.io_ok
           Toy.two_nodes [7; 7; 7] [7; 7; 7] true false (Str "") 2 Toy.st0).
  simpl. lia.
Defined.

(** The run behind C5: two nodes whose validation data are [[1]], two
    epochs, test data [[7; 7; 7]]. The averaged model of epoch 1 and
    the final model are both evaluated on the test data. *)
Lemma validation_on_test_data_example :
  evaluated_on
    (trace (compute_test_score Toy.generate Toy.fit_schedule Toy.evaluate Toy.BATCH_SIZE 2 Toy.io_ok
              Toy.two_nodes [7; 7; 7] [7; 7; 7] true false (Str "") 2 Toy.st0).2)
  = [([7; 7; 7], [7; 7; 7]); ([7; 7; 7], [7; 7; 7])] ∧
  (λ n : Toy.Node, (x_val n, y_val n)) <$> Toy.two_nodes = [([1], [1]); ([1], [1])].
Proof. split; by vm_compute. Qed.
End budget_examples.

(** ** The shape of a run *)

Section loop_facts.
Import Py Aggregation FlTraining Trace.
Context {Sample Label World F : Type} `{!Numpy F}.
Local Abbreviation Weights := (Weights F).
Variable generate_new_cnn_model : World → Weights * World.
Variable keras_fit :
  Weights → list Sample → list Label → nat → nat →
  list Sample → list Label → World → (Weights * History) * World.
Variable keras_evaluate : Weights → list Sample → list Label → nat → Qc * Qc.
Variables BATCH_SIZE PATIENCE : nat.
Variable file_io : request → World → option exn * World.

(** The primitives behave like a Keras model of a fixed architecture:
    fresh and trained weights have the shape [arch], and training for
    one epoch reports one validation accuracy. *)
Variable arch : Shape.
Hypothesis generate_shape : ∀ wd, shape (generate_new_cnn_model wd).1 = arch.
Hypothesis fit_shape : ∀ w x y b k xv yv wd,
  shape w = arch → shape (keras_fit w x y b k xv yv wd).1.1 = arch.
Hypothesis fit_val_acc : ∀ w x y b xv yv wd,
  val_acc (keras_fit w x y b 1 xv yv wd).1.2 ≠ [].

Local Abbreviation M := (M Sample Label World F).
Local Abbreviation event := (event Sample Label F).
Local Abbreviation state := (state Sample Label World F).
Local Abbreviation loop_vars := (loop_vars F).
Local Abbreviation epoch_run := (epoch_run F).
Local Abbreviation averaging := (averaging F).
Local Abbreviation turn := (turn F).
Local Abbreviation Node := (Node Sample Label).
Local Abbreviation train_node :=
  (train_node generate_new_cnn_model keras_fit BATCH_SIZE).
Local Abbreviation training_phase :=
  (training_phase generate_new_cnn_model keras_fit BATCH_SIZE).
Local Abbreviation epoch_body :=
  (epoch_body generate_new_cnn_model keras_fit keras_evaluate BATCH_SIZE PATIENCE).
Local Abbreviation epoch_loop :=
  (epoch_loop generate_new_cnn_model keras_fit keras_evaluate BATCH_SIZE PATIENCE).
Local Abbreviation compute_test_score :=
  (compute_test_score generate_new_cnn_model keras_fit keras_evaluate BATCH_SIZE PATIENCE
     file_io).

Local Abbreviation seed_ok := (Trace.seed_ok (F:=F) arch).
Local Abbreviation turn_ok := (Trace.turn_ok generate_new_cnn_model keras_fit BATCH_SIZE).

Lemma train_node_run epoch seed vars i node (st : state) :
  seed_ok seed →
  ∃ t vars' st',
    train_node epoch seed vars i node st = (inr vars', st') ∧
    model_list vars' = <[i := Some (t_result t)]> (model_list vars) ∧
    global_val_loss vars' = global_val_loss vars ∧
    global_val_acc vars' = global_val_acc vars ∧
    trace st' = trace st ++ turn_events seed node t ∧
    shape (t_result t) = arch ∧
    turn_ok seed node t.
Proof.
  intros Hseed. unfold FlTraining.train_node, mbind, M_bind, new_model.
  pose proof (generate_shape (world st)) as Hg.
  destruct (generate_new_cnn_model (world st)) as [w0 wd0] eqn:Hgen. simpl in Hg.
  destruct seed as [nw|]; simpl in *.
  - unfold fit; simpl.
    pose proof (fit_shape nw (x_train node) (y_train node) BATCH_SIZE 1
                  (x_val node) (y_val node) wd0 Hseed) as Hf.
    pose proof (fit_val_acc nw (x_train node) (y_train node) BATCH_SIZE
                  (x_val node) (y_val node) wd0) as Hv.
    destruct (keras_fit _ _ _ _ _ _ _ _) as [[w1 h] wd1] eqn:Hfit. simpl in *.
    destruct (val_acc h) as [|v vs] eqn:Hh; [done|]. simpl.
    exists (mkTurn w0 w1 h). eexists _, _. split; [reflexivity|]. simpl.
    repeat split; try done; [by rewrite <- !app_assoc|].
    exists (world st). rewrite Hgen. simpl. by rewrite Hfit.
  - unfold fit; simpl.
    pose proof (fit_shape w0 (x_train node) (y_train node) BATCH_SIZE 1
                  (x_val node) (y_val node) wd0 Hg) as Hf.
    pose proof (fit_val_acc w0 (x_train node) (y_train node) BATCH_SIZE
                  (x_val node) (y_val node) wd0) as Hv.
    destruct (keras_fit _ _ _ _ _ _ _ _) as [[w1 h] wd1] eqn:Hfit. simpl in *.
    destruct (val_acc h) as [|v vs] eqn:Hh; [done|]. simpl.
    exists (mkTurn w0 w1 h). eexists _, _. split; [reflexivity|]. simpl.
    repeat split; try done; [by rewrite <- !app_assoc|].
    exists (world st). rewrite Hgen. simpl. by rewrite Hfit.
Qed.

Lemma training_phase_from epoch seed (l : list Node) i vars (st : state) :
  seed_ok seed →
  length (model_list vars) = i + length l →
  ∃ ts vars' st',
    training_phase epoch seed (imap (λ j x, (i + j, x)) l) vars st = (inr vars', st') ∧
    length ts = length l ∧
    trace st' = trace st ++ concat (zip_with (turn_events seed) l ts) ∧
    model_list vars' = take i (model_list vars) ++ (Some ∘ t_result <$> ts) ∧
    global_val_loss vars' = global_val_loss vars ∧
    global_val_acc vars' = global_val_acc vars ∧
    Forall (λ t, shape (t_result t) = arch) ts ∧
    Forall2 (turn_ok seed) l ts.
Proof.
  intros Hseed. revert i vars st.
  induction l as [|node l IH]; intros i vars st Hlen; simpl in *.
  - exists [], vars, st. split; [done|]. simpl.
    rewrite !app_nil_r, take_ge by lia. by repeat split.
  - unfold mbind, M_bind.
    destruct (train_node_run epoch seed vars (i + 0) node st Hseed)
      as (t & vars1 & st1 & -> & Hml & Hgl & Hga & Htr & Hsh & Hok).
    rewrite (imap_ext _ (λ j x, (S i + j, x))) by (intros; simpl; f_equal; lia).
    destruct (IH (S i) vars1 st1)
      as (ts & vars2 & st2 & -> & Hlen2 & Htr2 & Hml2 & Hgl2 & Hga2 & Hsh2 & Hok2).
    { rewrite Hml, length_insert. lia. }
    exists (t :: ts), vars2, st2. split; [done|]. simpl.
    split; [by rewrite Hlen2|].
    split; [by rewrite Htr2, Htr, <- !app_assoc|].
    split.
    { rewrite Hml2, Hml, Nat.add_0_r.
      rewrite (take_S_r _ _ (Some (t_result t))) by (apply list_lookup_insert_eq; lia).
      rewrite take_insert_ge by lia. by rewrite <- app_assoc. }
    split; [congruence|]. split; [congruence|]. split; by constructor.
Qed.

Section run.
Variable node_list : list Node.
Variable x_test_global : list Sample.
Variable y_test_global : list Label.
Variable is_early_stopping : bool.
Variable is_save_fig : bool.
Variable save_folder : folder.

Lemma training_phase_run epoch seed vars (st : state) :
  seed_ok seed →
  length (model_list vars) = length node_list →
  ∃ ts vars' st',
    training_phase epoch seed (enumerate node_list) vars st = (inr vars', st') ∧
    length ts = length node_list ∧
    trace st' = trace st ++ phase_events node_list seed ts ∧
    model_list vars' = Some <$> (t_result <$> ts) ∧
    global_val_loss vars' = global_val_loss vars ∧
    global_val_acc vars' = global_val_acc vars ∧
    Forall (λ t, shape (t_result t) = arch) ts ∧
    Forall2 (turn_ok seed) node_list ts.
Proof.
  intros Hseed Hlen.
  destruct (training_phase_from epoch seed node_list 0 vars st Hseed)
    as (ts & vars' & st' & Hrun & ? & ? & Hml & ? & ? & ? & ?); [done|].
  exists ts, vars', st'. split; [exact Hrun|].
  repeat split; try done. rewrite Hml. simpl. by rewrite <- list_fmap_compose.
Qed.

Lemma aggregate_run (ws : list Weights) (st : state) :
  ws ≠ [] → Forall (λ w, shape w = arch) ws →
  ∃ nw, aggregate (Some <$> ws) st
          = (inr nw, {| world := world st; trace := trace st ++ [EvAverage ws nw] |}) ∧
        average_weights ws = Some nw ∧ shape nw = arch.
Proof.
  intros Hne Hsh. exists (tabulate arch (mean_entry arch ws)).
  pose proof (average_weights_tabulate ws arch Hne Hsh) as Havg.
  split; [|split; [done|apply shape_tabulate]].
  unfold aggregate.
  rewrite (mapM_fmap_Some id Some ws) by done.
  by rewrite Havg.
Qed.

(** The averaging step of an epoch after the first (lines 117-141). *)
Lemma averaging_run (prev : epoch_run) (st : state) :
  results prev ≠ [] → Forall (λ w, shape w = arch) (results prev) →
  ∃ a st',
    (new_weights ← aggregate (Some <$> results prev);
     aggregated_model ← new_model generate_new_cnn_model;
     aggregated_model ← set_weights new_weights;
     model_evaluation ← evaluate keras_evaluate BATCH_SIZE aggregated_model
                          x_test_global y_test_global;
     mret (new_weights, model_evaluation)) st
      = (inr (a_new_weights a, (a_loss a, a_accuracy a)), st') ∧
    trace st' = trace st ++ averaging_events x_test_global y_test_global a ∧
    averaging_ok x_test_global y_test_global keras_evaluate BATCH_SIZE prev a ∧
    shape (a_new_weights a) = arch.
Proof.
  intros Hne Hsh.
  destruct (aggregate_run (results prev) st Hne Hsh) as (nw & Hagg & Havg & Hnw).
  unfold mbind, M_bind. rewrite Hagg. unfold new_model. simpl.
  destruct (generate_new_cnn_model (world st)) as [w0 wd0]. simpl.
  unfold evaluate. simpl.
  destruct (keras_evaluate nw x_test_global y_test_global BATCH_SIZE) as [loss accuracy] eqn:Hev.
  exists (mkAveraging (results prev) nw w0 loss accuracy). eexists.
  split; [reflexivity|]. simpl. split; [by rewrite <- !app_assoc|].
  split; [|done]. by repeat split.
Qed.

Lemma losses_app (l1 l2 : list epoch_run) : losses (l1 ++ l2) = losses l1 ++ losses l2.
Proof. apply omap_app. Qed.

Lemma loop_events_snoc (trained : list epoch_run) r :
  loop_events node_list x_test_global y_test_global (trained ++ [r]) None
  = loop_events node_list x_test_global y_test_global trained None
    ++ epoch_events node_list x_test_global y_test_global (length trained) r.
Proof.
  unfold loop_events. rewrite !app_nil_r, imap_app, concat_app. simpl.
  by rewrite app_nil_r, Nat.add_0_r.
Qed.

Lemma loop_events_halt (trained : list epoch_run) a :
  loop_events node_list x_test_global y_test_global trained (Some a)
  = loop_events node_list x_test_global y_test_global trained None
    ++ EvEpoch (length trained) :: averaging_events x_test_global y_test_global a.
Proof. unfold loop_events. by rewrite app_nil_r. Qed.

Local Abbreviation valid_loop :=
  (valid_loop node_list x_test_global y_test_global generate_new_cnn_model keras_fit
              keras_evaluate BATCH_SIZE PATIENCE is_early_stopping).

Lemma length_omap_is_Some {A B} (f : A → option B) (l : list A) :
  Forall (λ x, is_Some (f x)) l → length (omap f l) = length l.
Proof.
  induction 1 as [|x l [y Hy] _ IH]; [done|]. simpl. rewrite Hy. simpl. f_equal. exact IH.
Qed.

(** Every epoch but the first recorded one loss. *)
Lemma valid_loop_losses_length trained halted :
  valid_loop trained halted → length (losses trained) = pred (length trained).
Proof.
  intros [_ _ Hfirst Hlater _]. destruct trained as [|r0 rest]; [done|].
  unfold losses. simpl. rewrite (Hfirst r0) by done. simpl.
  apply length_omap_is_Some, Forall_lookup. intros e r Hr.
  destruct (Hlater e r Hr) as (_ & a & _ & -> & _). by eexists.
Qed.

Lemma neg_index_in_range {A} (l : list A) k :
  l ≠ [] → k ≤ length l → ∃ x, neg_index l k = inr x.
Proof.
  intros Hne Hk. unfold neg_index. destruct k as [|k].
  - destruct l; [done|]. by eexists.
  - rewrite decide_True by done.
    destruct (lookup_lt_is_Some_2 l (length l - S k)) as [x ->]; [lia|]. by eexists.
Qed.

(** Within a valid run the test of line 146 cannot raise and is the
    rule [halts]. *)
Lemma early_stop_run epoch loss (ls : list Qc) (st : state) :
  length ls = pred epoch → 0 < epoch →
  (if is_early_stopping
   then early_stop PATIENCE epoch loss (ls ++ [loss])
   else mret false) st
  = (inr (halts PATIENCE is_early_stopping epoch (ls ++ [loss])), st).
Proof.
  intros Hlen Hpos. unfold halts. destruct is_early_stopping; simpl; [|done].
  unfold early_stop, loss_regressed. rewrite last_snoc.
  case_decide as HP.
  - destruct (neg_index_in_range (ls ++ [loss]) PATIENCE) as [past ->].
    + by destruct ls.
    + rewrite length_app. simpl. lia.
    + rewrite (bool_decide_true (PATIENCE ≤ epoch)) by done. done.
  - rewrite (bool_decide_false (PATIENCE ≤ epoch)) by done. done.
Qed.


Local Abbreviation models_rel := (Trace.models_rel arch node_list).

Lemma epoch_body_first vars (st : state) :
  length (model_list vars) = length node_list →
  ∃ ts vars' st',
    epoch_body node_list x_test_global y_test_global is_early_stopping 0 vars st
      = (inr (Continue vars'), st') ∧
    length ts = length node_list ∧
    trace st' = trace st ++ epoch_events node_list x_test_global y_test_global 0
                              (mkEpochRun None ts) ∧
    model_list vars' = Some <$> (t_result <$> ts) ∧
    global_val_loss vars' = global_val_loss vars ∧
    Forall (λ t, shape (t_result t) = arch) ts ∧
    Forall2 (turn_ok None) node_list ts.
Proof.
  intros Hlen. unfold FlTraining.epoch_body, mbind, M_bind, emit. simpl.
  destruct (training_phase_run 0 None (bind_epoch 0 vars)
              {| world := world st; trace := trace st ++ [EvEpoch 0] |} I Hlen)
    as (ts & vars' & st' & -> & Hts & Htr & Hml & Hgl & _ & Hsh & Hok).
  exists ts, vars', st'. split; [done|]. split; [done|].
  split; [|done]. rewrite Htr. simpl. by rewrite <- app_assoc.
Qed.

Lemma epoch_body_later epoch prev vars (st : state) :
  0 < epoch →
  results prev ≠ [] →
  Forall (λ w, shape w = arch) (results prev) →
  model_list vars = Some <$> results prev →
  length (model_list vars) = length node_list →
  length (global_val_loss vars) = pred epoch →
  ∃ a, averaging_ok x_test_global y_test_global keras_evaluate BATCH_SIZE prev a ∧
    if halts PATIENCE is_early_stopping epoch (global_val_loss vars ++ [a_loss a])
    then
      ∃ vars' st',
        epoch_body node_list x_test_global y_test_global is_early_stopping epoch vars st
          = (inr (Break vars'), st') ∧
        trace st' = trace st ++ EvEpoch epoch ::
                      averaging_events x_test_global y_test_global a ∧
        model_list vars' = model_list vars ∧
        global_val_loss vars' = global_val_loss vars ++ [a_loss a]
    else
      ∃ ts vars' st',
        epoch_body node_list x_test_global y_test_global is_early_stopping epoch vars st
          = (inr (Continue vars'), st') ∧
        length ts = length node_list ∧
        trace st' = trace st ++ epoch_events node_list x_test_global y_test_global epoch
                                  (mkEpochRun (Some a) ts) ∧
        model_list vars' = Some <$> (t_result <$> ts) ∧
        global_val_loss vars' = global_val_loss vars ++ [a_loss a] ∧
        Forall (λ t, shape (t_result t) = arch) ts ∧
        Forall2 (turn_ok (Some (a_new_weights a))) node_list ts.
Proof.
  intros Hpos Hne Hsh Hml Hlen Hgl.
  unfold FlTraining.epoch_body, mbind, M_bind, emit. simpl.
  rewrite bool_decide_false by lia. rewrite Hml.
  destruct (aggregate_run (results prev)
              {| world := world st; trace := trace st ++ [EvEpoch epoch] |} Hne Hsh)
    as (nw & -> & Havg & Hnw).
  unfold new_model. simpl.
  destruct (generate_new_cnn_model (world st)) as [w0 wd0]. simpl.
  unfold evaluate. simpl.
  destruct (keras_evaluate nw x_test_global y_test_global BATCH_SIZE)
    as [loss accuracy] eqn:Hev.
  exists (mkAveraging (results prev) nw w0 loss accuracy). simpl.
  split; [by repeat split|].
  rewrite early_stop_run by done.
  destruct (halts _ _ _ _).
  - eexists _, _. split; [reflexivity|]. simpl. split; [|done].
    by rewrite <- !app_assoc.
  - match goal with
    | |- context [FlTraining.training_phase _ _ _ ?e ?s _ ?v ?st0] =>
        destruct (training_phase_run e s v st0) as
          (ts & vars' & st' & Hrun & Hts & Htr & Hml' & Hgl' & _ & Hsh' & Hok')
    end; [done|by rewrite <- Hml|].
    rewrite Hrun. exists ts, vars', st'. split; [done|]. split; [done|].
    split; [|done]. rewrite Htr. simpl. by rewrite <- !app_assoc.
Qed.


Lemma valid_loop_first ts :
  length ts = length node_list → Forall2 (turn_ok None) node_list ts →
  valid_loop [mkEpochRun None ts] None.
Proof.
  intros Hts Hok. split.
  - intros [|e] r Hr; simplify_eq/=. done.
  - intros [|e] r Hr; simplify_eq/=. done.
  - intros r Hr. by simplify_eq/=.
  - intros e r Hr. done.
  - done.
Qed.

Lemma valid_loop_later trained prev a ts :
  valid_loop trained None → last trained = Some prev →
  averaging_ok x_test_global y_test_global keras_evaluate BATCH_SIZE prev a →
  halts PATIENCE is_early_stopping (length trained) (losses trained ++ [a_loss a]) = false →
  length ts = length node_list →
  Forall2 (turn_ok (Some (a_new_weights a))) node_list ts →
  valid_loop (trained ++ [mkEpochRun (Some a) ts]) None.
Proof.
  intros [Hturns Hfitted Hfirst Hlater _] Hlast Hok Hh Hts Hfit.
  assert (0 < length trained) as Hpos.
  { destruct trained; [done|simpl; lia]. }
  split.
  - intros e r Hr. apply lookup_app_Some in Hr as [Hr|[_ Hr]]; [by eapply Hturns|].
    apply list_lookup_singleton_Some in Hr as [_ <-]. done.
  - intros e r Hr. apply lookup_app_Some in Hr as [Hr|[_ Hr]]; [by eapply Hfitted|].
    apply list_lookup_singleton_Some in Hr as [_ <-]. done.
  - intros r Hr. apply Hfirst. rewrite lookup_app_l in Hr; done.
  - intros e r Hr. apply lookup_app_Some in Hr as [Hr|[Hge Hr]].
    + destruct (Hlater e r Hr) as (prev' & a' & Hp & Ha & Hok' & Hh').
      apply lookup_lt_Some in Hr as Hlt.
      exists prev', a'. split; [by apply lookup_app_l_Some|].
      split; [done|]. split; [done|].
      rewrite take_app_le by lia. done.
    + apply list_lookup_singleton_Some in Hr as [He <-].
      assert (S e = length trained) as HSe by lia.
      exists prev, a. split.
      { apply lookup_app_l_Some. rewrite last_lookup in Hlast.
        by replace e with (pred (length trained)) by lia. }
      split; [done|]. split; [done|].
      rewrite take_ge by (rewrite length_app; simpl; lia).
      rewrite losses_app. unfold losses at 2. simpl. by rewrite HSe.
  - done.
Qed.

Lemma valid_loop_halted trained prev a :
  valid_loop trained None → last trained = Some prev →
  averaging_ok x_test_global y_test_global keras_evaluate BATCH_SIZE prev a →
  halts PATIENCE is_early_stopping (length trained) (losses trained ++ [a_loss a]) = true →
  valid_loop trained (Some a).
Proof.
  intros [Hturns Hfitted Hfirst Hlater _] Hlast Hok Hh. split; try done.
  intros a' [= <-]. by exists prev.
Qed.

Lemma last_results_nonempty trained prev :
  node_list ≠ [] → valid_loop trained None → last trained = Some prev →
  results prev ≠ [].
Proof.
  intros Hne [Hturns _ _ _ _] Hlast. rewrite last_lookup in Hlast.
  apply Hturns in Hlast. unfold results. intros Hnil.
  apply (f_equal length) in Hnil. rewrite length_fmap, Hlast in Hnil.
  by destruct node_list.
Qed.

Lemma epoch_loop_run count : ∀ trained vars (st : state) pre,
  node_list ≠ [] →
  valid_loop trained None →
  models_rel trained vars →
  global_val_loss vars = losses trained →
  trace st = pre ++ loop_events node_list x_test_global y_test_global trained None →
  ∃ trained' halted vars' st',
    epoch_loop node_list x_test_global y_test_global is_early_stopping
               (seq (length trained) count) vars st
      = (inr (leaves halted vars'), st') ∧
    trace st' = pre ++ loop_events node_list x_test_global y_test_global trained' halted ∧
    valid_loop trained' halted ∧
    models_rel trained' vars' ∧
    global_val_loss vars' = losses trained' ++ halted_loss halted ∧
    length trained ≤ length trained' ∧
    match halted with
    | None => length trained' = length trained + count
    | Some _ => length trained' < length trained + count
    end.
Proof.
  induction count as [|count IH]; intros trained vars st pre Hne Hvalid Hrel Hgl Htr.
  { exists trained, None, vars, st. simpl. rewrite app_nil_r.
    do 5 (split; [done|]). split; lia. }
  simpl. unfold mbind, M_bind.
  destruct Hrel as [Hlen Hmodels].
  destruct (last trained) as [prev|] eqn:Hlast.
  - destruct (Hmodels prev eq_refl) as [Hml Hsh].
    pose proof (last_results_nonempty trained prev Hne Hvalid Hlast) as Hres.
    assert (0 < length trained) as Hpos.
    { destruct trained; [done|simpl; lia]. }
    destruct (epoch_body_later (length trained) prev vars st Hpos Hres Hsh Hml Hlen)
      as (a & Hok & Hbody).
    { rewrite Hgl. by eapply valid_loop_losses_length. }
    rewrite Hgl in Hbody.
    destruct (halts _ _ _ _) eqn:Hh.
    + destruct Hbody as (vars' & st' & -> & Htr' & Hml' & Hgl').
      exists trained, (Some a), vars', st'. simpl.
      split; [done|]. split.
      { rewrite loop_events_halt, Htr', Htr. by rewrite <- !app_assoc. }
      split; [by eapply valid_loop_halted|].
      split.
      { split; [by rewrite Hml'|]. intros p Hp. rewrite Hlast in Hp. simplify_eq. by rewrite Hml'. }
      split; [done|]. split; lia.
    + destruct Hbody as (ts & vars' & st' & -> & Hts & Htr' & Hml' & Hgl' & Hsh' & Hfit').
      pose proof (valid_loop_later trained prev a ts Hvalid Hlast Hok Hh Hts Hfit')
        as Hvalid'.
      destruct (IH (trained ++ [mkEpochRun (Some a) ts]) vars' st' pre Hne Hvalid')
        as (trained' & halted & vars'' & st'' & Hrun & Htr'' & Hv'' & Hrel'' & Hgl'' & Hle & Hcount).
      { split; [by rewrite Hml', !length_fmap|].
        intros p Hp. rewrite last_snoc in Hp. simplify_eq. unfold results. simpl.
        split; [done|]. by apply Forall_fmap. }
      { rewrite Hgl', losses_app. unfold losses at 2. by simpl. }
      { rewrite loop_events_snoc, Htr', Htr. by rewrite <- !app_assoc. }
      rewrite length_app in Hrun, Hle, Hcount. simpl in *.
      rewrite Nat.add_1_r in Hrun. rewrite Hrun.
      exists trained', halted, vars'', st''.
      repeat (split; [done|]). split; [lia|]. destruct halted; lia.
  - apply last_None in Hlast as ->. simpl.
    destruct (epoch_body_first vars st Hlen)
      as (ts & vars' & st' & -> & Hts & Htr' & Hml' & Hgl' & Hsh' & Hfit').
    destruct (IH [mkEpochRun None ts] vars' st' pre Hne (valid_loop_first ts Hts Hfit'))
      as (trained' & halted & vars'' & st'' & Hrun & Htr'' & Hv'' & Hrel'' & Hgl'' & Hle & Hcount).
    { split; [by rewrite Hml', !length_fmap|].
      intros p Hp. simpl in Hp. simplify_eq. unfold results. simpl.
      split; [done|]. by apply Forall_fmap. }
    { rewrite Hgl', Hgl. done. }
    { rewrite Htr', Htr. unfold loop_events. simpl. by rewrite !app_nil_r. }
    simpl in *. rewrite Hrun.
    exists trained', halted, vars'', st''.
    repeat (split; [done|]). split; [lia|]. destruct halted; lia.
Qed.

Local Abbreviation emits :=
  (Trace.emits (Sample:=Sample) (Label:=Label) (World:=World) (F:=F)).

Lemma perform_io r : emits (perform file_io r) (Forall (λ ev, is_io ev = true)).
Proof.
  intros st. unfold perform. destruct (file_io _ _) as [failure wd].
  eexists. split; [done|]. by repeat constructor.
Qed.

Lemma io_bind {A B} (m : M A) (k : A → M B) :
  emits m (Forall (λ ev, is_io ev = true)) →
  (∀ a, emits (k a) (Forall (λ ev, is_io ev = true))) →
  emits (m ≫= k) (Forall (λ ev, is_io ev = true)).
Proof.
  intros Hm Hk. eapply emits_bind; [exact Hm|exact Hk|constructor|].
  intros e1 e2. apply Forall_app_2.
Qed.

Lemma save_history_io vars :
  emits (save_history file_io save_folder vars) (Forall (λ ev, is_io ev = true)).
Proof.
  unfold save_history.
  repeat (apply io_bind;
          [first [apply perform_io|by intros st; exists []; rewrite app_nil_r]
          |intros ?]).
  destruct (loop_epoch vars); [|by apply emits_raise].
  repeat (apply io_bind;
          [first [apply perform_io|by intros st; exists []; rewrite app_nil_r]
          |intros ?]).
  apply perform_io.
Qed.

(** The block under [if is_save_fig:] only writes and draws; with a
    string as [save_folder] it raises at once. *)
Lemma save_history_run vars (st : state) :
  ∃ saves r st',
    save_history file_io save_folder vars st = (r, st') ∧
    trace st' = trace st ++ saves ∧
    Forall (λ ev, is_io ev = true) saves ∧
    (∀ s, save_folder = Str s → saves = [] ∧ r = inl TypeError).
Proof.
  destruct (save_history_io vars st) as (saves & Htr & Hio).
  destruct (save_history file_io save_folder vars st) as [r st'] eqn:Hrun.
  exists saves, r, st'. do 3 (split; [done|]).
  intros s ->. unfold save_history, mbind, M_bind, lift in Hrun. simpl in Hrun.
  injection Hrun as <- <-. split; [|done].
  simpl in Htr. apply (f_equal length) in Htr. rewrite length_app in Htr.
  destruct saves; [done|simpl in Htr; lia].
Qed.

(** A run on several nodes with a positive epoch count: the loop, then
    the final averaging, the block under [if is_save_fig:] and, unless
    it raised, the evaluation of the averaged model. *)
Lemma compute_test_score_run epoch_count (st : state) :
  2 ≤ length node_list → 0 < epoch_count →
  ∃ trained halted prev final saves evaluated result st',
    compute_test_score node_list x_test_global y_test_global is_early_stopping
                       is_save_fig save_folder epoch_count st
      = (result, st') ∧
    trace st' = trace st
                ++ loop_events node_list x_test_global y_test_global trained halted
                ++ closing_events x_test_global y_test_global final saves evaluated ∧
    closes is_save_fig save_folder final saves evaluated result ∧
    valid_loop trained halted ∧
    last trained = Some prev ∧
    averaging_ok x_test_global y_test_global keras_evaluate BATCH_SIZE prev final ∧
    match halted with
    | None => length trained = epoch_count
    | Some _ => length trained < epoch_count
    end.
Proof.
  intros Hn HE. unfold FlTraining.compute_test_score.
  rewrite decide_False by lia. unfold mbind at 1, M_bind at 1.
  assert (node_list ≠ []) as Hne by (destruct node_list; [simpl in Hn; lia|done]).
  destruct (epoch_loop_run epoch_count []
              {| model_list := replicate (length node_list) None;
                 score_matrix := replicate epoch_count (replicate (length node_list) 0%Qc);
                 global_val_acc := [];
                 global_val_loss := [];
                 loop_epoch := None |} st (trace st) Hne)
    as (trained & halted & vars' & st1 & Hrun & Htr & Hvalid & [Hlen Hmodels] & Hgl & _ & Hcount).
  { by split. }
  { split; [simpl; by rewrite length_replicate|]. intros p Hp. done. }
  { done. }
  { unfold loop_events. simpl. by rewrite app_nil_r. }
  simpl in Hrun. rewrite Hrun.
  assert (trained ≠ []) as Htrained.
  { intros ->. destruct halted as [a|]; simpl in Hcount; [|lia].
    pose proof Hvalid as [_ _ _ _ Hhalt].
    destruct (Hhalt a eq_refl) as (p & Hp & _). done. }
  destruct (last trained) as [prev|] eqn:Hlast; [|by apply last_None in Hlast].
  destruct (Hmodels prev eq_refl) as [Hml Hsh].
  assert (valid_loop trained None) as Hvalid0.
  { destruct Hvalid. by split. }
  pose proof (last_results_nonempty trained prev Hne Hvalid0 Hlast) as Hres.
  assert (flow_val (leaves halted vars') = vars') as -> by (by destruct halted).
  rewrite Hml.
  unfold mbind at 1, M_bind at 1.
  destruct (aggregate_run (results prev) st1 Hres Hsh) as (nw & -> & Havg & Hnw).
  unfold mbind at 1, M_bind at 1, new_model. cbn [world trace].
  destruct (generate_new_cnn_model (world st1)) as [w0 wd0].
  unfold mbind at 1, M_bind at 1, set_weights, emit.
  unfold mbind at 1, M_bind at 1. cbn [world trace mret M_ret].
  destruct (keras_evaluate nw x_test_global y_test_global BATCH_SIZE)
    as [loss accuracy] eqn:Hev.
  exists trained, halted, prev, (mkAveraging (results prev) nw w0 loss accuracy).
  unfold mbind at 1, M_bind at 1.
  destruct is_save_fig.
  - match goal with
    | |- context [save_history _ _ ?v ?s] =>
        destruct (save_history_run v s) as (saves & r & st3 & Hs & Htr3 & Hio & Hstr)
    end.
    rewrite Hs. destruct r as [e|[]].
    + exists saves, false, (inl e), st3. split; [done|].
      split; [rewrite Htr3; simpl; rewrite Htr; unfold closing_events;
              by rewrite app_nil_r, <- !app_assoc|].
      split.
      { split; [done|]. split; [done|]. split; [|by eexists].
        intros s _ Hs'. by destruct (Hstr s Hs') as [-> [= ->]]. }
      split; [done|]. split; [done|]. split; [by repeat split|].
      destruct halted; simpl in Hcount; lia.
    + unfold mbind, M_bind, evaluate. rewrite Hev. cbn [world trace mret M_ret].
      exists saves, true, (inr accuracy). eexists. split; [reflexivity|].
      split; [simpl; rewrite Htr3; simpl; rewrite Htr; unfold closing_events;
              by rewrite <- !app_assoc|].
      split.
      { split; [done|]. split; [done|]. split; [|done].
        intros s _ Hs'. by destruct (Hstr s Hs') as [_ [=]]. }
      split; [done|]. split; [done|]. split; [by repeat split|].
      destruct halted; simpl in Hcount; lia.
  - unfold mbind, M_bind, evaluate. cbn [world trace mret M_ret]. rewrite Hev.
    exists [], true, (inr accuracy). eexists. split; [reflexivity|].
    split; [simpl; rewrite Htr; unfold closing_events; simpl;
            by rewrite <- !app_assoc|].
    split; [by repeat split|].
    split; [done|]. split; [done|]. split; [by repeat split|].
    destruct halted; simpl in Hcount; lia.
Qed.







Lemma epochs_announced_phase_events (seed : option Weights) (ts : list turn) :
  epochs_announced (phase_events node_list seed ts) = [].
Proof.
  unfold phase_events. revert ts.
  induction node_list as [|node nodes IH]; intros [|t ts]; simpl; try done.
  rewrite epochs_announced_app, IH. by destruct seed.
Qed.


Lemma epochs_announced_epoch_events e (r : epoch_run) :
  epochs_announced (epoch_events node_list x_test_global y_test_global e r) = [e].
Proof.
  unfold epoch_events. destruct (e_averaging r) as [a|]; simpl.
  - by rewrite epochs_announced_phase_events.
  - by rewrite epochs_announced_phase_events.
Qed.

Lemma epochs_announced_loop_events (trained : list epoch_run) (halted : option averaging) :
  epochs_announced (loop_events node_list x_test_global y_test_global trained halted)
  = seq 0 (length trained + length (halted_loss halted)).
Proof.
  unfold loop_events. rewrite epochs_announced_app.
  assert (∀ first, epochs_announced
            (concat (imap (λ i, epoch_events node_list x_test_global y_test_global
                                  (first + i)) trained))
          = seq first (length trained)) as Hall.
  { induction trained as [|r rest IH]; intros first; [done|].
    rewrite imap_cons, concat_cons, epochs_announced_app, Nat.add_0_r.
    rewrite epochs_announced_epoch_events. cbn [length seq app]. f_equal.
    rewrite <- IH. do 2 f_equal. apply imap_ext. intros; simpl. f_equal. lia. }
  rewrite (imap_ext _ (λ i, epoch_events node_list x_test_global y_test_global (0 + i)))
    by done.
  rewrite (Hall 0). destruct halted as [a|]; simpl.
  - by rewrite seq_app.
  - by rewrite Nat.add_0_r, app_nil_r.
Qed.





End run.
End loop_facts.

Section loop_examples.
Import Py Aggregation FlTraining Trace.

(** The engine on the two nodes of [Toy], with the test data [[7; 7; 7]],
    a patience of 2 and training along [Toy.fit_schedule]. *)
Local Abbreviation toy_score es epochs :=
  (compute_test_score Toy.generate Toy.fit_schedule Toy.evaluate Toy.BATCH_SIZE 2 Toy.io_ok
     Toy.two_nodes [7; 7; 7] [7; 7; 7] es false (Str "") epochs Toy.st0).
Local Abbreviation toy_saved_score io save_folder epochs :=
  (compute_test_score Toy.generate Toy.fit_schedule Toy.evaluate Toy.BATCH_SIZE 2 io
     Toy.two_nodes [7; 7; 7] [7; 7; 7] true true save_folder epochs Toy.st0).
Local Abbreviation toy_loop_events :=
  (loop_events Toy.two_nodes [7; 7; 7] [7; 7; 7]).
Local Abbreviation toy_averaging_events :=
  (averaging_events (Sample:=nat) (Label:=nat) (F:=Qc) [7; 7; 7] [7; 7; 7]).
Local Abbreviation toy_closing_events :=
  (closing_events (Sample:=nat) (Label:=nat) (F:=Qc) [7; 7; 7] [7; 7; 7]).
Local Abbreviation toy_turn_ok :=
  (turn_ok Toy.generate Toy.fit_schedule Toy.BATCH_SIZE).
Local Abbreviation toy_valid_loop :=
  (valid_loop Toy.two_nodes [7; 7; 7] [7; 7; 7] Toy.generate Toy.fit_schedule
              Toy.evaluate Toy.BATCH_SIZE 2 true).




(** The end of three runs with [is_save_fig], on the two nodes of
    [Toy] with 10 epochs. With the default [save_folder], a string,
    the run raises a [TypeError] after the final averaging step,
    before any file is written and without evaluating the final
    model. With a path and a file system that takes every file, three
    arrays are saved and three figures drawn and saved, and the score
    is returned. With a path and a folder that cannot be written, the
    first [np.save] raises. *)
Lemma save_block_example :
  let final_weights := Toy.constant (Toy.q 2) in
  let closing evs := drop (length evs - 4) evs in
  (toy_saved_score Toy.io_ok (Str "") 10).1 = inl TypeError ∧
  is_io <$> closing (trace (toy_saved_score Toy.io_ok (Str "") 10).2)
    = [false; false; false; false] ∧
  last (evaluated_on (trace (toy_saved_score Toy.io_ok (Str "") 10).2))
    = last (evaluated_on (trace (toy_score true 10).2)) ∧
  length (evaluated_on (trace (toy_score true 10).2))
    = S (length (evaluated_on (trace (toy_saved_score Toy.io_ok (Str "") 10).2))) ∧
  (toy_saved_score Toy.io_ok (Path "out") 10).1 = (toy_score true 10).1 ∧
  omap (λ ev, match ev with EvIO r => Some r | _ => None end)
       (trace (toy_saved_score Toy.io_ok (Path "out") 10).2)
    = [NpSave ("out", "score_matrix")
         (Matrix ([[Toy.q 1 / Toy.q 2; Toy.q 1 / Toy.q 2]; [Toy.q 1 / Toy.q 2; Toy.q 1 / Toy.q 2];
                   [Toy.q 1 / Toy.q 2; Toy.q 1 / Toy.q 2]]
                  ++ replicate 7 [Toy.q 0; Toy.q 0])%Qc);
       NpSave ("out", "global_val_acc") (Vector [Toy.q 10; Toy.q 1; Toy.q 2]);
       NpSave ("out", "global_val_loss") (Vector [Toy.q 13; Toy.q 4; Toy.q 5]);
       Figure;
       Plot (Vector [Toy.q 13; Toy.q 4; Toy.q 5]);
       Savefig ("out", "federated_training_loss.png");
       Figure;
       Plot (Vector [Toy.q 10; Toy.q 1; Toy.q 2]);
       Savefig ("out", "federated_training_acc.png");
       Figure;
       Plot (Matrix ([[Toy.q 1 / Toy.q 2; Toy.q 1 / Toy.q 2]; [Toy.q 1 / Toy.q 2; Toy.q 1 / Toy.q 2];
                      [Toy.q 1 / Toy.q 2; Toy.q 1 / Toy.q 2]; [Toy.q 0; Toy.q 0]])%Qc);
       Savefig ("out", "all_nodes.png")] ∧
  (toy_saved_score Toy.io_fails (Path "out") 10).1 = inl FileNotFoundError ∧
  length (omap (λ ev, match ev with EvIO r => Some r | _ => None end)
            (trace (toy_saved_score Toy.io_fails (Path "out") 10).2)) = 1.
Proof.
  repeat split; apply (bool_decide_unpack _); by vm_compute.
Qed.

End loop_examples.

(** ** Scenarios *)

Section scenario_facts.
Import Py Scenario.
Context {Sample Dataset Splitter Corruption Approach Aggregator : Type}.
Variable MULTI_PARTNER_LEARNING_APPROACHES : gmap string Approach.
Variable AGGREGATORS : gmap string Aggregator.
Variable CONTRIBUTIVITY_METHODS : list string.
Variable MAX_BATCH_SIZE : Z.
Variable dataset_of_name : string → option Dataset.
Variable shorten_dataset_proportion : Dataset → Qc → Dataset.
Variable new_splitter : string → list Qc → string → string → option value → E Splitter.
Variable new_corruption : string → E Corruption.
Variable NoCorruption : Corruption.
Variable quick_demo_dataset : Dataset → Dataset.
Variable default_scenario_name : value → value → string.
Variable has_whitespace : string → bool.
Variable np_sum : list Qc → Qc.
Variable new_partner : nat → Corruption → Partner Sample Corruption.
Variable splitter_split :
  Splitter → list (Partner Sample Corruption) → Dataset → E (list (Partner Sample Corruption)).
Variable apply_data_alteration_configuration :
  list (Partner Sample Corruption) → E (list (Partner Sample Corruption)).

Local Abbreviation Partner := (Partner Sample Corruption).
Local Abbreviation args := (args Dataset Splitter Corruption).
Local Abbreviation init :=
  (init MULTI_PARTNER_LEARNING_APPROACHES AGGREGATORS CONTRIBUTIVITY_METHODS
        MAX_BATCH_SIZE dataset_of_name shorten_dataset_proportion new_splitter
        new_corruption NoCorruption quick_demo_dataset default_scenario_name
        has_whitespace np_sum new_partner splitter_split apply_data_alteration_configuration).

Local Abbreviation clipped_batch_size := (Scenario.clipped_batch_size MAX_BATCH_SIZE).

Lemma np_clip_range a hi : (1 ≤ hi)%Z → (1 ≤ np_clip a 1 hi ≤ hi)%Z.
Proof. unfold np_clip. lia. Qed.

Lemma mapM_E_total {A B} (f : A → E B) (g : A → B) (l : list A) :
  (∀ x, x ∈ l → f x = inr (g x)) → mapM f l = inr (g <$> l).
Proof.
  induction l as [|x l IH]; intros H; [done|].
  change (mapM f (x :: l)) with (y ← f x; k ← mapM f l; mret (y :: k)).
  rewrite (H x) by left.
  rewrite IH by (intros y Hy; apply H; by right). done.
Qed.

Lemma mapM_E_inr {A B} (f : A → E B) (l : list A) (k : list B) :
  mapM f l = inr k → Forall2 (λ x y, f x = inr y) l k.
Proof.
  revert k. induction l as [|x l IH]; intros k H.
  - injection H as <-. constructor.
  - change (mapM f (x :: l)) with (y ← f x; k ← mapM f l; mret (y :: k)) in H.
    destruct (f x) as [e|y] eqn:Hx; [done|].
    destruct (mapM f l) as [e|k'] eqn:Hl; [done|].
    injection H as <-. constructor; [done|]. by apply IH.
Qed.


Lemma set_batch_size_run divisor (p : Partner) :
  divisor ≠ 0%Z →
  set_batch_size MAX_BATCH_SIZE divisor p
  = inr {| id := id p; corruption := corruption p; x_train := x_train p;
           batch_size := clipped_batch_size (length (x_train p)) divisor |}.
Proof.
  intros Hd. unfold set_batch_size, int_div, mbind, E_bind.
  by rewrite decide_False.
Qed.

(** C9. In a scenario whose update counts are positive, as the
    constructor asserts, whose partner list has [partners_count]
    entries, as [instantiate_scenario_partners] builds it, and with a
    [MAX_BATCH_SIZE] of at least 1, [compute_batch_sizes] returns, and
    afterwards every partner has the batch size
    [clip(int(len(x_train) / divisor), 1, MAX_BATCH_SIZE)], where the
    divisor is [gradient_updates_per_pass_count] for a single partner
    and [minibatch_count * gradient_updates_per_pass_count] otherwise;
    this batch size is at least 1 and at most [MAX_BATCH_SIZE], and
    nothing else of the partner changes. *)
Theorem batch_sizes_positive partners_count minibatch_count
    gradient_updates_per_pass_count (partners_list : list Partner) :
  (1 ≤ MAX_BATCH_SIZE)%Z →
  (0 < minibatch_count)%Z → (0 < gradient_updates_per_pass_count)%Z →
  Z.of_nat (length partners_list) = partners_count →
  let divisor :=
    if decide (partners_count = 1%Z) then gradient_updates_per_pass_count
    else (minibatch_count * gradient_updates_per_pass_count)%Z in
  ∃ partners_list',
    compute_batch_sizes MAX_BATCH_SIZE partners_count minibatch_count
      gradient_updates_per_pass_count partners_list = inr partners_list' ∧
    length partners_list' = length partners_list ∧
    ∀ i p', partners_list' !! i = Some p' →
      ∃ p, partners_list !! i = Some p ∧
           id p' = id p ∧ corruption p' = corruption p ∧ x_train p' = x_train p ∧
           batch_size p' = clipped_batch_size (length (x_train p)) divisor ∧
           (1 ≤ batch_size p' ≤ MAX_BATCH_SIZE)%Z.
Proof.
  intros Hmax Hmc Hg Hlen divisor. unfold compute_batch_sizes. subst divisor.
  case_decide as Hone.
  - destruct partners_list as [|p [|? ?]]; simpl in Hlen; try lia. simpl.
    unfold mbind, E_bind. rewrite set_batch_size_run by lia.
    eexists. split; [done|]. split; [done|].
    intros [|i] p' Hp'; simplify_eq/=. exists p. simpl.
    repeat (split; [done|]). by apply np_clip_range.
  - rewrite (mapM_E_total _ (λ p, {| id := id p; corruption := corruption p;
               x_train := x_train p;
               batch_size := clipped_batch_size (length (x_train p))
                 (minibatch_count * gradient_updates_per_pass_count) |}))
      by (intros p _; apply set_batch_size_run; lia).
    eexists. split; [done|]. split; [by rewrite length_fmap|].
    intros i p' Hp'. rewrite list_lookup_fmap in Hp'.
    destruct (partners_list !! i) as [p|]; simplify_eq/=.
    exists p. repeat (split; [done|]). by apply np_clip_range.
Qed.

Lemma bind_inr_inv {A B} (m : E A) (k : A → E B) b :
  m ≫= k = inr b → ∃ a, m = inr a ∧ k a = inr b.
Proof. destruct m as [e|a]; [done|]. intros H. by exists a. Qed.

Lemma for_each_inr {A} (body : A → E ()) (l : list A) :
  for_each body l = inr () → ∀ x, x ∈ l → body x = inr ().
Proof.
  induction l as [|y l IH]; intros H x Hx; [by apply elem_of_nil in Hx|].
  simpl in H. apply bind_inr_inv in H as ([] & Hy & Hl).
  apply elem_of_cons in Hx as [->|Hx]; [done|by apply IH].
Qed.

(** What a successful construction went through. *)
Lemma init_inr (a : args) s :
  init a = inr s →
  np_sum (amounts_per_partner a) = 1%Qc ∧
  Z.of_nat (length (amounts_per_partner a)) = partners_count a ∧
  is_Some (MULTI_PARTNER_LEARNING_APPROACHES !! multi_partner_learning_approach a) ∧
  is_Some (AGGREGATORS !! aggregation_weighting a) ∧
  (0 < epoch_count a)%Z ∧
  (∀ method, method ∈ default [] (contributivity_methods a) →
             method ∈ CONTRIBUTIVITY_METHODS).
Proof.
  unfold Scenario.init. intros H.
  apply bind_inr_inv in H as ([] & _ & H).
  apply bind_inr_inv in H as (d & _ & H).
  apply bind_inr_inv in H as ([] & _ & H).
  apply bind_inr_inv in H as ([] & _ & H).
  cbv zeta in H.
  apply bind_inr_inv in H as ([] & Hsum & H).
  apply bind_inr_inv in H as ([] & Hlen & H).
  apply bind_inr_inv in H as ([] & _ & H).
  apply bind_inr_inv in H as ([] & _ & H).
  apply bind_inr_inv in H as (sp & _ & H).
  apply bind_inr_inv in H as (cs & _ & H).
  apply bind_inr_inv in H as (ap & Hap & H).
  apply bind_inr_inv in H as (ag & Hag & H).
  apply bind_inr_inv in H as ([] & Hepoch & H).
  apply bind_inr_inv in H as ([] & _ & H).
  apply bind_inr_inv in H as ([] & _ & H).
  cbv zeta in H.
  apply bind_inr_inv in H as ([] & Hmethods & _).
  split.
  { destruct (decide (np_sum _ ≠ 1%Qc)) as [Hd|Hd]; [discriminate|].
    by apply dec_stable in Hd. }
  split.
  { destruct (decide (Z.of_nat _ ≠ _)) as [Hd|Hd]; [discriminate|].
    by apply dec_stable in Hd. }
  split; [destruct (_ !! _); [by eexists|done]|].
  split; [destruct (AGGREGATORS !! _); [by eexists|done]|].
  split.
  { unfold py_assert in Hepoch. case_bool_decide; [done|discriminate]. }
  intros method Hin. pose proof (for_each_inr _ _ Hmethods method Hin) as Hm.
  simpl in Hm. by case_decide.
Qed.

(** C6. A construction given a non-positive epoch count, an
    aggregation weighting that is not a key of [AGGREGATORS], a
    learning approach that is not a key of
    [MULTI_PARTNER_LEARNING_APPROACHES], or a contributivity method
    that is not in [constants.CONTRIBUTIVITY_METHODS], raises an
    exception: it never returns a scenario. *)
Theorem invalid_hyperparameter_is_rejected (a : args) :
  invalid_hyperparameter MULTI_PARTNER_LEARNING_APPROACHES AGGREGATORS
                         CONTRIBUTIVITY_METHODS a →
  ∃ e, init a = inl e.
Proof.
  intros Hinvalid. destruct (init a) as [e|s] eqn:Hinit; [by exists e|].
  exfalso. apply init_inr in Hinit as (_ & _ & Hap & Hag & Hepoch & Hmethods).
  destruct Hinvalid as [He|[Hw|[Hm|(methods & method & Hcm & Hin & Hnot)]]].
  - lia.
  - rewrite Hw in Hag. by destruct Hag.
  - rewrite Hm in Hap. by destruct Hap.
  - rewrite Hcm in Hmethods. by apply Hnot, Hmethods.
Qed.

Lemma check_scenario_inr params_name scenario :
  Utils.check_scenario params_name scenario = inr () → Utils.lengths_match scenario.
Proof.
  unfold Utils.check_scenario, dict_item. intros H.
  apply bind_inr_inv in H as (pc & Hpc & H).
  apply bind_inr_inv in H as (amounts & Ham & H).
  apply bind_inr_inv in H as (n & Hn & H).
  apply bind_inr_inv in H as ([] & Hne & _).
  destruct (dict_get scenario "partners_count") as [pc'|] eqn:Hpc'; [|done].
  destruct (dict_get scenario "amounts_per_partner") as [am'|] eqn:Ham'; [|done].
  injection Hpc as ->. injection Ham as ->.
  exists pc, amounts, n. repeat (split; [done|]).
  by destruct (Utils.py_ne_nat pc n).
Qed.

(** An expansion that returns, returns every combination of the
    listed values, and each one passed the checks. *)
Lemma expand_inr list_scenario scenarios :
  Utils.expand list_scenario = inr scenarios →
  (∃ params_list,
     mapM Utils.py_iter list_scenario.*2 = inr params_list ∧
     scenarios = zip list_scenario.*1 <$> Utils.product params_list) ∧
  Forall Utils.lengths_match scenarios.
Proof.
  unfold Utils.expand. intros H.
  apply bind_inr_inv in H as (params_list & Hparams & H).
  apply mapM_E_inr in H.
  enough (scenarios = zip list_scenario.*1 <$> Utils.product params_list ∧
          Forall Utils.lengths_match scenarios) as [? ?] by eauto.
  induction H as [|el sc els scs Hsc _ [IH1 IH2]]; [by split; [|constructor]|].
  apply bind_inr_inv in Hsc as ([] & Hcheck & Hret). injection Hret as <-.
  split; [by rewrite fmap_cons, IH1|].
  constructor; [|done]. by eapply check_scenario_inr.
Qed.

Lemma get_scenario_params_list_inr config scenarios :
  Utils.get_scenario_params_list config = inr scenarios →
  Forall Utils.lengths_match scenarios.
Proof.
  unfold Utils.get_scenario_params_list. intros H.
  apply bind_inr_inv in H as (config_dataset & _ & H).
  apply bind_inr_inv in H as (lists & Hlists & H). injection H as <-.
  apply mapM_E_inr in Hlists. apply Forall_concat.
  induction Hlists as [|ls l lss lsts Hl _ IH]; constructor; [|done].
  by eapply expand_inr.
Qed.

(** Past the earlier checks, the constructor is at the checks on the
    amounts. *)
Lemma init_reaches_amounts (a : args) :
  reaches_amounts_check dataset_of_name a →
  ∃ rest : E (t Sample Dataset Splitter Corruption Approach Aggregator),
    init a =
      ((if decide (np_sum (amounts_per_partner a) ≠ 1%Qc)
        then throw ValueError else mret ());;
       (if decide (Z.of_nat (length (amounts_per_partner a)) ≠ partners_count a)
        then throw AttributeError else mret ());;
       rest).
Proof.
  intros (Hun & Hds & Hp0 & Hp1). unfold Scenario.init. rewrite Hun. simpl.
  assert (∃ d, match dataset a with
               | Some d => mret d
               | None => match dataset_of_name (dataset_name a) with
                         | Some d => mret d
                         | None => throw Exception
                         end
               end = inr d) as [d ->].
  { destruct (dataset a) as [d|]; [by exists d|].
    destruct Hds as [[d Hd]|[d Hd]]; [done|]. rewrite Hd. by exists d. }
  simpl. unfold py_assert.
  rewrite (bool_decide_true _ Hp0). simpl.
  rewrite (bool_decide_true _ Hp1). simpl.
  eexists. reflexivity.
Qed.

(** C10, as the code has it. The sum of the amounts is the one that
    [np.sum] computes, in floating point. A construction succeeds
    only when this sum is 1 and the amounts are as many as the
    partners. The checks are made in order: when the earlier checks
    of the constructor pass (known parameters, a supported data set,
    a data set proportion in (0, 1]), amounts whose sum is not 1
    raise [ValueError], and amounts whose sum is 1 but that are not
    as many as the partners raise [AttributeError]. The expansion of a configuration entry either
    raises or returns every combination of the listed values, each
    with as many amounts as partners; so does the expansion of a
    whole configuration. *)
Theorem amounts_are_checked (a : args) :
  (∀ s, init a = inr s →
        np_sum (amounts_per_partner a) = 1%Qc ∧
        Z.of_nat (length (amounts_per_partner a)) = partners_count a) ∧
  (reaches_amounts_check dataset_of_name a →
   np_sum (amounts_per_partner a) ≠ 1%Qc →
   init a = inl ValueError) ∧
  (reaches_amounts_check dataset_of_name a →
   np_sum (amounts_per_partner a) = 1%Qc →
   Z.of_nat (length (amounts_per_partner a)) ≠ partners_count a →
   init a = inl AttributeError) ∧
  (∀ list_scenario,
     match Utils.expand list_scenario with
     | inr scenarios =>
         (∃ params_list,
            mapM Utils.py_iter list_scenario.*2 = inr params_list ∧
            scenarios = zip list_scenario.*1 <$> Utils.product params_list) ∧
         Forall Utils.lengths_match scenarios
     | inl _ => True
     end) ∧
  (∀ config,
     match Utils.get_scenario_params_list config with
     | inr scenarios => Forall Utils.lengths_match scenarios
     | inl _ => True
     end).
Proof.
  split; [|split; [|split; [|split]]].
  - intros s Hs. apply init_inr in Hs as (? & ? & _). done.
  - intros Hreach Hsum. destruct (init_reaches_amounts a Hreach) as [rest ->].
    by rewrite (decide_True _ _ Hsum).
  - intros Hreach Hsum Hlen. destruct (init_reaches_amounts a Hreach) as [rest ->].
    rewrite (decide_False (P:=np_sum (amounts_per_partner a) ≠ 1%Qc)) by (by intros ?).
    simpl. by rewrite (decide_True _ _ Hlen).
  - intros ls. destruct (Utils.expand ls) eqn:H; [done|]. by apply expand_inr.
  - intros config. destruct (Utils.get_scenario_params_list config) eqn:H; [done|].
    by apply (get_scenario_params_list_inr config).
Qed.
End scenario_facts.

Section scenario_examples.
Import Py Scenario.

Lemma batch_sizes_positive_witness :
  let divisor := if decide (2 = 1)%Z then 8%Z else (10 * 8)%Z in
  ∃ partners_list',
    compute_batch_sizes ToyScenario.MAX_BATCH_SIZE 2 10 8
      [ToyScenario.partner 0 3; ToyScenario.partner 1 500] = inr partners_list' ∧
    length partners_list' = length [ToyScenario.partner 0 3; ToyScenario.partner 1 500] ∧
    ∀ i p', partners_list' !! i = Some p' →
      ∃ p, [ToyScenario.partner 0 3; ToyScenario.partner 1 500] !! i = Some p ∧
           id p' = id p ∧ corruption p' = corruption p ∧ x_train p' = x_train p ∧
           batch_size p' = clipped_batch_size ToyScenario.MAX_BATCH_SIZE
                             (length (x_train p)) divisor ∧
           (1 ≤ batch_size p' ≤ ToyScenario.MAX_BATCH_SIZE)%Z.
Proof.
  apply (batch_sizes_positive ToyScenario.MAX_BATCH_SIZE 2 10 8
           [ToyScenario.partner 0 3; ToyScenario.partner 1 500]).
  - unfold ToyScenario.MAX_BATCH_SIZE. lia.
  - lia.
  - lia.
  - reflexivity.
Defined.

(** The division of C9 giving 0: three samples over eighty updates. *)
Example batch_size_of_small_partner :
  compute_batch_sizes ToyScenario.MAX_BATCH_SIZE 2 10 8
    [ToyScenario.partner 0 3; ToyScenario.partner 1 500]
  = inr [{| id := 0; corruption := (); x_train := replicate 3 0; batch_size := 1 |};
         {| id := 1; corruption := (); x_train := replicate 500 0; batch_size := 6 |}].
Proof. reflexivity. Qed.

Lemma invalid_hyperparameter_is_rejected_witness :
  ∃ e, ToyScenario.init
         (ToyScenario.call 2 [ToyScenario.half; ToyScenario.half] 0 []) = inl e.
Proof.
  apply (invalid_hyperparameter_is_rejected
           ToyScenario.MULTI_PARTNER_LEARNING_APPROACHES ToyScenario.AGGREGATORS
           ToyScenario.CONTRIBUTIVITY_METHODS ToyScenario.MAX_BATCH_SIZE
           ToyScenario.dataset_of_name ToyScenario.shorten_dataset_proportion
           ToyScenario.new_splitter ToyScenario.new_corruption () (λ d, d)
           ToyScenario.default_scenario_name ToyScenario.has_whitespace ToyScenario.np_sum
           ToyScenario.new_partner ToyScenario.splitter_split
           ToyScenario.apply_data_alteration_configuration
           (ToyScenario.call 2 [ToyScenario.half; ToyScenario.half] 0 [])).
  left. simpl. lia.
Defined.

Lemma toy_call_reaches_amounts n amounts epochs :
  reaches_amounts_check ToyScenario.dataset_of_name (ToyScenario.call n amounts epochs []).
Proof.
  split; [reflexivity|]. split; [right; by eexists|]. split; [reflexivity|].
  intros H. discriminate H.
Defined.

Lemma amounts_are_checked_witness :
  ToyScenario.init (ToyScenario.call 2 [ToyScenario.half; ToyScenario.three_tenths] 5 [])
    = inl ValueError ∧
  ToyScenario.init (ToyScenario.call 3 [ToyScenario.half; ToyScenario.half] 5 [])
    = inl AttributeError.
Proof.
  split.
  - apply (amounts_are_checked
             ToyScenario.MULTI_PARTNER_LEARNING_APPROACHES ToyScenario.AGGREGATORS
             ToyScenario.CONTRIBUTIVITY_METHODS ToyScenario.MAX_BATCH_SIZE
             ToyScenario.dataset_of_name ToyScenario.shorten_dataset_proportion
             ToyScenario.new_splitter ToyScenario.new_corruption () (λ d, d)
             ToyScenario.default_scenario_name ToyScenario.has_whitespace ToyScenario.np_sum
             ToyScenario.new_partner ToyScenario.splitter_split
             ToyScenario.apply_data_alteration_configuration
             (ToyScenario.call 2 [ToyScenario.half; ToyScenario.three_tenths] 5 [])).
    + apply toy_call_reaches_amounts.
    + simpl. intros H. apply (f_equal this) in H. vm_compute in H. discriminate H.
  - apply (amounts_are_checked
             ToyScenario.MULTI_PARTNER_LEARNING_APPROACHES ToyScenario.AGGREGATORS
             ToyScenario.CONTRIBUTIVITY_METHODS ToyScenario.MAX_BATCH_SIZE
             ToyScenario.dataset_of_name ToyScenario.shorten_dataset_proportion
             ToyScenario.new_splitter ToyScenario.new_corruption () (λ d, d)
             ToyScenario.default_scenario_name ToyScenario.has_whitespace ToyScenario.np_sum
             ToyScenario.new_partner ToyScenario.splitter_split
             ToyScenario.apply_data_alteration_configuration
             (ToyScenario.call 3 [ToyScenario.half; ToyScenario.half] 5 [])).
    + apply toy_call_reaches_amounts.
    + simpl. apply Qc_is_canon. reflexivity.
    + simpl. lia.
Defined.

(** C10, as stated, fails. Three partners are announced and two
    amounts given, 0.5 and 0.3, whose sum is not 1 (in floating point
    no more than in exact arithmetic): the length differs from
    [partners_count], yet the constructor raises [ValueError], not
    [AttributeError]. And with an unknown keyword argument, amounts
    that do not sum to 1 raise [Exception], not [ValueError]. *)
Lemma amounts_check_counterexample :
  Z.of_nat (length [ToyScenario.half; ToyScenario.three_tenths]) ≠ 3%Z ∧
  ToyScenario.init (ToyScenario.call 3 [ToyScenario.half; ToyScenario.three_tenths] 5 [])
    = inl ValueError ∧
  inl ValueError ≠ (inl AttributeError : E (Scenario.t nat (list nat) () () () ())) ∧
  ToyScenario.np_sum [ToyScenario.half; ToyScenario.three_tenths] ≠ 1%Qc ∧
  ToyScenario.init (ToyScenario.call 2 [ToyScenario.half; ToyScenario.three_tenths] 5
                      [("colour"%string, VInt 1)])
    = inl Exception.
Proof.
  split; [simpl; lia|]. split; [by vm_compute|]. split; [discriminate|].
  split; [|by vm_compute].
  intros H. apply (f_equal this) in H. vm_compute in H. discriminate H.
Qed.
End scenario_examples.
(** ** More on the averaging step *)

Section zip_star_length.
Import Py Aggregation.
Context {A : Type}.
Implicit Types (ls : list (list A)) (l : list A).

Lemma zip_star_aux_length m ls :
  length (zip_star_aux m ls) ≤ m ∧
  Forall (λ l, length (zip_star_aux m ls) ≤ length l) ls ∧
  (length (zip_star_aux m ls) = m ∨
   Exists (λ l, length (zip_star_aux m ls) = length l) ls).
Proof.
  revert ls. induction m as [|m IH]; intros ls; simpl.
  { split; [done|]. split; [|by left]. apply Forall_forall. intros; lia. }
  destruct (heads ls) as [hs|] eqn:Hh; simpl.
  - assert (Forall (λ l, 0 < length l) ls) as Hpos.
    { assert (is_Some (mapM head ls)) as Hs by (by exists hs).
      apply mapM_is_Some in Hs. eapply Forall_impl; [exact Hs|].
      intros [|x l] [h Hl]; simpl in *; [done|lia]. }
    destruct (IH (tail <$> ls)) as (Hm & Hall & Hex).
    split; [lia|]. split.
    + rewrite Forall_fmap in Hall. rewrite Forall_forall in *.
      intros l Hl. specialize (Hall l Hl). specialize (Hpos l Hl). simpl in Hall.
      destruct l; simpl in *; lia.
    + destruct Hex as [Hex|Hex]; [left; lia|right].
      rewrite Exists_fmap in Hex. rewrite Exists_exists in *.
      destruct Hex as (l & Hl & Hlen). exists l. split; [done|].
      rewrite Forall_forall in Hpos. specialize (Hpos l Hl). simpl in Hlen.
      destruct l; simpl in *; lia.
  - split; [lia|]. split; [apply Forall_forall; intros; lia|]. right.
    assert (¬ Forall (is_Some ∘ head) ls) as Hn.
    { intros Hs. apply mapM_is_Some in Hs. unfold heads in Hh. rewrite Hh in Hs.
      by destruct Hs. }
    apply not_Forall_Exists in Hn; [|intros l; apply _].
    eapply Exists_impl; [exact Hn|]. intros [|x l] Hl; simpl in *; [done|].
    exfalso. apply Hl. by eexists.
Qed.

(** The unpacked-and-zipped lists are as many as the shortest list
    has elements. *)
Lemma zip_star_length ls :
  ls ≠ [] →
  Forall (λ l, length (zip_star ls) ≤ length l) ls ∧
  Exists (λ l, length (zip_star ls) = length l) ls.
Proof.
  intros Hne. destruct ls as [|l ls]; [done|]. unfold zip_star.
  destruct (zip_star_aux_length (length l) (l :: ls)) as (_ & Hall & Hex).
  split; [done|]. destruct Hex as [Hex|Hex]; [|done]. by left.
Qed.
End zip_star_length.

Section average_tensors.
Import Py Aggregation.
Context {F : Type} `{!Numpy F}.
Local Abbreviation Weights := (Weights F).

(** X4. The averaging step never checks that the partners hold
    the same number of tensors: when it returns, the average has as
    many tensors as the partner with the fewest, the further tensors
    of the other partners being dropped. *)
Theorem average_keeps_the_common_tensors (ws : list Weights) r :
  ws ≠ [] → average_weights ws = Some r →
  Forall (λ w : Weights, length r ≤ length w) ws ∧
  Exists (λ w : Weights, length r = length w) ws.
Proof.
  intros Hne Havg. unfold average_weights in Havg.
  apply length_mapM in Havg. rewrite <- Havg. by apply zip_star_length.
Qed.
End average_tensors.

Section more_average_examples.
Import Py Aggregation.

(** Two partners, the second with one tensor more: the average has
    the one tensor they share. *)
Lemma average_keeps_the_common_tensors_witness :
  let ws := [Toy.constant (Toy.q 1); Toy.constant (Toy.q 3) ++ Toy.constant (Toy.q 5)] in
  Forall (λ w : Toy.Weights, 1 ≤ length w) ws ∧ Exists (λ w : Toy.Weights, 1 = length w) ws.
Proof.
  apply (average_keeps_the_common_tensors
           [Toy.constant (Toy.q 1); Toy.constant (Toy.q 3) ++ Toy.constant (Toy.q 5)]
           (Toy.constant (Toy.q 2))).
  - discriminate.
  - apply (bool_decide_unpack _). by vm_compute.
Defined.
End more_average_examples.

(** ** The work of a run *)

Section work_facts.
Import Py Aggregation FlTraining Trace Work.
Context {Sample Label World F : Type} `{!Numpy F}.
Local Abbreviation Weights := (Weights F).
Variable generate_new_cnn_model : World → Weights * World.
Variable keras_fit :
  Weights → list Sample → list Label → nat → nat →
  list Sample → list Label → World → (Weights * History) * World.
Variable keras_evaluate : Weights → list Sample → list Label → nat → Qc * Qc.
Variables BATCH_SIZE PATIENCE : nat.
Variable file_io : request → World → option exn * World.

Variable arch : Shape.
Hypothesis generate_shape : ∀ wd, shape (generate_new_cnn_model wd).1 = arch.
Hypothesis fit_shape : ∀ w x y b k xv yv wd,
  shape w = arch → shape (keras_fit w x y b k xv yv wd).1.1 = arch.
Hypothesis fit_val_acc : ∀ w x y b xv yv wd,
  val_acc (keras_fit w x y b 1 xv yv wd).1.2 ≠ [].

Local Abbreviation event := (event Sample Label F).
Local Abbreviation state := (state Sample Label World F).
Local Abbreviation Node := (Node Sample Label).
Local Abbreviation epoch_run := (epoch_run F).
Local Abbreviation averaging := (averaging F).
Local Abbreviation turn := (turn F).
Local Abbreviation compute_test_score :=
  (compute_test_score generate_new_cnn_model keras_fit keras_evaluate BATCH_SIZE PATIENCE
     file_io).

Variable node_list : list Node.
Variable x_test_global : list Sample.
Variable y_test_global : list Label.
Variable is_early_stopping : bool.
Variable is_save_fig : bool.
Variable save_folder : folder.

Local Abbreviation loop_events := (loop_events node_list x_test_global y_test_global).
Local Abbreviation epoch_events := (epoch_events node_list x_test_global y_test_global).
Local Abbreviation averaging_events :=
  (averaging_events (Sample:=Sample) (Label:=Label) (F:=F) x_test_global y_test_global).
Local Abbreviation closing_events :=
  (closing_events (Sample:=Sample) (Label:=Label) (F:=F) x_test_global y_test_global).
Local Abbreviation valid_loop :=
  (valid_loop node_list x_test_global y_test_global generate_new_cnn_model keras_fit
              keras_evaluate BATCH_SIZE PATIENCE is_early_stopping).

Lemma tally_of_app (e1 e2 : list event) :
  tally_of (e1 ++ e2) = tally_add (tally_of e1) (tally_of e2).
Proof.
  unfold tally_of, tally_add, fits, averagings, evaluated_on, models_generated.
  by rewrite !omap_app, !length_app.
Qed.

Lemma tally_of_phase_events (seed : option Weights) (ts : list turn) :
  length ts = length node_list →
  tally_of (phase_events node_list seed ts)
  = {| c_fits := one_pass node_list; c_averagings := 0; c_evaluations := 0;
       c_models := length node_list |}.
Proof.
  unfold phase_events, one_pass. revert ts.
  induction node_list as [|node nodes IH]; intros [|t ts] Hlen; simpl in Hlen; try done.
  cbn [zip_with concat]. rewrite tally_of_app, IH by lia.
  by destruct seed.
Qed.

Lemma tally_of_epoch_events e (r : epoch_run) :
  length (e_turns r) = length node_list →
  tally_of (epoch_events e r)
  = {| c_fits := one_pass node_list; c_averagings := averaged r;
       c_evaluations := averaged r; c_models := averaged r + length node_list |}.
Proof.
  intros Hlen. unfold Trace.epoch_events, averaged.
  change (EvEpoch e :: ?l) with ([EvEpoch e] ++ l).
  destruct (e_averaging r) as [a|].
  - rewrite !tally_of_app, tally_of_phase_events by done. done.
  - rewrite !tally_of_app, tally_of_phase_events by done. done.
Qed.

Lemma tally_of_trained (trained : list epoch_run) :
  Forall (λ r, length (e_turns r) = length node_list) trained →
  tally_of (loop_events trained None)
  = {| c_fits := concat (replicate (length trained) (one_pass node_list));
       c_averagings := sum_list (averaged <$> trained);
       c_evaluations := sum_list (averaged <$> trained);
       c_models := sum_list (averaged <$> trained) + length trained * length node_list |}.
Proof.
  induction trained as [|r trained IH] using rev_ind; intros Hall; [done|].
  apply Forall_app in Hall as [Hall Hr%Forall_inv].
  rewrite loop_events_snoc, tally_of_app, IH, tally_of_epoch_events by done.
  unfold tally_add. simpl.
  rewrite length_app, fmap_app, sum_list_with_app. simpl.
  rewrite Nat.add_1_r, replicate_S_end, concat_app. simpl. rewrite app_nil_r.
  f_equal; lia.
Qed.

Lemma averaged_valid_loop trained halted :
  valid_loop trained halted → sum_list (averaged <$> trained) = pred (length trained).
Proof.
  intros [_ _ Hfirst Hlater _]. destruct trained as [|r0 rest]; [done|].
  simpl. unfold averaged at 1. rewrite (Hfirst r0) by done. simpl.
  assert (Forall (λ r, averaged r = 1) rest) as Hall.
  { apply Forall_lookup. intros e r Hr.
    destruct (Hlater e r Hr) as (_ & a & _ & Ha & _). unfold averaged. by rewrite Ha. }
  clear -Hall. induction Hall as [|r rest Hr _ IH]; [done|]. simpl. rewrite Hr, IH. done.
Qed.

(** The calls that write a file or draw count for nothing. *)
Lemma tally_of_io (saves : list event) :
  Forall (λ ev, is_io ev = true) saves →
  tally_of saves
  = {| c_fits := []; c_averagings := 0; c_evaluations := 0; c_models := 0 |}.
Proof.
  induction 1 as [|ev evs Hev _ IH]; [done|].
  by destruct ev.
Qed.

Lemma epochs_announced_io (saves : list event) :
  Forall (λ ev, is_io ev = true) saves → epochs_announced saves = [].
Proof.
  induction 1 as [|ev evs Hev _ IH]; [done|]. by destruct ev.
Qed.

(** The events of a whole run on several nodes. *)
Lemma tally_of_run trained halted final saves (evaluated : bool) :
  valid_loop trained halted → trained ≠ [] →
  Forall (λ ev, is_io ev = true) saves →
  tally_of (loop_events trained halted ++ closing_events final saves evaluated)
  = {| c_fits := concat (replicate (length trained) (one_pass node_list));
       c_averagings := length trained + length (halted_loss halted);
       c_evaluations := length trained + length (halted_loss halted) - 1
                        + (if evaluated then 1 else 0);
       c_models := length trained * length node_list
                   + (length trained + length (halted_loss halted)) |}.
Proof.
  intros Hvalid Hne Hio.
  assert (0 < length trained) as Hpos by (destruct trained; [done|simpl; lia]).
  assert (Forall (λ r, length (e_turns r) = length node_list) trained) as Hturns.
  { apply Forall_lookup. intros e r Hr. by eapply v_turns. }
  unfold Trace.closing_events.
  rewrite !tally_of_app, (tally_of_io saves Hio). destruct halted as [a|].
  - rewrite loop_events_halt, tally_of_app, tally_of_trained by done.
    rewrite (averaged_valid_loop _ _ Hvalid).
    unfold tally_add, tally_of, models_generated. destruct evaluated; simpl.
    + rewrite !app_nil_r. f_equal; lia.
    + rewrite !app_nil_r. f_equal; lia.
  - rewrite tally_of_trained by done.
    rewrite (averaged_valid_loop _ _ Hvalid).
    unfold tally_add, tally_of, models_generated. destruct evaluated; simpl.
    + rewrite !app_nil_r. f_equal; lia.
    + rewrite !app_nil_r. f_equal; lia.
Qed.

Lemma epochs_announced_closing_events final saves evaluated :
  Forall (λ ev, is_io ev = true) saves →
  epochs_announced (closing_events final saves evaluated) = [].
Proof.
  intros Hio. unfold Trace.closing_events.
  rewrite !epochs_announced_app, (epochs_announced_io saves Hio). by destruct evaluated.
Qed.

(** Without [is_save_fig] a run that gets to its end returns. *)
Lemma closes_returns (final : averaging) (saves : list event) evaluated
    (result : exn + Qc) :
  closes is_save_fig save_folder final saves evaluated result →
  (evaluated = true ↔ ∃ score, result = inr score) ∧
  (is_save_fig = false → ∃ score, result = inr score).
Proof.
  intros (_ & Hplain & _ & Hres). split.
  - destruct evaluated.
    + split; [by eexists|done].
    + destruct Hres as [e ->]. split; [done|]. by intros [? ?].
  - intros Hs. destruct (Hplain Hs) as [_ ->]. by eexists.
Qed.

Lemma epochs_announced_averaging_events a :
  epochs_announced (averaging_events a) = [].
Proof. done. Qed.

Lemma fit_epochs_fits (evs : list event) :
  fit_epochs evs = sum_list ((λ p, p.2) <$> fits evs).
Proof.
  unfold fit_epochs, fits. induction evs as [|ev evs IH]; [done|].
  destruct ev; try exact IH.
  cbn [omap list_omap fmap list_fmap sum_list sum_list_with]. f_equal. exact IH.
Qed.

Lemma fit_epochs_passes t :
  sum_list ((λ p : Node * nat, p.2) <$> concat (replicate t (one_pass node_list)))
  = t * length node_list.
Proof.
  induction t as [|t IH]; [done|].
  cbn [replicate concat]. rewrite fmap_app, sum_list_with_app, IH.
  unfold one_pass. rewrite <- list_fmap_compose. simpl.
  assert (∀ l : list Node, sum_list ((λ _, 1) <$> l) = length l) as ->; [|lia].
  intros l. induction l as [|x l IHl]; [done|]. simpl. f_equal. exact IHl.
Qed.

(** X5. The work of a run on several nodes. [t] epochs trained and
    [h] epochs, none or one, halted the loop: the epochs [0 .. t + h - 1]
    were announced; every epoch that trained fitted every node once, in
    the order of the list, for one epoch; the partners' weights were
    averaged once per announced epoch after the first and once at the
    end; each average of the loop was evaluated once, and the final
    one too when the run returns a score, which it does without
    [is_save_fig]; a new model was generated for every fit and for
    every average. *)
Theorem work_of_a_run epoch_count (st : state) :
  2 ≤ length node_list → 0 < epoch_count →
  ∃ result st' evs t h,
    compute_test_score node_list x_test_global y_test_global is_early_stopping
                       is_save_fig save_folder epoch_count st = (result, st') ∧
    trace st' = trace st ++ evs ∧
    1 ≤ t ∧ h ≤ 1 ∧ t + h ≤ epoch_count ∧
    epochs_announced evs = seq 0 (t + h) ∧
    fits evs = concat (replicate t (one_pass node_list)) ∧
    fit_epochs evs = t * length node_list ∧
    length (averagings evs) = t + h ∧
    length (evaluated_on evs)
      = t + h - 1 + (match result with inr _ => 1 | inl _ => 0 end) ∧
    models_generated evs = t * length node_list + (t + h) ∧
    (is_save_fig = false → ∃ score, result = inr score).
Proof.
  intros Hn HE.
  destruct (compute_test_score_run generate_new_cnn_model keras_fit keras_evaluate
              BATCH_SIZE PATIENCE file_io arch generate_shape fit_shape fit_val_acc
              node_list x_test_global y_test_global is_early_stopping
              is_save_fig save_folder epoch_count st Hn HE)
    as (trained & halted & prev & final & saves & evaluated & result & st' & Hrun & Htr
        & Hcl & Hvalid & Hlast & _ & Hcount).
  assert (trained ≠ []) as Hne by (intros ->; done).
  pose proof Hcl as (Hio & _).
  pose proof (closes_returns _ _ _ _ Hcl) as [Hev Hret].
  pose proof (tally_of_run trained halted final saves evaluated Hvalid Hne Hio) as Htally.
  exists result, st', (loop_events trained halted ++ closing_events final saves evaluated),
    (length trained), (length (halted_loss halted)).
  split; [done|]. split; [done|].
  split; [destruct trained; [done|simpl; lia]|].
  split; [destruct halted; simpl; lia|].
  split; [destruct halted; simpl; lia|].
  split.
  { rewrite epochs_announced_app, epochs_announced_loop_events,
      epochs_announced_closing_events by done. by rewrite app_nil_r. }
  pose proof (f_equal c_fits Htally) as Hfits. simpl in Hfits.
  split; [done|].
  split; [by rewrite fit_epochs_fits, Hfits, fit_epochs_passes|].
  split; [exact (f_equal c_averagings Htally)|].
  split.
  { pose proof (f_equal c_evaluations Htally) as Hevs. simpl in Hevs. rewrite Hevs.
    destruct evaluated.
    - destruct Hev as [[score ->] _]; done.
    - destruct result as [e|score]; [done|].
      destruct Hev as [_ Hev]. discriminate Hev. by eexists. }
  split; [exact (f_equal c_models Htally)|done].
Qed.

(** X6. Without early stopping nothing ends the loop before its last
    epoch: a run on several nodes announces every epoch of the budget
    and fits every node once in each of them, [epoch_count] training
    epochs per node; without [is_save_fig] it returns a score. *)
Theorem no_early_stopping_runs_every_epoch epoch_count (st : state) :
  is_early_stopping = false →
  2 ≤ length node_list → 0 < epoch_count →
  ∃ result st' evs,
    compute_test_score node_list x_test_global y_test_global is_early_stopping
                       is_save_fig save_folder epoch_count st = (result, st') ∧
    trace st' = trace st ++ evs ∧
    epochs_announced evs = seq 0 epoch_count ∧
    fits evs = concat (replicate epoch_count (one_pass node_list)) ∧
    fit_epochs evs = epoch_count * length node_list ∧
    (is_save_fig = false → ∃ score, result = inr score).
Proof.
  intros Hes Hn HE.
  destruct (compute_test_score_run generate_new_cnn_model keras_fit keras_evaluate
              BATCH_SIZE PATIENCE file_io arch generate_shape fit_shape fit_val_acc
              node_list x_test_global y_test_global is_early_stopping
              is_save_fig save_folder epoch_count st Hn HE)
    as (trained & halted & prev & final & saves & evaluated & result & st' & Hrun & Htr
        & Hcl & Hvalid & Hlast & _ & Hcount).
  assert (trained ≠ []) as Hne by (intros ->; done).
  pose proof Hcl as (Hio & _).
  pose proof (closes_returns _ _ _ _ Hcl) as [_ Hret].
  assert (halted = None) as ->.
  { destruct halted as [a|]; [|done].
    pose proof Hvalid as [_ _ _ _ Hhalt].
    destruct (Hhalt a eq_refl) as (_ & _ & _ & Hh).
    unfold halts in Hh. by rewrite Hes in Hh. }
  pose proof (tally_of_run trained None final saves evaluated Hvalid Hne Hio) as Htally.
  pose proof (f_equal c_fits Htally) as Hfits. simpl in Hfits. rewrite Hcount in Hfits.
  exists result, st', (loop_events trained None ++ closing_events final saves evaluated).
  split; [done|]. split; [done|]. split.
  { rewrite epochs_announced_app, epochs_announced_loop_events,
      epochs_announced_closing_events by done. simpl.
    by rewrite app_nil_r, Nat.add_0_r, Hcount. }
  split; [done|]. split; [|done]. by rewrite fit_epochs_fits, Hfits, fit_epochs_passes.
Qed.
End work_facts.

Section zero_epochs.
Import Py Aggregation FlTraining Trace.
Context {Sample Label World F : Type} `{!Numpy F}.
Local Abbreviation Weights := (Weights F).
Variable generate_new_cnn_model : World → Weights * World.
Variable keras_fit :
  Weights → list Sample → list Label → nat → nat →
  list Sample → list Label → World → (Weights * History) * World.
Variable keras_evaluate : Weights → list Sample → list Label → nat → Qc * Qc.
Variables BATCH_SIZE PATIENCE : nat.
Variable file_io : request → World → option exn * World.

(** X7. With an epoch count of 0 a run on several nodes trains nothing
    and raises: the final averaging finds no model in the list that
    was initialised with [None]. *)
Theorem no_epoch_no_score (node_list : list (Node Sample Label)) x_test_global
    y_test_global is_early_stopping is_save_fig save_folder
    (st : state Sample Label World F) :
  2 ≤ length node_list →
  compute_test_score generate_new_cnn_model keras_fit keras_evaluate BATCH_SIZE PATIENCE
    file_io node_list x_test_global y_test_global is_early_stopping
    is_save_fig save_folder 0 st
  = (inl AttributeError, st).
Proof.
  intros Hn. unfold compute_test_score. rewrite decide_False by lia.
  simpl. unfold mbind, M_bind, mret, M_ret. simpl. unfold aggregate.
  destruct node_list as [|node nodes]; [simpl in Hn; lia|]. done.
Qed.
End zero_epochs.

Section work_examples.
Import Py Aggregation FlTraining Trace Work.

Local Abbreviation toy_score es epochs :=
  (compute_test_score Toy.generate Toy.fit_schedule Toy.evaluate Toy.BATCH_SIZE 2 Toy.io_ok
     Toy.two_nodes [7; 7; 7] [7; 7; 7] es false (Str "") epochs Toy.st0).

Lemma work_of_a_run_witness :
  ∃ result st' evs t h,
    toy_score true 10 = (result, st') ∧
    trace st' = trace Toy.st0 ++ evs ∧
    1 ≤ t ∧ h ≤ 1 ∧ t + h ≤ 10 ∧
    epochs_announced evs = seq 0 (t + h) ∧
    fits evs = concat (replicate t (one_pass Toy.two_nodes)) ∧
    fit_epochs evs = t * length Toy.two_nodes ∧
    length (averagings evs) = t + h ∧
    length (evaluated_on evs)
      = t + h - 1 + (match result with inr _ => 1 | inl _ => 0 end) ∧
    models_generated evs = t * length Toy.two_nodes + (t + h) ∧
    (false = false → ∃ score, result = inr score).
Proof.
  apply (work_of_a_run Toy.generate Toy.fit_schedule Toy.evaluate Toy.BATCH_SIZE 2
           Toy.io_ok Toy.arch (λ _, eq_refl) (λ _ _ _ _ _ _ _ _ _, eq_refl)
           (λ _ _ _ _ _ _ _, ltac:(discriminate))
           Toy.two_nodes [7; 7; 7] [7; 7; 7] true false (Str "") 10 Toy.st0);
    simpl; lia.
Defined.

Lemma no_early_stopping_runs_every_epoch_witness :
  ∃ result st' evs,
    toy_score false 10 = (result, st') ∧
    trace st' = trace Toy.st0 ++ evs ∧
    epochs_announced evs = seq 0 10 ∧
    fits evs = concat (replicate 10 (one_pass Toy.two_nodes)) ∧
    fit_epochs evs = 10 * length Toy.two_nodes ∧
    (false = false → ∃ score, result = inr score).
Proof.
  apply (no_early_stopping_runs_every_epoch
           Toy.generate Toy.fit_schedule Toy.evaluate Toy.BATCH_SIZE 2
           Toy.io_ok Toy.arch (λ _, eq_refl) (λ _ _ _ _ _ _ _ _ _, eq_refl)
           (λ _ _ _ _ _ _ _, ltac:(discriminate))
           Toy.two_nodes [7; 7; 7] [7; 7; 7] false false (Str "") 10 Toy.st0 eq_refl);
    simpl; lia.
Defined.

Lemma no_epoch_no_score_witness :
  toy_score true 0 = (inl AttributeError, Toy.st0).
Proof.
  apply (no_epoch_no_score Toy.generate Toy.fit_schedule Toy.evaluate Toy.BATCH_SIZE 2
           Toy.io_ok Toy.two_nodes [7; 7; 7] [7; 7; 7] true false (Str "") Toy.st0).
  simpl. lia.
Defined.
End work_examples.

(** ** Construction and methods of a scenario *)

Section more_scenario_facts.
Import Py Scenario.
Context {Sample Dataset Splitter Corruption Approach Aggregator : Type}.
Variable MULTI_PARTNER_LEARNING_APPROACHES : gmap string Approach.
Variable AGGREGATORS : gmap string Aggregator.
Variable CONTRIBUTIVITY_METHODS : list string.
Variable MAX_BATCH_SIZE : Z.
Variable dataset_of_name : string → option Dataset.
Variable shorten_dataset_proportion : Dataset → Qc → Dataset.
Variable new_splitter : string → list Qc → string → string → option value → E Splitter.
Variable new_corruption : string → E Corruption.
Variable NoCorruption : Corruption.
Variable quick_demo_dataset : Dataset → Dataset.
Variable default_scenario_name : value → value → string.
Variable has_whitespace : string → bool.
Variable np_sum : list Qc → Qc.
Variable new_partner : nat → Corruption → Partner Sample Corruption.
Variable splitter_split :
  Splitter → list (Partner Sample Corruption) → Dataset → E (list (Partner Sample Corruption)).
Variable apply_data_alteration_configuration :
  list (Partner Sample Corruption) → E (list (Partner Sample Corruption)).

Local Abbreviation Partner := (Partner Sample Corruption).
Local Abbreviation args := (args Dataset Splitter Corruption).
Local Abbreviation t := (t Sample Dataset Splitter Corruption Approach Aggregator).
Local Abbreviation init :=
  (init MULTI_PARTNER_LEARNING_APPROACHES AGGREGATORS CONTRIBUTIVITY_METHODS
        MAX_BATCH_SIZE dataset_of_name shorten_dataset_proportion new_splitter
        new_corruption NoCorruption quick_demo_dataset default_scenario_name
        has_whitespace np_sum new_partner splitter_split apply_data_alteration_configuration).

Lemma init_unrecognised (a : args) key :
  key ∈ unrecognised_parameters (kwargs a) → init a = inl Exception.
Proof.
  intros Hun. unfold Scenario.init.
  destruct (decide (0 < length (unrecognised_parameters (kwargs a)))) as [|Hn];
    [reflexivity|].
  destruct (unrecognised_parameters (kwargs a)); [by apply elem_of_nil in Hun|].
  simpl in Hn. lia.
Qed.

(** X8. An unrecognised keyword argument is the first thing the
    constructor looks for: a keyword that is not a known parameter
    and does not start with [mpl_] makes the construction raise
    [Exception], whatever the other arguments are. *)
Theorem unknown_keyword_is_rejected (a : args) key :
  key ∈ (kwargs a).*1 → key ∉ params_known → String.prefix "mpl_" key = false →
  init a = inl Exception.
Proof.
  intros Hin Hk Hp. apply (init_unrecognised a key).
  unfold unrecognised_parameters. apply list_elem_of_filter. by repeat split.
Qed.

(** X9. The scenarios of a configuration file are never created. The
    loop of [Experiment.init_experiment_from_config_file] passes the
    keywords [experiment_path] and [is_dry_run] to the constructor,
    which knows neither: on a list of parameters that is not empty
    the loop raises at its first turn, [TypeError] when the call
    itself is ill-formed and [Exception] from the constructor
    otherwise, whatever the parameters are. *)
Theorem experiment_scenarios_are_refused {Other : Type}
    (read_parameters : list (string * value) → args)
    (self : Experiment.t t) path scenario_params_idx scenario_params_list :
  scenario_params_list ≠ [] →
  ∃ e, Experiment.create_scenarios (Other:=Other) init read_parameters self path
         scenario_params_idx scenario_params_list = inl e ∧
       (e = TypeError ∨ e = Exception).
Proof.
  intros Hne. destruct scenario_params_list as [|scenario_params rest]; [done|].
  cbn [Experiment.create_scenarios]. unfold Experiment.new_scenario.
  case_decide as Hnd; [|exists TypeError; by split; [|left]].
  case_decide as Hreq; [|exists TypeError; by split; [|left]].
  exists Exception. split; [|by right].
  rewrite (init_unrecognised _ "experiment_path"); [done|].
  unfold unrecognised_parameters. simpl.
  apply list_elem_of_filter. split; [by split; [apply (bool_decide_unpack _)|]|].
  apply list_elem_of_fmap. exists ("experiment_path"%string, VStr path). split; [done|].
  apply list_elem_of_filter. split; [simpl; by apply (bool_decide_unpack _)|].
  apply elem_of_app. right. left.
Qed.

(** A check that was passed. *)
Ltac passed H :=
  lazymatch type of H with
  | (if bool_decide ?P then _ else _) = _ =>
      destruct (decide P); [done|rewrite bool_decide_false in H by done; discriminate H]
  | (if decide ?P then _ else _) = _ =>
      destruct (decide P); [done|discriminate H]
  end.

(** Everything a construction that returns went through, and the
    scenario it returns. *)
Lemma init_returns (a : args) (s : t) :
  init a = inr s →
  unrecognised_parameters (kwargs a) = [] ∧
  (0 < dataset_proportion a)%Qc ∧ (dataset_proportion a ≤ 1)%Qc ∧
  test_set a ∈ ["local"; "global"]%string ∧ val_set a ∈ ["local"; "global"]%string ∧
  (0 < epoch_count a)%Z ∧ (0 < minibatch_count a)%Z ∧
  (0 < gradient_updates_per_pass_count a)%Z ∧
  Forall (λ method, method ∈ CONTRIBUTIVITY_METHODS) (default [] (contributivity_methods a)) ∧
  (is_quick_demo a = true → ¬ (dataset_proportion a < 1)%Qc) ∧
  has_whitespace (s_scenario_name s) = false ∧
  match dict_get (kwargs a) "scenario_name" with
  | None => s_scenario_name s
            = default_scenario_name (scenario_id a)
                (default (VInt 1) (dict_get (kwargs a) "repeat_count"))
  | Some v => v = VStr (s_scenario_name s)
  end ∧
  MULTI_PARTNER_LEARNING_APPROACHES !! multi_partner_learning_approach a
    = Some (s_approach s) ∧
  AGGREGATORS !! aggregation_weighting a = Some (s_aggregator s) ∧
  s_partners_count s = partners_count a ∧
  s_amounts_per_partner s = amounts_per_partner a ∧
  s_epoch_count s = (if is_quick_demo a then 3%Z else epoch_count a) ∧
  s_minibatch_count s = (if is_quick_demo a then 2%Z else minibatch_count a) ∧
  s_gradient_updates_per_pass_count s = gradient_updates_per_pass_count a ∧
  s_is_early_stopping s = is_early_stopping a ∧
  s_use_saved_weights s
    = negb (bool_decide (init_model_from a = "random_initialization"%string)) ∧
  s_contributivity_methods s = default [] (contributivity_methods a).
Proof.
  unfold Scenario.init. intros H.
  apply bind_inr_inv in H as ([] & Hkw & H).
  apply bind_inr_inv in H as (d & _ & H).
  apply bind_inr_inv in H as ([] & Hp0 & H).
  apply bind_inr_inv in H as ([] & Hp1 & H).
  cbv zeta in H.
  apply bind_inr_inv in H as ([] & _ & H).
  apply bind_inr_inv in H as ([] & _ & H).
  apply bind_inr_inv in H as ([] & Htest & H).
  apply bind_inr_inv in H as ([] & Hval & H).
  apply bind_inr_inv in H as (sp & _ & H).
  apply bind_inr_inv in H as (cs & _ & H).
  apply bind_inr_inv in H as (ap & Hap & H).
  apply bind_inr_inv in H as (ag & Hag & H).
  apply bind_inr_inv in H as ([] & Hepoch & H).
  apply bind_inr_inv in H as ([] & Hmb & H).
  apply bind_inr_inv in H as ([] & Hgu & H).
  cbv zeta in H.
  apply bind_inr_inv in H as ([] & Hmethods & H).
  apply bind_inr_inv in H as ([] & Hquick & H).
  apply bind_inr_inv in H as (name & Hname & H).
  apply bind_inr_inv in H as ([] & Hws & H).
  apply bind_inr_inv in H as (ps1 & _ & H).
  apply bind_inr_inv in H as (ps2 & _ & H).
  apply bind_inr_inv in H as (ps3 & _ & H).
  apply bind_inr_inv in H as (ps4 & _ & H).
  injection H as <-. simpl.
  unfold py_assert in *.
  split.
  { destruct (unrecognised_parameters (kwargs a)); [done|].
    rewrite decide_True in Hkw by (simpl; lia). done. }
  split; [passed Hp0|]. split; [passed Hp1|].
  split; [passed Htest|]. split; [passed Hval|].
  split; [passed Hepoch|]. split; [passed Hmb|].
  split; [passed Hgu|].
  split.
  { apply Forall_forall. intros method Hin.
    pose proof (for_each_inr _ _ Hmethods method Hin) as Hm. simpl in Hm.
    by case_decide. }
  split.
  { intros Hq Hlt. rewrite Hq, bool_decide_true in Hquick by done. done. }
  split; [by destruct (has_whitespace name)|].
  split.
  { destruct (dict_get (kwargs a) "scenario_name") as [[]|];
      try discriminate Hname; by injection Hname as ->. }
  split; [destruct (_ !! _); [by injection Hap as ->|discriminate Hap]|].
  split; [destruct (AGGREGATORS !! _); [by injection Hag as ->|discriminate Hag]|].
  done.
Qed.

Lemma init_sum_and_length (a : args) (s : t) :
  init a = inr s →
  np_sum (amounts_per_partner a) = 1%Qc ∧
  Z.of_nat (length (amounts_per_partner a)) = partners_count a.
Proof.
  intros H.
  destruct (init_inr MULTI_PARTNER_LEARNING_APPROACHES AGGREGATORS CONTRIBUTIVITY_METHODS
              MAX_BATCH_SIZE dataset_of_name shorten_dataset_proportion new_splitter
              new_corruption NoCorruption quick_demo_dataset default_scenario_name
              has_whitespace np_sum new_partner splitter_split
              apply_data_alteration_configuration a s H) as (? & ? & _).
  done.
Qed.

(** X10. What holds of every scenario the constructor returns: its counts
    of epochs, of mini-batches and of gradient updates are positive,
    the sum that [np.sum] computes for its amounts is 1 and they are
    as many as its partners, its
    learning approach and its aggregator are the entries of the
    tables for the names given, and its contributivity methods are
    all known. *)
Theorem constructed_scenario_is_valid (a : args) (s : t) :
  init a = inr s →
  (0 < s_epoch_count s)%Z ∧ (0 < s_minibatch_count s)%Z ∧
  (0 < s_gradient_updates_per_pass_count s)%Z ∧
  np_sum (s_amounts_per_partner s) = 1%Qc ∧
  Z.of_nat (length (s_amounts_per_partner s)) = s_partners_count s ∧
  MULTI_PARTNER_LEARNING_APPROACHES !! multi_partner_learning_approach a
    = Some (s_approach s) ∧
  AGGREGATORS !! aggregation_weighting a = Some (s_aggregator s) ∧
  Forall (λ method, method ∈ CONTRIBUTIVITY_METHODS) (s_contributivity_methods s).
Proof.
  intros H. destruct (init_sum_and_length a s H) as [Hsum Hlen].
  destruct (init_returns a s H)
    as (_ & _ & _ & _ & _ & He & Hm & Hg & Hc & _ & _ & _ & Hap & Hag
        & -> & -> & -> & -> & -> & _ & _ & ->).
  split; [destruct (is_quick_demo a); lia|].
  split; [destruct (is_quick_demo a); lia|].
  done.
Qed.

(** X11. The quick demo is refused on a shortened data set, and it
    overrides the counts passed: a scenario constructed as a quick
    demo uses the full data set proportion, 3 epochs and 2
    mini-batches; any other scenario has the counts it was given. *)
Theorem quick_demo_overrides_the_counts (a : args) (s : t) :
  init a = inr s →
  if is_quick_demo a
  then dataset_proportion a = 1%Qc ∧ s_epoch_count s = 3%Z ∧ s_minibatch_count s = 2%Z
  else s_epoch_count s = epoch_count a ∧ s_minibatch_count s = minibatch_count a.
Proof.
  intros H.
  destruct (init_returns a s H)
    as (_ & _ & Hp1 & _ & _ & _ & _ & _ & _ & Hq & _ & _ & _ & _
        & _ & _ & -> & -> & _).
  destruct (is_quick_demo a); [|done]. split; [|done].
  apply Qcle_lt_or_eq in Hp1 as [Hlt|Heq]; [|done]. by destruct Hq.
Qed.

(** X12. The name of a constructed scenario has no whitespace; it is the
    [scenario_name] keyword when one is given, which is then a
    string, and the default name otherwise. *)
Theorem scenario_name_is_checked (a : args) (s : t) :
  init a = inr s →
  has_whitespace (s_scenario_name s) = false ∧
  match dict_get (kwargs a) "scenario_name" with
  | None => s_scenario_name s
            = default_scenario_name (scenario_id a)
                (default (VInt 1) (dict_get (kwargs a) "repeat_count"))
  | Some v => v = VStr (s_scenario_name s)
  end.
Proof.
  intros H.
  destruct (init_returns a s H)
    as (_ & _ & _ & _ & _ & _ & _ & _ & _ & _ & Hws & Hname & _).
  done.
Qed.

Local Abbreviation with_batch_size divisor :=
  (λ p : Partner,
     {| id := id p; corruption := corruption p; x_train := x_train p;
        batch_size := clipped_batch_size MAX_BATCH_SIZE (length (x_train p)) divisor |}).

Lemma compute_batch_sizes_run partners_count minibatch_count
    gradient_updates_per_pass_count (partners_list : list Partner) :
  (0 < minibatch_count)%Z → (0 < gradient_updates_per_pass_count)%Z →
  Z.of_nat (length partners_list) = partners_count →
  compute_batch_sizes MAX_BATCH_SIZE partners_count minibatch_count
    gradient_updates_per_pass_count partners_list
  = inr (with_batch_size
           (if decide (partners_count = 1%Z) then gradient_updates_per_pass_count
            else (minibatch_count * gradient_updates_per_pass_count)%Z)
         <$> partners_list).
Proof.
  intros Hmc Hg Hlen. unfold compute_batch_sizes. case_decide as Hone.
  - destruct partners_list as [|p [|? ?]]; simpl in Hlen; try lia. simpl.
    unfold mbind, E_bind.
    by rewrite (set_batch_size_run MAX_BATCH_SIZE) by lia.
  - apply mapM_E_total. intros p _. apply set_batch_size_run. lia.
Qed.

Lemma clipped_batch_size_fits volume divisor :
  (1 ≤ MAX_BATCH_SIZE)%Z → (0 < divisor)%Z →
  let b := clipped_batch_size MAX_BATCH_SIZE volume divisor in
  ((divisor ≤ Z.of_nat volume)%Z → (b * divisor ≤ Z.of_nat volume)%Z) ∧
  ((Z.of_nat volume < divisor)%Z → b = 1%Z) ∧
  ((MAX_BATCH_SIZE * divisor ≤ Z.of_nat volume)%Z → b = MAX_BATCH_SIZE).
Proof.
  intros Hmax Hd. unfold clipped_batch_size, np_clip.
  rewrite Z.quot_div_nonneg by lia.
  pose proof (Z.mul_div_le (Z.of_nat volume) divisor Hd) as Hle.
  simpl. split; [|split].
  - intros Hv. assert (1 ≤ Z.of_nat volume / divisor)%Z.
    { apply Z.div_le_lower_bound; lia. }
    nia.
  - intros Hv. rewrite Z.div_small by lia. lia.
  - intros Hv. assert (MAX_BATCH_SIZE ≤ Z.of_nat volume / divisor)%Z.
    { apply Z.div_le_lower_bound; lia. }
    lia.
Qed.

Lemma clipped_batch_size_mono v1 v2 divisor :
  (0 < divisor)%Z → v1 ≤ v2 →
  (clipped_batch_size MAX_BATCH_SIZE v1 divisor
   ≤ clipped_batch_size MAX_BATCH_SIZE v2 divisor)%Z.
Proof.
  intros Hd Hv. unfold clipped_batch_size, np_clip.
  rewrite !Z.quot_div_nonneg by lia.
  assert (Z.of_nat v1 / divisor ≤ Z.of_nat v2 / divisor)%Z by (apply Z.div_le_mono; lia).
  lia.
Qed.

(** X13. The batch size serves the number of gradient updates asked for.
    After [compute_batch_sizes], with [divisor] the number of updates
    per epoch: a partner that holds at least [divisor] samples has a
    batch size whose [divisor]-fold does not exceed its number of
    samples; a partner that holds fewer has the batch size 1; a
    partner that holds [MAX_BATCH_SIZE * divisor] samples or more has
    the batch size [MAX_BATCH_SIZE]; and a partner with more samples
    never has a smaller batch size. *)
Theorem batch_size_fits_the_data partners_count minibatch_count
    gradient_updates_per_pass_count (partners_list : list Partner) :
  (1 ≤ MAX_BATCH_SIZE)%Z →
  (0 < minibatch_count)%Z → (0 < gradient_updates_per_pass_count)%Z →
  Z.of_nat (length partners_list) = partners_count →
  let divisor :=
    if decide (partners_count = 1%Z) then gradient_updates_per_pass_count
    else (minibatch_count * gradient_updates_per_pass_count)%Z in
  ∃ partners_list',
    compute_batch_sizes MAX_BATCH_SIZE partners_count minibatch_count
      gradient_updates_per_pass_count partners_list = inr partners_list' ∧
    ∀ i p, partners_list' !! i = Some p →
      let volume := Z.of_nat (length (x_train p)) in
      ((divisor ≤ volume)%Z → (batch_size p * divisor ≤ volume)%Z) ∧
      ((volume < divisor)%Z → batch_size p = 1%Z) ∧
      ((MAX_BATCH_SIZE * divisor ≤ volume)%Z → batch_size p = MAX_BATCH_SIZE) ∧
      ∀ j q, partners_list' !! j = Some q →
             length (x_train p) ≤ length (x_train q) →
             (batch_size p ≤ batch_size q)%Z.
Proof.
  intros Hmax Hmc Hg Hlen divisor.
  assert (0 < divisor)%Z as Hd by (subst divisor; case_decide; lia).
  eexists. split; [by apply compute_batch_sizes_run|].
  fold divisor. intros i p Hp. rewrite list_lookup_fmap in Hp.
  destruct (partners_list !! i) as [p0|]; [|done]. injection Hp as <-. simpl.
  destruct (clipped_batch_size_fits (length (x_train p0)) divisor Hmax Hd)
    as (H1 & H2 & H3).
  do 3 (split; [done|]).
  intros j q Hq. rewrite list_lookup_fmap in Hq.
  destruct (partners_list !! j) as [q0|]; [|done]. injection Hq as <-. simpl.
  by apply clipped_batch_size_mono.
Qed.

Local Abbreviation instantiate_scenario_partners :=
  (ScenarioMethods.instantiate_scenario_partners new_partner).

Lemma instantiate_from (corruptions : list Corruption) count first :
  mapM (λ i, match corruptions !! i with
             | Some c => mret (new_partner i c)
             | None => throw IndexError
             end) (seq first count)
  = if decide (count = 0 ∨ first + count ≤ length corruptions)
    then inr (imap (λ i c, new_partner (first + i) c) (take count (drop first corruptions)))
    else inl IndexError.
Proof.
  revert first. induction count as [|count IH]; intros first.
  - rewrite decide_True by (by left). done.
  - cbn [seq].
    change (mapM ?f (first :: ?l)) with (y ← f first; k ← mapM f l; mret (y :: k)).
    cbn beta. destruct (corruptions !! first) as [c|] eqn:Hc; cycle 1.
    { apply lookup_ge_None in Hc. rewrite decide_False by lia. reflexivity. }
    rewrite IH. apply lookup_lt_Some in Hc as Hlt.
    rewrite (drop_S _ _ _ Hc). cbn [take imap].
    destruct (decide (count = 0 ∨ S first + count ≤ length corruptions)) as [Hd|Hd].
    + rewrite decide_True by (right; lia). simpl. rewrite Nat.add_0_r.
      do 2 f_equal. destruct Hd as [->|Hd]; [done|].
      apply imap_ext. intros; simpl. f_equal. lia.
    + rewrite decide_False by lia. reflexivity.
Qed.

(** X14. [instantiate_scenario_partners] builds the partners once. On a
    scenario without partners it returns one partner for every index
    below [partners_count], in order, each with the corruption of its
    index, when there are that many corruptions, the further ones
    being ignored; it raises [IndexError] when there are fewer. On a
    scenario that has partners it raises [Exception]. *)
Theorem partners_are_instantiated_once partners_count (corruptions : list Corruption) :
  match instantiate_scenario_partners [] partners_count corruptions with
  | inr partners_list =>
      length partners_list = Z.to_nat partners_count ∧
      (∀ i p, partners_list !! i = Some p →
              ∃ c, corruptions !! i = Some c ∧ p = new_partner i c) ∧
      (partners_list ≠ [] →
       instantiate_scenario_partners partners_list partners_count corruptions
       = inl Exception)
  | inl e => e = IndexError ∧ length corruptions < Z.to_nat partners_count
  end.
Proof.
  unfold ScenarioMethods.instantiate_scenario_partners at 1. simpl.
  unfold Scenario.instantiate_scenario_partners.
  rewrite (instantiate_from corruptions (Z.to_nat partners_count) 0).
  case_decide as Hd; simpl.
  - split; [|split].
    + rewrite length_imap, length_take, length_drop. lia.
    + intros i p Hp. rewrite list_lookup_imap in Hp.
      apply fmap_Some in Hp as (c & Hc & ->).
      apply lookup_take_Some in Hc as [Hc _]. rewrite lookup_drop in Hc.
      by exists c.
    + intros Hne. unfold ScenarioMethods.instantiate_scenario_partners.
      rewrite decide_True; [done|].
      destruct (imap _ _); [done|simpl; lia].
  - split; [done|lia].
Qed.
End more_scenario_facts.

Section more_scenario_examples.
Import Py Scenario.

Local Abbreviation toy_scenario := (Scenario.t nat (list nat) () () () ()).

Lemma unknown_keyword_is_rejected_witness :
  ToyScenario.init
    (ToyScenario.call 2 [ToyScenario.half; ToyScenario.half] 5
       [("is_dry_run"%string, VBool true)])
  = inl Exception.
Proof.
  apply (unknown_keyword_is_rejected
           ToyScenario.MULTI_PARTNER_LEARNING_APPROACHES ToyScenario.AGGREGATORS
           ToyScenario.CONTRIBUTIVITY_METHODS ToyScenario.MAX_BATCH_SIZE
           ToyScenario.dataset_of_name ToyScenario.shorten_dataset_proportion
           ToyScenario.new_splitter ToyScenario.new_corruption () (λ d, d)
           ToyScenario.default_scenario_name ToyScenario.has_whitespace ToyScenario.np_sum
           ToyScenario.new_partner ToyScenario.splitter_split
           ToyScenario.apply_data_alteration_configuration
           (ToyScenario.call 2 [ToyScenario.half; ToyScenario.half] 5
              [("is_dry_run"%string, VBool true)])
           "is_dry_run").
  - simpl. left.
  - apply (bool_decide_unpack _). by vm_compute.
  - reflexivity.
Defined.

Lemma experiment_scenarios_are_refused_witness :
  ∃ e, Experiment.create_scenarios (Other:=()) ToyScenario.init
         (λ _, ToyScenario.call 2 [ToyScenario.half; ToyScenario.half] 5 [])
         {| Experiment.name := Some "demo"%string; Experiment.scenarios_list := [];
            Experiment.nb_repeats := 1;
            Experiment.experiment_path := Some "experiments/demo"%string |}
         "experiments/demo" 0 [ToyMore.scenario_params] = inl e ∧
       (e = TypeError ∨ e = Exception).
Proof.
  apply (experiment_scenarios_are_refused
           ToyScenario.MULTI_PARTNER_LEARNING_APPROACHES ToyScenario.AGGREGATORS
           ToyScenario.CONTRIBUTIVITY_METHODS ToyScenario.MAX_BATCH_SIZE
           ToyScenario.dataset_of_name ToyScenario.shorten_dataset_proportion
           ToyScenario.new_splitter ToyScenario.new_corruption () (λ d, d)
           ToyScenario.default_scenario_name ToyScenario.has_whitespace ToyScenario.np_sum
           ToyScenario.new_partner ToyScenario.splitter_split
           ToyScenario.apply_data_alteration_configuration).
  discriminate.
Defined.

(** The scenario of the witness is well-formed: its call passes
    the binding of the keywords, and the constructor is what
    refuses it. *)
Example experiment_scenario_is_refused_by_the_constructor :
  Experiment.create_scenarios (Other:=()) ToyScenario.init
    (λ _, ToyScenario.call 2 [ToyScenario.half; ToyScenario.half] 5 [])
    {| Experiment.name := Some "demo"%string; Experiment.scenarios_list := [];
       Experiment.nb_repeats := 1;
       Experiment.experiment_path := Some "experiments/demo"%string |}
    "experiments/demo" 0 [ToyMore.scenario_params] = inl Exception.
Proof. by vm_compute. Qed.

Lemma toy_quick_demo_returns :
  ∃ s, ToyScenario.init ToyMore.quick_demo_call = inr s.
Proof. vm_compute. eexists. reflexivity. Defined.

Lemma constructed_scenario_is_valid_witness :
  ∃ s : toy_scenario,
    ToyScenario.init ToyMore.quick_demo_call = inr s ∧
    (0 < s_epoch_count s)%Z ∧ (0 < s_minibatch_count s)%Z ∧
    (0 < s_gradient_updates_per_pass_count s)%Z ∧
    ToyScenario.np_sum (s_amounts_per_partner s) = 1%Qc ∧
    Z.of_nat (length (s_amounts_per_partner s)) = s_partners_count s ∧
    ToyScenario.MULTI_PARTNER_LEARNING_APPROACHES !! "fedavg"%string = Some (s_approach s) ∧
    ToyScenario.AGGREGATORS !! "uniform"%string = Some (s_aggregator s) ∧
    Forall (λ method, method ∈ ToyScenario.CONTRIBUTIVITY_METHODS)
           (s_contributivity_methods s).
Proof.
  destruct toy_quick_demo_returns as [s Hs]. exists s. split; [exact Hs|].
  apply (constructed_scenario_is_valid
           ToyScenario.MULTI_PARTNER_LEARNING_APPROACHES ToyScenario.AGGREGATORS
           ToyScenario.CONTRIBUTIVITY_METHODS ToyScenario.MAX_BATCH_SIZE
           ToyScenario.dataset_of_name ToyScenario.shorten_dataset_proportion
           ToyScenario.new_splitter ToyScenario.new_corruption () (λ d, d)
           ToyScenario.default_scenario_name ToyScenario.has_whitespace ToyScenario.np_sum
           ToyScenario.new_partner ToyScenario.splitter_split
           ToyScenario.apply_data_alteration_configuration
           ToyMore.quick_demo_call s Hs).
Defined.

Lemma quick_demo_overrides_the_counts_witness :
  ∃ s : toy_scenario,
    ToyScenario.init ToyMore.quick_demo_call = inr s ∧
    dataset_proportion ToyMore.quick_demo_call = 1%Qc ∧
    s_epoch_count s = 3%Z ∧ s_minibatch_count s = 2%Z.
Proof.
  destruct toy_quick_demo_returns as [s Hs]. exists s. split; [exact Hs|].
  apply (quick_demo_overrides_the_counts
           ToyScenario.MULTI_PARTNER_LEARNING_APPROACHES ToyScenario.AGGREGATORS
           ToyScenario.CONTRIBUTIVITY_METHODS ToyScenario.MAX_BATCH_SIZE
           ToyScenario.dataset_of_name ToyScenario.shorten_dataset_proportion
           ToyScenario.new_splitter ToyScenario.new_corruption () (λ d, d)
           ToyScenario.default_scenario_name ToyScenario.has_whitespace ToyScenario.np_sum
           ToyScenario.new_partner ToyScenario.splitter_split
           ToyScenario.apply_data_alteration_configuration
           ToyMore.quick_demo_call s Hs).
Defined.

Lemma scenario_name_is_checked_witness :
  ∃ s : toy_scenario,
    ToyScenario.init ToyMore.quick_demo_call = inr s ∧
    ToyScenario.has_whitespace (s_scenario_name s) = false ∧
    VStr "demo" = VStr (s_scenario_name s).
Proof.
  destruct toy_quick_demo_returns as [s Hs]. exists s. split; [exact Hs|].
  apply (scenario_name_is_checked
           ToyScenario.MULTI_PARTNER_LEARNING_APPROACHES ToyScenario.AGGREGATORS
           ToyScenario.CONTRIBUTIVITY_METHODS ToyScenario.MAX_BATCH_SIZE
           ToyScenario.dataset_of_name ToyScenario.shorten_dataset_proportion
           ToyScenario.new_splitter ToyScenario.new_corruption () (λ d, d)
           ToyScenario.default_scenario_name ToyScenario.has_whitespace ToyScenario.np_sum
           ToyScenario.new_partner ToyScenario.splitter_split
           ToyScenario.apply_data_alteration_configuration
           ToyMore.quick_demo_call s Hs).
Defined.

Lemma batch_size_fits_the_data_witness :
  let divisor := if decide (2 = 1)%Z then 8%Z else (10 * 8)%Z in
  ∃ partners_list',
    compute_batch_sizes ToyScenario.MAX_BATCH_SIZE 2 10 8
      [ToyScenario.partner 0 3; ToyScenario.partner 1 500] = inr partners_list' ∧
    ∀ i p, partners_list' !! i = Some p →
      let volume := Z.of_nat (length (x_train p)) in
      ((divisor ≤ volume)%Z → (batch_size p * divisor ≤ volume)%Z) ∧
      ((volume < divisor)%Z → batch_size p = 1%Z) ∧
      ((ToyScenario.MAX_BATCH_SIZE * divisor ≤ volume)%Z →
       batch_size p = ToyScenario.MAX_BATCH_SIZE) ∧
      ∀ j q, partners_list' !! j = Some q →
             length (x_train p) ≤ length (x_train q) →
             (batch_size p ≤ batch_size q)%Z.
Proof.
  apply (batch_size_fits_the_data ToyScenario.MAX_BATCH_SIZE 2 10 8
           [ToyScenario.partner 0 3; ToyScenario.partner 1 500]).
  - unfold ToyScenario.MAX_BATCH_SIZE. lia.
  - lia.
  - lia.
  - reflexivity.
Defined.
End more_scenario_examples.

(** ** Expansion of a configuration *)

Section utils_facts.
Import Py Utils UtilsChecks.

Lemma elem_of_product (el : list value) (ls : list (list value)) :
  el ∈ product ls ↔ Forall2 (λ x l, x ∈ l) el ls.
Proof.
  revert el. induction ls as [|l ls IH]; intros el; simpl.
  - rewrite list_elem_of_singleton. split; [intros ->; constructor|by inversion 1].
  - rewrite list_elem_of_bind. split.
    + intros (x & Hel & Hx). apply list_elem_of_bind in Hel as (r & Hel & Hr).
      apply list_elem_of_singleton in Hel as ->. constructor; [done|]. by apply IH.
    + inversion 1 as [|x ? r ? Hx Hr]; subst. exists x. split; [|done].
      apply list_elem_of_bind. exists r. split; [by apply list_elem_of_singleton|].
      by apply IH.
Qed.

Lemma length_bind_const {A B} (f : A → list B) (l : list A) m :
  (∀ x, x ∈ l → length (f x) = m) → length (l ≫= f) = length l * m.
Proof.
  induction l as [|x l IH]; intros H; [done|].
  cbn [mbind list_bind]. rewrite length_app. simpl.
  change (length (foldr _ _ _)) with (length (l ≫= f)).
  rewrite H by left. rewrite IH by (intros; apply H; by right). done.
Qed.

Lemma length_product (ls : list (list value)) :
  length (product ls) = combinations ls.
Proof.
  unfold combinations. induction ls as [|l ls IH]; [done|]. simpl.
  rewrite (length_bind_const _ _ (length (product ls))); [by rewrite IH|].
  intros x _. rewrite (length_bind_const _ _ 1); [lia|done].
Qed.

Lemma mapM_E_inl {A B} (f : A → E B) (l : list A) e :
  mapM f l = inl e → ∃ x, x ∈ l ∧ f x = inl e.
Proof.
  induction l as [|x l IH]; [done|].
  change (mapM f (x :: l)) with (y ← f x; k ← mapM f l; mret (y :: k)).
  destruct (f x) as [e'|y] eqn:Hx.
  - intros [= <-]. exists x. split; [left|done].
  - destruct (mapM f l) as [e'|k] eqn:Hl; [|done].
    intros [= <-]. destruct (IH eq_refl) as (z & Hz & Hfz). exists z. split; [by right|done].
Qed.

Lemma mapM_E_app {A B} (f : A → E B) (l1 l2 : list A) :
  mapM f (l1 ++ l2) = (k1 ← mapM f l1; k2 ← mapM f l2; mret (k1 ++ k2)).
Proof.
  induction l1 as [|x l1 IH].
  - simpl. by destruct (mapM f l2).
  - rewrite <- app_comm_cons.
    change (mapM f (x :: ?l)) with (y ← f x; k ← mapM f l; mret (y :: k)).
    rewrite IH. destruct (f x); [done|]. simpl.
    destruct (mapM f l1); [done|]. simpl. by destruct (mapM f l2).
Qed.

Lemma py_iter_inl v e : py_iter v = inl e → e = TypeError ∧ is_scalar v.
Proof. destruct v; simpl; intros [=]; by subst. Qed.

Lemma py_iter_scalar v : is_scalar v → py_iter v = inl TypeError.
Proof. by destruct v. Qed.

(** X16. An expansion returns every combination of the listed
    values: as many scenarios as the product of the numbers of values,
    each with the keys of the entry, in their order, and a scenario is
    returned exactly when every value of it is one of the values listed
    for its key. *)
Theorem expand_returns_every_combination (list_scenario : dict) scenarios :
  expand list_scenario = inr scenarios →
  ∃ params_list,
    mapM py_iter list_scenario.*2 = inr params_list ∧
    length scenarios = combinations params_list ∧
    Forall (λ scenario : dict, scenario.*1 = list_scenario.*1) scenarios ∧
    ∀ scenario : dict,
      scenario ∈ scenarios ↔
      ∃ el, Forall2 (λ x l, x ∈ l) el params_list ∧ scenario = zip list_scenario.*1 el.
Proof.
  intros H. apply expand_inr in H as [(params_list & Hparams & ->) _].
  exists params_list. split; [done|].
  assert (length params_list = length list_scenario.*1) as Hlen.
  { apply mapM_E_inr, Forall2_length in Hparams. by rewrite <- Hparams, !length_fmap. }
  split; [by rewrite length_fmap, length_product|]. split.
  - apply Forall_fmap, Forall_forall. intros el Hel. simpl.
    apply elem_of_product, Forall2_length in Hel. apply fst_zip. lia.
  - intros scenario. rewrite list_elem_of_fmap. split.
    + intros (el & -> & Hel). exists el. split; [by apply elem_of_product|done].
    + intros (el & Hel & ->). exists el. split; [done|by apply elem_of_product].
Qed.

(** X17. A parameter with an empty list of values yields no scenario, and
    no error: none of the checks is made. *)
Theorem empty_value_list_yields_nothing (list_scenario : dict) params_list :
  mapM py_iter list_scenario.*2 = inr params_list → [] ∈ params_list →
  expand list_scenario = inr [].
Proof.
  intros Hparams Hempty. unfold expand. rewrite Hparams. simpl.
  assert (product params_list = []) as ->; [|done].
  apply length_zero_iff_nil. rewrite length_product. unfold combinations.
  clear Hparams. induction params_list as [|l ls IH]; [by apply elem_of_nil in Hempty|].
  apply elem_of_cons in Hempty as [<-|Hempty]; [done|].
  rewrite fmap_cons. cbn [foldr]. rewrite IH by done. lia.
Qed.

(** X18. A parameter whose value is not a list, a string or a dictionary
    cannot be expanded: the expansion raises [TypeError], before any
    check. *)
Theorem scalar_parameter_is_a_type_error (list_scenario : dict) key v :
  (key, v) ∈ list_scenario → is_scalar v →
  expand list_scenario = inl TypeError.
Proof.
  intros Hin Hv. unfold expand.
  destruct (mapM py_iter list_scenario.*2) as [e|params_list] eqn:Hparams.
  - apply mapM_E_inl in Hparams as (x & _ & [-> _]%py_iter_inl). done.
  - exfalso. apply mapM_E_inr in Hparams.
    assert (v ∈ list_scenario.*2) as Hv2.
    { apply list_elem_of_fmap. by exists (key, v). }
    apply list_elem_of_lookup in Hv2 as [i Hi].
    destruct (Forall2_lookup_l _ _ _ _ _ Hparams Hi) as (l & _ & Hl).
    by rewrite py_iter_scalar in Hl.
Qed.

Lemma check_scenario_passed params_name (scenario : dict) :
  check_scenario params_name scenario = inr () →
  advanced_split_matches scenario ∧
  ("corrupted_datasets"%string ∈ params_name →
   ∃ partners_count corrupted n,
     dict_get scenario "partners_count" = Some partners_count ∧
     dict_get scenario "corrupted_datasets" = Some corrupted ∧
     py_len corrupted = inr n ∧
     py_ne_nat partners_count n = false).
Proof.
  unfold check_scenario, dict_item. intros H.
  apply bind_inr_inv in H as (pc & Hpc & H).
  apply bind_inr_inv in H as (amounts & _ & H).
  apply bind_inr_inv in H as (n & _ & H).
  apply bind_inr_inv in H as ([] & _ & H).
  apply bind_inr_inv in H as (option & Hoption & H).
  apply bind_inr_inv in H as (first & Hfirst & H).
  apply bind_inr_inv in H as ([] & Hadv & Hcor).
  destruct (dict_get scenario "partners_count") as [pc'|] eqn:Hpc'; [|done].
  injection Hpc as ->.
  destruct (dict_get scenario "samples_split_option") as [option'|] eqn:Hoption'; [|done].
  injection Hoption as ->.
  split.
  - exists option, first. do 2 (split; [done|]). intros Ha. rewrite Ha in Hadv.
    apply bind_inr_inv in Hadv as (second & Hsecond & Hadv).
    apply bind_inr_inv in Hadv as (m & Hm & Hadv).
    exists pc, second, m. do 3 (split; [done|]). by destruct (py_ne_nat pc m).
  - intros Hin. rewrite decide_True in Hcor by done.
    apply bind_inr_inv in Hcor as (corrupted & Hcorrupted & Hcor).
    apply bind_inr_inv in Hcor as (m & Hm & Hcor).
    destruct (dict_get scenario "corrupted_datasets") as [c'|] eqn:Hc'; [|done].
    injection Hcorrupted as ->.
    exists pc, corrupted, m. do 3 (split; [done|]). by destruct (py_ne_nat pc m).
Qed.

Lemma expand_checked (list_scenario : dict) scenarios :
  expand list_scenario = inr scenarios →
  Forall (λ scenario : dict, check_scenario scenario.*1 scenario = inr ()) scenarios.
Proof.
  intros H. pose proof H as H'. unfold expand in H.
  apply bind_inr_inv in H as (params_list & Hparams & H).
  assert (length params_list = length list_scenario.*1) as Hlen.
  { apply mapM_E_inr, Forall2_length in Hparams. by rewrite <- Hparams, !length_fmap. }
  apply mapM_E_inr in H. apply Forall_forall. intros scenario Hin.
  apply list_elem_of_lookup in Hin as [i Hi].
  destruct (Forall2_lookup_r _ _ _ _ _ H Hi) as (el & Hel & Hcheck).
  apply bind_inr_inv in Hcheck as ([] & Hcheck & [= <-]).
  rewrite fst_zip; [done|].
  apply list_elem_of_lookup_2, elem_of_product, Forall2_length in Hel. lia.
Qed.

(** X19. Every scenario the expansion of a configuration returns passed
    the checks on its own keys: one whose split option starts with
    ['advanced'] describes the split of as many partners as the
    scenario has, and one that lists corrupted data sets lists as many
    as it has partners. *)
Theorem returned_scenarios_are_consistent (config : list dict) scenarios :
  get_scenario_params_list config = inr scenarios →
  Forall (λ scenario : dict,
            check_scenario scenario.*1 scenario = inr () ∧
            advanced_split_matches scenario ∧
            corrupted_datasets_match scenario) scenarios.
Proof.
  unfold get_scenario_params_list. intros H.
  apply bind_inr_inv in H as (config_dataset & _ & H).
  apply bind_inr_inv in H as (lists & Hlists & [= <-]).
  apply mapM_E_inr in Hlists. apply Forall_concat.
  induction Hlists as [|ls l lss lsts Hl _ IH]; constructor; [|done].
  apply expand_checked in Hl. eapply Forall_impl; [exact Hl|].
  intros scenario Hcheck. split; [done|].
  by apply check_scenario_passed in Hcheck as [? ?].
Qed.

(** X20. The entries of a configuration are expanded one by one, in
    order: the scenarios of a configuration made of two parts are
    those of the first part followed by those of the second, and the
    expansion returns exactly when the expansions of both parts do. *)
Theorem entries_are_expanded_in_order (config1 config2 : list dict) scenarios :
  get_scenario_params_list (config1 ++ config2) = inr scenarios ↔
  ∃ scenarios1 scenarios2,
    get_scenario_params_list config1 = inr scenarios1 ∧
    get_scenario_params_list config2 = inr scenarios2 ∧
    scenarios = scenarios1 ++ scenarios2.
Proof.
  unfold get_scenario_params_list. rewrite mapM_E_app.
  destruct (mapM split_datasets config1) as [e1|d1]; simpl.
  { split; [done|]. by intros (? & ? & ? & _). }
  destruct (mapM split_datasets config2) as [e2|d2]; simpl.
  { split; [done|]. intros (? & ? & _ & ? & _). done. }
  rewrite concat_app, mapM_E_app.
  destruct (mapM expand (concat d1)) as [e1|s1]; simpl.
  { split; [done|]. by intros (? & ? & ? & _). }
  destruct (mapM expand (concat d2)) as [e2|s2]; simpl.
  { split; [done|]. intros (? & ? & _ & ? & _). done. }
  rewrite concat_app. split.
  - intros [= <-]. by exists (concat s1), (concat s2).
  - intros (? & ? & [= <-] & [= <-] & ->). done.
Qed.

Lemma dict_get_set_eq {A} (d : list (string * A)) key v :
  dict_get (dict_set d key v) key = Some v.
Proof.
  induction d as [|[k x] d IH]; simpl.
  - by rewrite decide_True.
  - case_decide as Hk; simpl.
    + by rewrite decide_True.
    + by rewrite decide_False.
Qed.

Lemma dict_get_set_ne {A} (d : list (string * A)) key key' v :
  key ≠ key' → dict_get (dict_set d key v) key' = dict_get d key'.
Proof.
  intros Hne. induction d as [|[k x] d IH]; simpl.
  - by rewrite decide_False.
  - case_decide as Hk; simpl.
    + subst k. by rewrite !decide_False.
    + case_decide; [done|exact IH].
Qed.

(** The value a zipped scenario holds for a key of its entry is at
    the position of the entry's value for that key. *)
Lemma dict_get_zip (list_scenario : dict) (el : list value) key x :
  dict_get list_scenario key = Some x → length el = length list_scenario →
  ∃ i v, list_scenario.*2 !! i = Some x ∧ el !! i = Some v ∧
         dict_get (zip list_scenario.*1 el) key = Some v.
Proof.
  revert el. induction list_scenario as [|[k y] d IH]; intros el Hget Hlen; [done|].
  destruct el as [|v el]; [done|]. simpl in *. case_decide as Hk.
  - injection Hget as ->. by exists 0, v.
  - destruct (IH el Hget) as (i & w & ? & ? & ?); [lia|]. by exists (S i), w.
Qed.

(** Every scenario of an expansion holds, for every key of the
    entry, one of the values the entry lists for that key. *)
Lemma expand_values (list_scenario : dict) scenarios (scenario : dict) key x :
  expand list_scenario = inr scenarios → scenario ∈ scenarios →
  dict_get list_scenario key = Some x →
  ∃ l v, py_iter x = inr l ∧ v ∈ l ∧ dict_get scenario key = Some v.
Proof.
  intros H Hin Hget. apply expand_inr in H as [(params_list & Hparams & ->) _].
  apply list_elem_of_fmap in Hin as (el & -> & Hel).
  apply elem_of_product in Hel. apply mapM_E_inr in Hparams.
  assert (length el = length list_scenario) as Hlen.
  { apply Forall2_length in Hel, Hparams. rewrite length_fmap in Hparams. lia. }
  destruct (dict_get_zip list_scenario el key x Hget Hlen) as (i & v & Hx & Hv & Hsc).
  destruct (Forall2_lookup_l _ _ _ _ _ Hparams Hx) as (l & Hl & Hiter).
  destruct (Forall2_lookup_l _ _ _ _ _ Hel Hv) as (l' & Hl' & Hvl).
  exists l, v. by simplify_eq.
Qed.

(** X21. An entry whose [dataset_name] is a dictionary from data set
    names to initial models is expanded data set by data set: every
    scenario returned has one of the names as its [dataset_name], and
    its [init_model_from] is ['random_initialization'] when the
    dictionary holds [None] for the name and one of the values the
    dictionary lists for the name otherwise, whatever
    [init_model_from] the entry had. *)
Theorem scenarios_of_a_dataset_dictionary (list_scenario : dict) d scenarios :
  dict_get list_scenario "dataset_name" = Some (VDict d) →
  get_scenario_params_list [list_scenario] = inr scenarios →
  Forall (λ scenario : dict,
            ∃ dataset_name,
              dataset_name ∈ d.*1 ∧
              dict_get scenario "dataset_name" = Some (VStr dataset_name) ∧
              match dict_get d dataset_name with
              | Some VNone | None =>
                  dict_get scenario "init_model_from"
                  = Some (VStr "random_initialization")
              | Some init =>
                  ∃ l v, py_iter init = inr l ∧ v ∈ l ∧
                         dict_get scenario "init_model_from" = Some v
              end) scenarios.
Proof.
  intros Hd H. unfold get_scenario_params_list in H.
  apply bind_inr_inv in H as (config_dataset & Hsplit & H).
  apply bind_inr_inv in H as (lists & Hlists & [= <-]).
  change (mapM split_datasets [list_scenario])
    with (y ← split_datasets list_scenario; k ← mret []; mret (y :: k)) in Hsplit.
  unfold split_datasets, dict_item in Hsplit. rewrite Hd in Hsplit. simpl in Hsplit.
  injection Hsplit as <-. simpl in Hlists. rewrite app_nil_r in Hlists.
  apply mapM_E_inr in Hlists. apply Forall_concat, Forall_forall.
  intros scs Hscs. apply list_elem_of_lookup in Hscs as [i Hi].
  destruct (Forall2_lookup_r _ _ _ _ _ Hlists Hi) as (e & He & Hexp).
  rewrite list_lookup_fmap in He.
  destruct (d.*1 !! i) as [dataset_name|] eqn:Hname; [|done].
  injection He as <-. apply Forall_forall. intros scenario Hin.
  exists dataset_name. split; [by eapply list_elem_of_lookup_2|].
  set (named := dict_set list_scenario "dataset_name" (VList [VStr dataset_name])) in *.
  assert (∀ init, dict_get (dict_set named "init_model_from" init) "dataset_name"
                  = Some (VList [VStr dataset_name])) as Hdn.
  { intros init. rewrite dict_get_set_ne by done. apply dict_get_set_eq. }
  split.
  - assert (∃ l v, py_iter (VList [VStr dataset_name]) = inr l ∧ v ∈ l ∧
                   dict_get scenario "dataset_name" = Some v) as (l & v & [= <-] & Hv & ->).
    { destruct (dict_get d dataset_name) as [[]|];
        eapply (expand_values _ _ _ _ _ Hexp Hin); apply Hdn. }
    by apply list_elem_of_singleton in Hv as ->.
  - destruct (dict_get d dataset_name) as [init|] eqn:Hinit.
    + destruct init;
        try (eapply (expand_values _ _ _ _ _ Hexp Hin); apply dict_get_set_eq).
      destruct (expand_values _ _ _ "init_model_from" _ Hexp Hin (dict_get_set_eq _ _ _))
        as (l & v & [= <-] & Hv & ->).
      by apply list_elem_of_singleton in Hv as ->.
    + destruct (expand_values _ _ _ "init_model_from" _ Hexp Hin (dict_get_set_eq _ _ _))
        as (l & v & [= <-] & Hv & ->).
      by apply list_elem_of_singleton in Hv as ->.
Qed.
End utils_facts.

Section mpl_kwargs_facts.
Import Py ScenarioMethods.

Lemma str_remove_absent old (s : string) :
  occurs old s = false → str_remove old 0 s = s.
Proof.
  induction s as [|c s IH]; [done|]. cbn [occurs str_remove].
  intros [Hp Hs]%orb_false_iff. rewrite Hp. by rewrite IH.
Qed.

Lemma prefix_empty (s : string) : String.prefix "" s = true.
Proof. by destruct s. Qed.

Lemma prefix_mpl name : String.prefix "mpl_" ("mpl_" +:+ name) = true.
Proof. simpl. apply prefix_empty. Qed.

Lemma string_app_inj (s a b : string) : (s +:+ a = s +:+ b)%string → a = b.
Proof. induction s as [|c s IH]; [done|]. intros [= H]. by apply IH. Qed.

Lemma str_remove_mpl name :
  occurs "mpl_" name = false → str_remove "mpl_" 0 ("mpl_" +:+ name) = name.
Proof.
  intros H. simpl. change ("" +:+ name)%string with name.
  rewrite prefix_empty. by apply str_remove_absent.
Qed.

Local Abbreviation step :=
  (λ (mpl_kwargs : list (string * value)) (kv : string * value),
     if String.prefix "mpl_" kv.1
     then dict_set mpl_kwargs (str_remove "mpl_" 0 kv.1) kv.2
     else mpl_kwargs).

Lemma mpl_kwargs_from (kwargs acc : list (string * value)) name :
  NoDup kwargs.*1 → Forall plain kwargs.*1 → occurs "mpl_" name = false →
  dict_get (foldl step acc kwargs) name
  = match dict_get kwargs ("mpl_" +:+ name) with
    | Some v => Some v
    | None => dict_get acc name
    end.
Proof.
  intros Hnd Hplain Hname. revert acc.
  induction kwargs as [|[key v] kwargs IH]; intros acc; [done|].
  rewrite fmap_cons in Hnd, Hplain. simpl in Hnd, Hplain.
  apply NoDup_cons in Hnd as [Hkey Hnd]. apply Forall_cons in Hplain as [Hk Hplain].
  cbn [foldl dict_get fst snd]. rewrite IH by done.
  destruct (String.prefix "mpl_" key) eqn:Hp.
  - destruct (Hk Hp) as (n & -> & Hn). rewrite str_remove_mpl by done.
    case_decide as Heq.
    + apply string_app_inj in Heq as ->.
      assert (dict_get kwargs ("mpl_" +:+ name) = None) as ->.
      { destruct (dict_get kwargs ("mpl_" +:+ name)) as [w|] eqn:Hw; [|done].
        exfalso. apply Hkey. clear -Hw.
        induction kwargs as [|[k x] kwargs IH]; [done|]. simpl in *.
        case_decide; [subst; left|right; by apply IH]. }
      apply dict_get_set_eq.
    + destruct (dict_get kwargs ("mpl_" +:+ name)); [done|].
      apply dict_get_set_ne. intros ->. done.
  - rewrite decide_False; [done|]. intros ->. by rewrite prefix_mpl in Hp.
Qed.

(** X15. The keywords of the learning approach. When the keywords are
    distinct and no keyword that starts with [mpl_] holds a further
    [mpl_], the keyword [mpl_X] is transferred as [X] with its value,
    and nothing else is: [X] is set exactly when [mpl_X] is given. *)
Theorem mpl_keywords_are_transferred (kwargs : list (string * value)) name :
  NoDup kwargs.*1 → Forall plain kwargs.*1 → occurs "mpl_" name = false →
  dict_get (mpl_kwargs kwargs) name = dict_get kwargs ("mpl_" +:+ name).
Proof.
  intros Hnd Hplain Hname. unfold mpl_kwargs.
  rewrite (mpl_kwargs_from kwargs [] name) by done.
  by destruct (dict_get kwargs ("mpl_" +:+ name)).
Qed.
End mpl_kwargs_facts.

Section more_utils_examples.
Import Py Utils UtilsChecks ScenarioMethods.

Lemma toy_entry_expands : ∃ scenarios, expand ToyMore.entry = inr scenarios.
Proof. vm_compute. eexists. reflexivity. Defined.

Lemma expand_returns_every_combination_witness :
  ∃ scenarios params_list,
    expand ToyMore.entry = inr scenarios ∧
    mapM py_iter ToyMore.entry.*2 = inr params_list ∧
    length scenarios = combinations params_list ∧
    Forall (λ scenario : dict, scenario.*1 = ToyMore.entry.*1) scenarios ∧
    ∀ scenario : dict,
      scenario ∈ scenarios ↔
      ∃ el, Forall2 (λ x l, x ∈ l) el params_list ∧ scenario = zip ToyMore.entry.*1 el.
Proof.
  destruct toy_entry_expands as [scenarios Hs].
  destruct (expand_returns_every_combination ToyMore.entry scenarios Hs)
    as (params_list & H).
  by exists scenarios, params_list.
Defined.

(** The entry of the witness lists 1, 1, 1, 2 and 3 values: it gives
    six scenarios. *)
Example toy_entry_gives_six_scenarios :
  (scenarios ← expand ToyMore.entry; mret (length scenarios)) = inr 6.
Proof. by vm_compute. Qed.

Lemma empty_value_list_yields_nothing_witness :
  expand [("dataset_name"%string, VList [VStr "mnist"]);
          ("amounts_per_partner"%string, VList [])] = inr [].
Proof.
  apply (empty_value_list_yields_nothing
           [("dataset_name"%string, VList [VStr "mnist"]);
            ("amounts_per_partner"%string, VList [])]
           [[VStr "mnist"]; []]).
  - reflexivity.
  - right. left.
Defined.

Lemma scalar_parameter_is_a_type_error_witness :
  expand [("dataset_name"%string, VList [VStr "mnist"]);
          ("partners_count"%string, VInt 3)] = inl TypeError.
Proof.
  apply (scalar_parameter_is_a_type_error
           [("dataset_name"%string, VList [VStr "mnist"]);
            ("partners_count"%string, VInt 3)]
           "partners_count" (VInt 3)).
  - right. left.
  - exact I.
Defined.

Lemma toy_config_expands :
  ∃ scenarios, get_scenario_params_list [ToyMore.entry] = inr scenarios.
Proof. vm_compute. eexists. reflexivity. Defined.

Lemma returned_scenarios_are_consistent_witness :
  ∃ scenarios,
    get_scenario_params_list [ToyMore.entry] = inr scenarios ∧
    Forall (λ scenario : dict,
              check_scenario scenario.*1 scenario = inr () ∧
              advanced_split_matches scenario ∧
              corrupted_datasets_match scenario) scenarios.
Proof.
  destruct toy_config_expands as [scenarios Hs]. exists scenarios. split; [exact Hs|].
  apply (returned_scenarios_are_consistent [ToyMore.entry] scenarios Hs).
Defined.

(** With three partners announced the advanced split of two is
    refused. *)
Example advanced_split_of_another_size_is_refused :
  get_scenario_params_list
    [[("dataset_name"%string, VList [VStr "mnist"]);
      ("partners_count"%string, VList [VInt 3]);
      ("amounts_per_partner"%string, VList [VList [VInt 1; VInt 0; VInt 0]]);
      ("samples_split_option"%string,
       VList [VList [VStr "advanced"; VList [VList []; VList []]]])]]
  = inl Exception.
Proof. by vm_compute. Qed.

Lemma toy_datasets_expand :
  ∃ scenarios, get_scenario_params_list [ToyMore.entry_of_datasets] = inr scenarios.
Proof. vm_compute. eexists. reflexivity. Defined.

Lemma scenarios_of_a_dataset_dictionary_witness :
  ∃ scenarios,
    get_scenario_params_list [ToyMore.entry_of_datasets] = inr scenarios ∧
    Forall (λ scenario : dict,
              ∃ dataset_name,
                dataset_name ∈ ["mnist"; "cifar10"]%string ∧
                dict_get scenario "dataset_name" = Some (VStr dataset_name) ∧
                match dict_get [("mnist"%string, VNone);
                                ("cifar10"%string,
                                 VList [VStr "first.h5"; VStr "second.h5"])]
                               dataset_name with
                | Some VNone | None =>
                    dict_get scenario "init_model_from"
                    = Some (VStr "random_initialization")
                | Some init =>
                    ∃ l v, py_iter init = inr l ∧ v ∈ l ∧
                           dict_get scenario "init_model_from" = Some v
                end) scenarios.
Proof.
  destruct toy_datasets_expand as [scenarios Hs]. exists scenarios. split; [exact Hs|].
  apply (scenarios_of_a_dataset_dictionary ToyMore.entry_of_datasets
           [("mnist"%string, VNone);
            ("cifar10"%string, VList [VStr "first.h5"; VStr "second.h5"])]
           scenarios).
  - reflexivity.
  - exact Hs.
Defined.

Lemma mpl_keywords_are_transferred_witness :
  dict_get (mpl_kwargs [("scenario_name"%string, VStr "demo"); ("mpl_lr"%string, VInt 1)])
           "lr"
  = dict_get [("scenario_name"%string, VStr "demo"); ("mpl_lr"%string, VInt 1)]
             ("mpl_" +:+ "lr").
Proof.
  apply (mpl_keywords_are_transferred
           [("scenario_name"%string, VStr "demo"); ("mpl_lr"%string, VInt 1)] "lr").
  - apply (bool_decide_unpack _). by vm_compute.
  - repeat constructor.
    + intros H. discriminate H.
    + intros _. exists "lr"%string. split; reflexivity.
  - reflexivity.
Defined.

(** Keywords that are not plain may meet: [mpl_mpl_a] and [mpl_a] are
    both transferred as [a], and the one given last wins. *)
Example mpl_keywords_may_meet :
  mpl_kwargs [("mpl_a"%string, VInt 1); ("mpl_mpl_a"%string, VInt 2)]
  = [("a"%string, VInt 2)].
Proof. reflexivity. Qed.
End more_utils_examples.

(** ** Experiments *)

Section experiment_facts.
Import Py Experiment.
Context {ScenarioObject Other : Type}.
Variable path_in_experiments_folder : string → string.
Variable parents : string → FS.

Local Abbreviation define_experiment_path :=
  (define_experiment_path path_in_experiments_folder parents).
Local Abbreviation init :=
  (init (ScenarioObject:=ScenarioObject) path_in_experiments_folder parents).

Lemma string_length_app (s1 s2 : string) :
  String.length (s1 +:+ s2) = String.length s1 + String.length s2.
Proof. induction s1 as [|c s1 IH]; simpl; [done|]. by rewrite IH. Qed.

Lemma with_bis_S k path : with_bis (S k) path = with_bis k (path +:+ "_bis").
Proof.
  unfold with_bis. induction k as [|k IH]; [done|].
  simpl in *. by rewrite IH.
Qed.

Lemma with_bis_length k path :
  String.length (with_bis k path) = String.length path + 4 * k.
Proof.
  unfold with_bis. induction k as [|k IH]; simpl; [lia|].
  rewrite string_length_app, IH. simpl. lia.
Qed.

Lemma with_bis_inj path : Inj (=) (=) (λ k, with_bis k path).
Proof.
  intros j k H. apply (f_equal String.length) in H.
  rewrite !with_bis_length in H. lia.
Qed.

(** The loop stops at the first path that does not exist. *)
Lemma first_free_spec fuel (fs : FS) path :
  (first_free fuel fs path = None ∧ ∀ j, j < fuel → with_bis j path ∈ fs) ∨
  ∃ k, k < fuel ∧ first_free fuel fs path = Some (with_bis k path) ∧
       with_bis k path ∉ fs ∧ ∀ j, j < k → with_bis j path ∈ fs.
Proof.
  revert path. induction fuel as [|fuel IH]; intros path; simpl.
  { left. split; [done|]. intros; lia. }
  case_decide as Hin.
  - destruct (IH (path +:+ "_bis")) as [[Hnone Hall]|(k & Hk & Hsome & Hout & Hall)].
    + left. split; [done|]. intros [|j] Hj; [done|].
      rewrite with_bis_S. apply Hall. lia.
    + right. exists (S k). rewrite with_bis_S. split; [lia|]. do 2 (split; [done|]).
      intros [|j] Hj; [done|]. rewrite with_bis_S. apply Hall. lia.
  - right. exists 0. split; [lia|]. do 2 (split; [done|]). intros; lia.
Qed.

(** With one turn more than there are paths, the loop finds one. *)
Lemma first_free_total (fs : FS) path :
  ∃ k, first_free (S (size fs)) fs path = Some (with_bis k path) ∧
       with_bis k path ∉ fs ∧ ∀ j, j < k → with_bis j path ∈ fs.
Proof.
  destruct (first_free_spec (S (size fs)) fs path)
    as [[_ Hall]|(k & _ & ? & ? & ?)]; [|by exists k].
  exfalso.
  set (tried := (λ k, with_bis k path) <$> seq 0 (S (size fs))).
  assert (NoDup tried) as Hnd.
  { apply (NoDup_fmap_2 _ (Inj0:=with_bis_inj path)). apply NoDup_seq. }
  assert (list_to_set tried ⊆ fs) as Hsub.
  { intros p Hp. apply elem_of_list_to_set, list_elem_of_fmap in Hp as (k & -> & Hk).
    apply elem_of_seq in Hk. apply Hall. lia. }
  apply subseteq_size in Hsub. rewrite size_list_to_set in Hsub by done.
  unfold tried in Hsub. rewrite length_fmap, length_seq in Hsub. lia.
Qed.

Lemma define_experiment_path_run (name now_str : string) (fs : FS) :
  let base := path_in_experiments_folder (name +:+ "_" +:+ now_str) in
  ∃ k,
    define_experiment_path name now_str fs
    = Some (with_bis k base, {[with_bis k base]} ∪ parents (with_bis k base) ∪ fs) ∧
    with_bis k base ∉ fs ∧ ∀ j, j < k → with_bis j base ∈ fs.
Proof.
  intros base. unfold Experiment.define_experiment_path. cbv zeta. fold base.
  destruct (first_free_total fs base) as (k & -> & Hout & Hall). by exists k.
Qed.

(** X22. [define_experiment_path] returns, whatever exists: the path it
    returns is the path of the experiment in the experiments folder
    followed by the least number of [_bis] for which nothing
    existed; it did not exist before and exists afterwards, and
    nothing that existed is removed. An experiment defined next, of
    whatever name and time, gets another path. *)
Theorem define_experiment_path_is_fresh (name now_str : string) (fs : FS) :
  ∃ k path fs',
    define_experiment_path name now_str fs = Some (path, fs') ∧
    path = with_bis k (path_in_experiments_folder (name +:+ "_" +:+ now_str)) ∧
    path ∉ fs ∧
    (∀ j, j < k →
          with_bis j (path_in_experiments_folder (name +:+ "_" +:+ now_str)) ∈ fs) ∧
    path ∈ fs' ∧ fs ⊆ fs' ∧
    ∀ name' now_str',
      ∃ path' fs'',
        define_experiment_path name' now_str' fs' = Some (path', fs'') ∧ path' ≠ path.
Proof.
  destruct (define_experiment_path_run name now_str fs) as (k & Hrun & Hout & Hall).
  eexists k, _, _. split; [exact Hrun|]. split; [done|]. split; [done|].
  split; [done|]. split; [set_solver|]. split; [set_solver|].
  intros name' now_str'.
  destruct (define_experiment_path_run name' now_str'
              ({[with_bis k (path_in_experiments_folder (name +:+ "_" +:+ now_str))]}
               ∪ parents (with_bis k (path_in_experiments_folder (name +:+ "_" +:+ now_str)))
               ∪ fs))
    as (k' & Hrun' & Hout' & _).
  eexists _, _. split; [exact Hrun'|]. intros Heq. apply Hout'. rewrite Heq. set_solver.
Qed.

Lemma add_scenarios_with_path (self : t ScenarioObject) path (to_add : list ScenarioObject) :
  experiment_path self = Some path →
  add_scenarios (Other:=Other) self (inl <$> to_add)
  = inr {| name := name self;
           scenarios_list := scenarios_list self ++ ((λ s, (s, path)) <$> to_add);
           nb_repeats := nb_repeats self;
           experiment_path := experiment_path self |}.
Proof.
  revert self. induction to_add as [|s to_add IH]; intros self Hpath; simpl.
  - rewrite app_nil_r. by destruct self.
  - rewrite Hpath. simpl. rewrite IH by done. simpl. by rewrite <- app_assoc.
Qed.

(** X23. An experiment is created without scenarios. Created with a
    name, it has a path that did not exist, and the scenarios added
    to it are kept in the order of their addition, each with the
    path of the experiment. Created without a name, or with the
    empty name, it has no path: nothing is created, and adding a
    scenario to it raises [AttributeError]. An object that is not a
    scenario is refused with [Exception] in both cases. *)
Theorem scenarios_are_added_in_order (experiment_name : option string) nb_repeats
    now_str (fs : FS) :
  ∃ self fs',
    init experiment_name nb_repeats now_str fs = Some (self, fs') ∧
    scenarios_list self = [] ∧
    (∀ other : Other, add_scenario self (inr other) = inl Exception) ∧
    match experiment_name with
    | Some (String _ _) =>
        ∃ path,
          experiment_path self = Some path ∧ path ∉ fs ∧ path ∈ fs' ∧
          ∀ to_add : list ScenarioObject,
            ∃ self',
              add_scenarios (Other:=Other) self (inl <$> to_add) = inr self' ∧
              scenarios_list self' = (λ s, (s, path)) <$> to_add
    | _ =>
        fs' = fs ∧
        ∀ scenario : ScenarioObject,
          add_scenario (Other:=Other) self (inl scenario) = inl AttributeError
    end.
Proof.
  unfold Experiment.init. destruct experiment_name as [[|c name]|]; simpl.
  - eexists _, _. split; [done|]. by repeat split.
  - destruct (define_experiment_path_run (String c name) now_str fs)
      as (k & Hrun & Hout & _).
    rewrite Hrun. simpl. eexists _, _. split; [done|]. split; [done|]. split; [done|].
    eexists. split; [done|]. split; [done|]. split; [set_solver|].
    intros to_add. eexists. split; [by apply add_scenarios_with_path|]. done.
  - eexists _, _. split; [done|]. by repeat split.
Qed.
End experiment_facts.

Section experiment_examples.
Import Py Experiment.

(** The folder of the experiment [demo] exists, and so does the one
    with [_bis]: the experiment gets the folder with two [_bis]. *)
Example experiment_folder_taken_twice :
  fst <$> define_experiment_path (λ name, "experiments/" +:+ name) (λ _, ∅)
            "demo" "2020-01-01_10h00"
            {[ "experiments/demo_2020-01-01_10h00"%string;
               "experiments/demo_2020-01-01_10h00_bis"%string ]}
  = Some "experiments/demo_2020-01-01_10h00_bis_bis"%string.
Proof. by vm_compute. Qed.
End experiment_examples.

(** ** The block under [if is_save_fig:] *)

Section save_facts.
Import Py Aggregation FlTraining Trace.
Context {Sample Label World F : Type} `{!Numpy F}.
Local Abbreviation Weights := (Weights F).
Variable generate_new_cnn_model : World → Weights * World.
Variable keras_fit :
  Weights → list Sample → list Label → nat → nat →
  list Sample → list Label → World → (Weights * History) * World.
Variable keras_evaluate : Weights → list Sample → list Label → nat → Qc * Qc.
Variables BATCH_SIZE PATIENCE : nat.
Variable file_io : request → World → option exn * World.

Variable arch : Shape.
Hypothesis generate_shape : ∀ wd, shape (generate_new_cnn_model wd).1 = arch.
Hypothesis fit_shape : ∀ w x y b k xv yv wd,
  shape w = arch → shape (keras_fit w x y b k xv yv wd).1.1 = arch.
Hypothesis fit_val_acc : ∀ w x y b xv yv wd,
  val_acc (keras_fit w x y b 1 xv yv wd).1.2 ≠ [].

Local Abbreviation event := (event Sample Label F).
Local Abbreviation state := (state Sample Label World F).
Local Abbreviation Node := (Node Sample Label).

(** X24. With [is_save_fig] and a string as [save_folder], as the
    default [''] is, a run on several nodes with a positive epoch
    count raises a [TypeError]: it trains, makes the final averaging
    step, and stops at the first [save_folder / ...], before any file
    is written and without evaluating the final model. *)
Theorem string_folder_is_a_type_error (node_list : list Node) x_test_global y_test_global
    is_early_stopping (s : string) epoch_count (st : state) :
  2 ≤ length node_list → 0 < epoch_count →
  ∃ trained halted final st',
    compute_test_score generate_new_cnn_model keras_fit keras_evaluate BATCH_SIZE PATIENCE
      file_io node_list x_test_global y_test_global is_early_stopping true (Str s)
      epoch_count st
    = (inl TypeError, st') ∧
    trace st' = trace st
                ++ loop_events node_list x_test_global y_test_global trained halted
                ++ [EvAverage (a_inputs final) (a_new_weights final);
                    EvNewModel (a_fresh final);
                    EvSetWeights (a_new_weights final)].
Proof.
  intros Hn HE.
  destruct (compute_test_score_run generate_new_cnn_model keras_fit keras_evaluate
              BATCH_SIZE PATIENCE file_io arch generate_shape fit_shape fit_val_acc
              node_list x_test_global y_test_global is_early_stopping
              true (Str s) epoch_count st Hn HE)
    as (trained & halted & prev & final & saves & evaluated & result & st' & Hrun & Htr
        & (_ & _ & Hstr & Hres) & _).
  destruct (Hstr s eq_refl eq_refl) as [-> ->].
  destruct evaluated; [discriminate Hres|].
  exists trained, halted, final, st'. split; [done|].
  rewrite Htr. unfold closing_events. by rewrite !app_nil_r.
Qed.


End save_facts.

Section save_examples.
Import Py Aggregation FlTraining Trace.

Lemma string_folder_is_a_type_error_witness :
  ∃ trained halted final st',
    compute_test_score Toy.generate Toy.fit_schedule Toy.evaluate Toy.BATCH_SIZE 2
      Toy.io_ok Toy.two_nodes [7; 7; 7] [7; 7; 7] true true (Str "") 10 Toy.st0
    = (inl TypeError, st') ∧
    trace st' = trace Toy.st0
                ++ loop_events Toy.two_nodes [7; 7; 7] [7; 7; 7] trained halted
                ++ [EvAverage (a_inputs final) (a_new_weights final);
                    EvNewModel (a_fresh final);
                    EvSetWeights (a_new_weights final)].
Proof.
  apply (string_folder_is_a_type_error
           Toy.generate Toy.fit_schedule Toy.evaluate Toy.BATCH_SIZE 2
           Toy.io_ok Toy.arch (λ _, eq_refl) (λ _ _ _ _ _ _ _ _ _, eq_refl)
           (λ _ _ _ _ _ _ _, ltac:(discriminate))
           Toy.two_nodes [7; 7; 7] [7; 7; 7] true "" 10 Toy.st0);
    simpl; lia.
Defined.

End save_examples.
